(** * Post-processing of benchmark tables: a shallow embedding

    This development embeds [post_processing.py] (class [PostProcessing]) and
    states its documented properties over the embedding.  It covers the stages
    of [run_post_processing]: [check_df_columns] and [apply_df_types] on the
    table as it is read, and on the typed table [sort_df], [filter_df] with
    [row_filter], [check_filtered_row_count] and [transform_df_data] with
    [transform_axis].  Reading the perflogs and plotting are outside of it.

    The Python code works on a pandas [DataFrame] held in [self.df].  The
    embedding keeps the same function names and threads the table explicitly:
    a method that mutates [self.df] takes the table and returns the new one.
    A Python exception is a value [Raise cls args] carried by the [result]
    monad, with the exception class and the [args] tuple of the source.

    pandas and numpy primitives are modelled at their documented behaviour on
    the four column types that [apply_df_types] establishes ([object],
    [float64], [Int64], [datetime64[ns]]):
    - [float64] cells are IEEE binary64 numbers (Rocq's primitive floats);
      the missing value of such a column is NaN;
    - comparisons of a nullable [Int64] column yield a nullable boolean
      ([None] is [pd.NA]) and masks combine with Kleene logic;
    - boolean indexing treats [pd.NA] as [False];
    - [/] on arrays is numpy's true division with 1-d broadcasting; the
      quotients are floats, and [.loc] casts them to the type of the column
      it writes them into: an [Int64] column takes the quotients that are
      integers and refuses the others;
    - the integers of an [Int64] column are those of 64 bits;
    - [sort_values] on several columns is pandas' stable lexicographic sort;
      on one column it runs numpy's [argsort] of the given [kind], which
      [sort_df] leaves to its default, ["quicksort"]: that algorithm is a
      parameter of [sort_df] here, and numpy's own is [np_quicksort];
      a column whose cells are of different kinds is a [TypeError].
    Where Python parses a string (float(), int(), to_datetime) the parser is a
    parameter [P : pyparse] of the embedding.  A mask has one boolean per
    record of the table it is used with. *)

From Stdlib Require Import ZArith List String Ascii Bool Lia Arith.
From Stdlib Require Import Permutation Sorted Floats.
Import ListNotations.

Set Implicit Arguments.
Local Open Scope string_scope.
Local Open Scope list_scope.

(** ** Cells and column types *)

(** The canonical column types of [apply_df_types]. *)
Inductive dtype : Type :=
| Dobject
| Dfloat64
| DInt64
| Ddatetime64.

(** A cell, or a literal of the configuration.  [VNone] is Python's [None]
    and, inside a column, pandas' [pd.NA] / [NaT].  A time stamp is its number
    of nanoseconds since the epoch. *)
Inductive value : Type :=
| VNone
| VInt (z : Z)
| VFloat (f : float)
| VStr (s : string)
| VStamp (ns : Z).

(** [pd.api.types.is_numeric_dtype] on the canonical types. *)
Definition is_numeric_dtype (d : dtype) : bool :=
  match d with
  | Dfloat64 | DInt64 => true
  | Dobject | Ddatetime64 => false
  end.

(** Python's [float(z)] for an integer: round to nearest even. *)
Definition float_of_Z (z : Z) : float :=
  SF2Prim (binary_normalize prec emax z 0 false).

(** The integer a float denotes, when it denotes one. *)
Definition Z_of_float (f : float) : option Z :=
  match Prim2SF f with
  | S754_zero _ => Some 0%Z
  | S754_finite s m e =>
      let sign := if s then (-1)%Z else 1%Z in
      if (0 <=? e)%Z then Some (sign * (Z.pos m * 2 ^ e))%Z
      else if (Z.pos m mod 2 ^ (- e) =? 0)%Z
           then Some (sign * (Z.pos m / 2 ^ (- e)))%Z
           else None
  | S754_infinity _ | S754_nan => None
  end.

(** [Series.isnull] on one cell: [None], [pd.NA], [NaT] and NaN. *)
Definition isnull (v : value) : bool :=
  match v with
  | VNone => true
  | VFloat f => is_nan f
  | _ => false
  end.

Definition notnull (v : value) : bool := negb (isnull v).

(** Python truthiness of a configuration literal ([if d.get(key):]). *)
Definition py_truthy (v : value) : bool :=
  match v with
  | VNone => false
  | VInt z => negb (z =? 0)%Z
  | VFloat f => negb (f =? 0)%float
  | VStr s => negb (s =? "")
  | VStamp _ => true
  end.

(** ** Exceptions and the error monad *)

Inductive pyclass : Type :=
| KeyError
| IndexError
| TypeError
| ValueError
| RuntimeError
| EmptyDataError
| OverflowError.

(** A piece of a formatted message: literal text, or a formatted object. *)
Inductive frag : Type :=
| Lit (s : string)
| Num (n : nat)
| Obj (v : value)
| Name (c : string).

Definition message := list frag.

(** One element of an exception's [args] tuple. *)
Inductive arg : Type :=
| AMsg (m : message)
| AStr (s : string)
| AList (l : list string)
| AIndex (l : list nat)
| AFrame (cells : list (list value)).

Inductive exn : Type :=
| Raise (cls : pyclass) (args : list arg).

Definition exn_class (e : exn) : pyclass := let '(Raise c _) := e in c.

Inductive result (A : Type) : Type :=
| Ok (a : A)
| Err (e : exn).

Arguments Ok {A} a.
Arguments Err {A} e.

Definition bind {A B : Type} (r : result A) (k : A -> result B) : result B :=
  match r with
  | Ok a => k a
  | Err e => Err e
  end.

Notation "x <- r ;; k" := (bind r (fun x => k))
  (at level 61, r at next level, right associativity).
Notation "' p <- r ;; k" := (bind r (fun p => k))
  (at level 61, p pattern, r at next level, right associativity).

Definition raise {A : Type} (c : pyclass) (args : list arg) : result A :=
  Err (Raise c args).

(** ** Tables *)

(** A record of the table: the cell it holds under each column label. *)
Definition row := string -> value.

(** A [DataFrame]: the labels and types of its columns, and its records in
    index order.  After [sort_values(..., ignore_index=True)] the index is
    [0 .. n-1], so a record is identified by its position. *)
Record DataFrame : Type := mkDF {
  df_dtypes : list (string * dtype);
  df_rows : list row
}.

(** A column: what [df[label]] returns (a [Series]). *)
Record Series : Type := mkSeries {
  s_dtype : dtype;
  s_values : list value
}.

Fixpoint lookup_dtype (c : string) (ds : list (string * dtype)) : option dtype :=
  match ds with
  | [] => None
  | (c', d) :: ds' => if c =? c' then Some d else lookup_dtype c ds'
  end.

(** [df[label]]: a missing label raises [KeyError(label)]. *)
Definition getitem (df : DataFrame) (c : string) : result Series :=
  match lookup_dtype c (df_dtypes df) with
  | Some d => Ok (mkSeries d (map (fun r => r c) (df_rows df)))
  | None => raise KeyError [AStr c]
  end.

(** [r] with the cell under [c] replaced by [v]. *)
Definition upd (r : row) (c : string) (v : value) : row :=
  fun c' => if c' =? c then v else r c'.

(** ** Masks *)

(** A boolean [Series]; [None] is [pd.NA] (nullable boolean). *)
Definition Mask := list (option bool).

(** Kleene conjunction and disjunction, the [&] and [|] of nullable booleans. *)
Definition and3 (a b : option bool) : option bool :=
  match a, b with
  | Some false, _ | _, Some false => Some false
  | Some true, Some true => Some true
  | _, _ => None
  end.

Definition or3 (a b : option bool) : option bool :=
  match a, b with
  | Some true, _ | _, Some true => Some true
  | Some false, Some false => Some false
  | _, _ => None
  end.

Fixpoint map2 {A B C : Type} (f : A -> B -> C) (l : list A) (l' : list B) : list C :=
  match l, l' with
  | a :: t, b :: t' => f a b :: map2 f t t'
  | _, _ => []
  end.

Definition mask_and (m m' : Mask) : Mask := map2 and3 m m'.
Definition mask_or (m m' : Mask) : Mask := map2 or3 m m'.

(** A position is selected when the mask holds [True] there: boolean indexing
    reads [pd.NA] as [False]. *)
Definition selected (b : option bool) : bool :=
  match b with
  | Some true => true
  | _ => false
  end.

(** [xs[mask]]: the elements at the selected positions. *)
Fixpoint select {A : Type} (m : Mask) (xs : list A) : list A :=
  match m, xs with
  | b :: m', x :: xs' => if selected b then x :: select m' xs' else select m' xs'
  | _, _ => []
  end.

(** ** Comparisons *)

(** The values of [op_lookup]: [op.eq], [op.ne], [op.lt], [op.gt], [op.le],
    [op.ge]. *)
Inductive cmp_op : Type :=
| op_eq
| op_ne
| op_lt
| op_gt
| op_le
| op_ge.

(** The operator lookup dictionary ([dict.get]: an unknown key gives [None]). *)
Definition op_lookup (s : string) : option cmp_op :=
  if s =? "==" then Some op_eq
  else if s =? "!=" then Some op_ne
  else if s =? "<" then Some op_lt
  else if s =? ">" then Some op_gt
  else if s =? "<=" then Some op_le
  else if s =? ">=" then Some op_ge
  else None.

Definition is_op_eq (o : cmp_op) : bool :=
  match o with
  | op_eq => true
  | _ => false
  end.

Definition is_op_ne (o : cmp_op) : bool :=
  match o with
  | op_ne => true
  | _ => false
  end.

(** What an operator answers on the outcome of a total order. *)
Definition ord_result (o : cmp_op) (c : comparison) : bool :=
  match o, c with
  | op_eq, Eq => true
  | op_eq, _ => false
  | op_ne, Eq => false
  | op_ne, _ => true
  | op_lt, Lt => true
  | op_lt, _ => false
  | op_gt, Gt => true
  | op_gt, _ => false
  | op_le, Gt => false
  | op_le, _ => true
  | op_ge, Lt => false
  | op_ge, _ => true
  end.

(** IEEE comparisons: every ordered comparison with NaN is false. *)
Definition float_cmp (o : cmp_op) (a b : float) : bool :=
  match o with
  | op_eq => (a =? b)%float
  | op_ne => negb (a =? b)%float
  | op_lt => (a <? b)%float
  | op_gt => (b <? a)%float
  | op_le => (a <=? b)%float
  | op_ge => (b <=? a)%float
  end.

(** Python's rich comparison of two scalars; [None] when the operands cannot
    be ordered (Python raises [TypeError]).  Objects of unrelated types are
    unequal. *)
Definition py_compare (o : cmp_op) (a b : value) : option bool :=
  match a, b with
  | VInt x, VInt y => Some (ord_result o (x ?= y)%Z)
  | VFloat x, VFloat y => Some (float_cmp o x y)
  | VInt x, VFloat y => Some (float_cmp o (float_of_Z x) y)
  | VFloat x, VInt y => Some (float_cmp o x (float_of_Z y))
  | VStr x, VStr y => Some (ord_result o (String.compare x y))
  | VStamp x, VStamp y => Some (ord_result o (x ?= y)%Z)
  | _, _ =>
      match o with
      | op_eq => Some false
      | op_ne => Some true
      | _ => None
      end
  end.

(** One cell of [operator(df[column], value)].  A missing cell of a nullable
    integer column compares to [pd.NA]; in the other column types a missing
    operand makes every comparison false, except [!=].  The outer [None] is a
    [TypeError]. *)
Definition compare_cell (d : dtype) (o : cmp_op) (c v : value) : option (option bool) :=
  if isnull c || isnull v then
    match d with
    | DInt64 => Some None
    | _ => Some (Some (is_op_ne o))
    end
  else option_map Some (py_compare o c v).

Fixpoint sequence {A : Type} (l : list (option A)) : option (list A) :=
  match l with
  | [] => Some []
  | Some a :: t => option_map (cons a) (sequence t)
  | None :: _ => None
  end.

Definition op_symbol (o : cmp_op) : string :=
  match o with
  | op_eq => "=="
  | op_ne => "!="
  | op_lt => "<"
  | op_gt => ">"
  | op_le => "<="
  | op_ge => ">="
  end.

(** [operator(series, value)]. *)
Definition compare_series (o : cmp_op) (s : Series) (v : value) : result Mask :=
  match sequence (map (fun c => compare_cell (s_dtype s) o c v) (s_values s)) with
  | Some m => Ok m
  | None =>
      raise TypeError
        [AMsg [Lit "'"; Lit (op_symbol o);
               Lit "' not supported between instances of the column's cells and "; Obj v]]
  end.

(** ** Coercion of a literal to a column type *)

(** Python's parsers of strings, left as parameters: [float(s)], [int(s)]
    and the parser of time stamps; [None] when the string is rejected. *)
Record pyparse : Type := mkParse {
  str_to_float : string -> option float;
  str_to_int : string -> option Z;
  str_to_datetime : string -> option Z
}.

Section Parsers.

Variable P : pyparse.

(** An integer as a cell of an [Int64] column: the integers of 64 bits.
    numpy holds an integer from [2^63] to [2^64 - 1] as a [uint64], which
    cannot be cast safely; an integer further out does not fit a C long. *)
Definition int64_cell (z : Z) : result value :=
  if ((- 2 ^ 63 <=? z) && (z <? 2 ^ 63))%Z then Ok (VInt z)
  else if ((2 ^ 63 <=? z) && (z <? 2 ^ 64))%Z
  then raise TypeError [AMsg [Lit "cannot safely cast non-equivalent uint64 to int64"]]
  else raise OverflowError [AMsg [Lit "Python int too large to convert to C long"]].

(** A float as a cell of an [Int64] column: NaN is the missing value, a
    float that denotes an integer of 64 bits is that integer, and no other
    float can be cast safely, a [TypeError]. *)
Definition float_to_int64 (f : float) : result value :=
  if is_nan f then Ok VNone
  else match Z_of_float f with
       | Some z =>
           if ((- 2 ^ 63 <=? z) && (z <? 2 ^ 63))%Z then Ok (VInt z)
           else raise TypeError
                  [AMsg [Lit "cannot safely cast non-equivalent float64 to int64"]]
       | None =>
           raise TypeError [AMsg [Lit "cannot safely cast non-equivalent float64 to int64"]]
       end.

(** [pd.Series(value, dtype=d).iloc[0]]: the literal as a scalar of the column
    type.  A string that does not parse is a [ValueError]; a float that is not
    an integer cannot be cast safely to [Int64], a [TypeError]. *)
Definition pd_scalar (v : value) (d : dtype) : result value :=
  match d, v with
  | Dobject, _ => Ok v
  | Dfloat64, VNone => Ok (VFloat nan)
  | Dfloat64, VInt z => Ok (VFloat (float_of_Z z))
  | Dfloat64, VFloat _ => Ok v
  | Dfloat64, VStr s =>
      match str_to_float P s with
      | Some f => Ok (VFloat f)
      | None => raise ValueError [AMsg [Lit "could not convert string to float: "; Obj v]]
      end
  | Dfloat64, VStamp _ =>
      raise TypeError [AMsg [Lit "float() argument must be a string or a real number, not "; Obj v]]
  | DInt64, VNone => Ok VNone
  | DInt64, VInt z => int64_cell z
  | DInt64, VFloat f => float_to_int64 f
  | DInt64, VStr s =>
      match str_to_int P s with
      | Some z => int64_cell z
      | None => raise ValueError [AMsg [Lit "invalid literal for int() with base 10: "; Obj v]]
      end
  | DInt64, VStamp _ =>
      raise TypeError [AMsg [Lit "int() argument must be a string or a real number, not "; Obj v]]
  | Ddatetime64, VNone => Ok VNone
  | Ddatetime64, VInt z => Ok (VStamp z)
  | Ddatetime64, VFloat f =>
      if is_nan f then Ok VNone
      else match Z_of_float f with
           | Some z => Ok (VStamp z)
           | None => raise TypeError [AMsg [Lit "cannot cast a fractional float to datetime64[ns]: "; Obj v]]
           end
  | Ddatetime64, VStr s =>
      match str_to_datetime P s with
      | Some t => Ok (VStamp t)
      | None => raise ValueError [AMsg [Lit "Unknown datetime string format, unable to parse: "; Obj v]]
      end
  | Ddatetime64, VStamp _ => Ok v
  end.

(** ** [row_filter] *)

(** A filter condition: column name, operator, value. *)
Definition filter_cond : Type := string * string * value.

(** [e.args = (e.args[0] + suffix,)]: the first argument, extended; the other
    arguments are dropped. *)
Definition annotate (e : exn) (suffix : message) : exn :=
  match e with
  | Raise c (AMsg m :: _) => Raise c [AMsg (m ++ suffix)]
  | Raise c (AStr s :: _) => Raise c [AMsg (Lit s :: suffix)]
  | Raise _ [] => Raise IndexError [AMsg [Lit "tuple index out of range"]]
  | Raise _ (_ :: _) => Raise TypeError [AMsg [Lit "can only concatenate str to the first argument"]]
  end.

(** The text appended by the handler of [row_filter]. *)
Definition filter_suffix (column : string) (value : value) : message :=
  [Lit " for column '"; Name column; Lit "' and value '"; Obj value; Lit "'"].

(** [except TypeError or ValueError as e]: the expression
    [TypeError or ValueError] evaluates to its first operand, the class
    [TypeError], so this is the only class the handler catches. *)
Definition row_filter_catches (e : exn) : bool :=
  match exn_class e with
  | TypeError => true
  | _ => false
  end.

(** [row_filter]: the mask of a filter condition over the table. *)
Definition row_filter (f : filter_cond) (df : DataFrame) : result Mask :=
  let '(column, str_op, value) := f in
  (* check operator validity *)
  match op_lookup str_op with
  | None => raise KeyError [AStr "Unknown comparison operator"; AStr str_op]
  | Some operator =>
      (* evaluate expression and extract dataframe mask *)
      match value with
      | VNone =>
          s <- getitem df column ;;
          Ok (map (fun c => Some (if is_op_eq operator then isnull c else notnull c))
                  (s_values s))
      | _ =>
          s <- getitem df column ;;
          (* interpret comparison value as column dtype *)
          match pd_scalar value (s_dtype s) with
          | Err e =>
              if row_filter_catches e
              then Err (annotate e (filter_suffix column value))
              else Err e
          | Ok value' =>
              match compare_series operator s value' with
              | Err e =>
                  if row_filter_catches e
                  then Err (annotate e (filter_suffix column value'))
                  else Err e
              | Ok m => Ok m
              end
          end
      end
  end.

(** ** [filter_df] *)

(** [functools.reduce(op, (row_filter(f, df) for f in fs))]: the generator is
    consumed from the left, the first mask is the initial accumulator, and the
    first failing condition stops the evaluation. *)
Fixpoint reduce_from (op : Mask -> Mask -> Mask) (acc : Mask)
  (fs : list filter_cond) (df : DataFrame) : result Mask :=
  match fs with
  | [] => Ok acc
  | f :: fs' => m <- row_filter f df ;; reduce_from op (op acc m) fs' df
  end.

Definition reduce_filters (op : Mask -> Mask -> Mask) (fs : list filter_cond)
  (df : DataFrame) : result Mask :=
  match fs with
  | [] => raise TypeError [AMsg [Lit "reduce() of empty iterable with no initial value"]]
  | f :: fs' => m <- row_filter f df ;; reduce_from op m fs' df
  end.

(** [df[mask].empty]: no record is selected, or the table has no column. *)
Definition masked_empty (df : DataFrame) (m : Mask) : bool :=
  (List.length (select m (df_rows df)) =? 0)%nat || (List.length (df_dtypes df) =? 0)%nat.

(** [df[mask].index]: the positions of the selected records. *)
Definition masked_index (df : DataFrame) (m : Mask) : list nat :=
  select m (seq 0 (List.length (df_rows df))).

(** [filter_df]: the mask composed from the three groups of conditions. *)
Definition filter_df (df : DataFrame)
  (and_filters or_filters series_filters : list filter_cond) : result Mask :=
  let mask : Mask := map (fun _ => Some true) (df_rows df) in
  (* filter rows *)
  mask <- match and_filters with
          | [] => Ok mask
          | _ :: _ => reduce_filters mask_and and_filters df
          end ;;
  mask <- match or_filters with
          | [] => Ok mask
          | _ :: _ => m <- reduce_filters mask_or or_filters df ;; Ok (mask_and mask m)
          end ;;
  (* apply series filters *)
  mask <- match series_filters with
          | [] => Ok mask
          | _ :: _ => m <- reduce_filters mask_or series_filters df ;; Ok (mask_and mask m)
          end ;;
  (* ensure not all rows are filtered away *)
  if masked_empty df mask
  then raise EmptyDataError [AStr "Filtered dataframe is empty"; AIndex (masked_index df mask)]
  else Ok mask.

(** ** Configuration *)

(** [y_axis["scaling"]["column"]]: the baseline column, optionally narrowed to
    the series filter of index [col_series] and to one x-axis value. *)
Record scaling_column_cfg : Type := mkScalingColumn {
  col_name : string;
  col_series : option Z;
  col_x_value : option value
}.

(** [y_axis["scaling"]], a non-empty dictionary; [None] in a field is a
    missing key. *)
Record scaling_cfg : Type := mkScaling {
  sc_column : option scaling_column_cfg;
  sc_custom : option value
}.

(** An axis of the configuration: its column ([axis["value"]]) and its
    scaling.  [ax_scaling = None] is a missing or empty [scaling] entry. *)
Record axis : Type := mkAxis {
  ax_value : string;
  ax_scaling : option scaling_cfg
}.

(** ** [sort_df] *)

(** Ascending order of the cells of a column, missing values last.  A column
    holds cells of one kind; across kinds the order is by kind. *)
Definition kind_rank (v : value) : nat :=
  match v with
  | VInt _ => 0
  | VFloat _ => 1
  | VStr _ => 2
  | VStamp _ => 3
  | VNone => 4
  end.

Definition cell_leb (a b : value) : bool :=
  if isnull b then true
  else if isnull a then false
  else match a, b with
       | VInt x, VInt y => (x <=? y)%Z
       | VFloat x, VFloat y => (x <=? y)%float
       | VStr x, VStr y => String.leb x y
       | VStamp x, VStamp y => (x <=? y)%Z
       | _, _ => (kind_rank a <=? kind_rank b)%nat
       end.

(** Lexicographic order of two records on the sorting columns. *)
Fixpoint lex_leb (by_ : list string) (r1 r2 : row) : bool :=
  match by_ with
  | [] => true
  | c :: by' =>
      if cell_leb (r1 c) (r2 c)
      then if cell_leb (r2 c) (r1 c) then lex_leb by' r1 r2 else true
      else false
  end.

(** Insertion of [x], which stood before the elements of [l], into the sorted
    [l]: [x] goes before the first element it is not greater than. *)
Fixpoint insert_sorted {A : Type} (leb : A -> A -> bool) (x : A) (l : list A) : list A :=
  match l with
  | [] => [x]
  | y :: t => if leb x y then x :: l else y :: insert_sorted leb x t
  end.

(** The stable sort: the result of every stable sorting algorithm. *)
Definition stable_sort {A : Type} (leb : A -> A -> bool) (l : list A) : list A :=
  fold_right (insert_sorted leb) [] l.

(** Insertion after the elements that are not greater: the insertion sort
    built on it sorts, and reverses the order of equal elements.  It stands
    for a sorting algorithm that is not stable. *)
Fixpoint insert_last {A : Type} (leb : A -> A -> bool) (x : A) (l : list A) : list A :=
  match l with
  | [] => [x]
  | y :: t => if leb y x then y :: insert_last leb x t else x :: l
  end.

Definition reversing_sort {A : Type} (leb : A -> A -> bool) (l : list A) : list A :=
  fold_right (insert_last leb) [] l.

(** [lexsort_indexer]: pandas sorts on several columns with a stable
    lexicographic sort. *)
Definition lexsort (by_ : list string) (rs : list row) : list row :=
  stable_sort (lex_leb by_) rs.

(** A sorting algorithm over records, given their order. *)
Definition sorter : Type := (row -> row -> bool) -> list row -> list row.

(** [nargsort]: pandas sorts on one column by sorting the records whose key is
    present with numpy's [argsort(kind=kind)] and appending the records whose
    key is missing, in their order.  [sort_df] leaves [kind] to its default,
    ["quicksort"]: the algorithm is the parameter [quicksort]. *)
Definition nargsort (quicksort : sorter) (c : string) (rs : list row) : list row :=
  quicksort (fun a b => cell_leb (a c) (b c)) (filter (fun r => notnull (r c)) rs)
  ++ filter (fun r => isnull (r c)) rs.

Definition has_column (df : DataFrame) (c : string) : bool :=
  match lookup_dtype c (df_dtypes df) with
  | Some _ => true
  | None => false
  end.

(** The present cells of a column are of one kind: the integers of an
    [Int64] column, the floats of a [float64] column, the time stamps of a
    [datetime64[ns]] column, the strings of a column of type [object].
    (pandas reads numbers into a numeric column: integers and floats do not
    meet in a column of type [object].) *)
Definition one_kind (vs : list value) : bool :=
  match filter notnull vs with
  | [] => true
  | v :: t => forallb (fun w => (kind_rank w =? kind_rank v)%nat) t
  end.

(** [df.sort_values(by, inplace=True, ignore_index=True)]: the labels must be
    columns of the table, and the present cells of each must be of one kind:
    Python does not order the cells of a column of type [object] that holds,
    say, strings and numbers, a [TypeError]. *)
Definition sort_values (quicksort : sorter) (by_ : list string) (df : DataFrame)
  : result DataFrame :=
  match filter (fun c => negb (has_column df c)) by_ with
  | c :: _ => raise KeyError [AStr c]
  | [] =>
      match filter (fun c => negb (one_kind (map (fun r : row => r c) (df_rows df)))) by_ with
      | c :: _ =>
          raise TypeError
            [AMsg [Lit "'<' not supported between the cells of column '"; Name c; Lit "'"]]
      | [] =>
          match by_ with
          | [] => Ok df
          | [c] => Ok (mkDF (df_dtypes df) (nargsort quicksort c (df_rows df)))
          | _ :: _ :: _ => Ok (mkDF (df_dtypes df) (lexsort by_ (df_rows df)))
          end
      end
  end.

(** *** numpy's quicksort

    [argsort(kind="quicksort")] on an array of [n] keys, as numpy's
    [aquicksort] has it: an introsort on the array [tosort] of the positions
    [0 .. n-1].  A part of more than 17 elements is partitioned around the
    median of its first, middle and last elements, the larger side is put on
    a stack; a part of at most 17 elements is sorted by insertion; when the
    depth budget is used up the part is sorted by heapsort.  [less i j] is
    [v[i] < v[j]] on the keys. *)
Section NumpyQuicksort.

Variable less : nat -> nat -> bool.


















End NumpyQuicksort.


(** [sort_df]: sort by the x-axis column, then by the first series column. *)
Definition sort_df (quicksort : sorter) (df : DataFrame) (x_axis : axis)
  (series_columns : list string) : result DataFrame :=
  let sorting_columns :=
    [ax_value x_axis] ++
    match series_columns with
    | [] => []
    | c :: _ => [c]   (* only one unique series column is assumed *)
    end in
  sort_values quicksort sorting_columns df.

(** ** [check_filtered_row_count] *)

(** A Python [dict] with string keys: pairs in insertion order; setting an
    existing key keeps its place. *)
Fixpoint dict_set {V : Type} (d : list (string * V)) (k : string) (v : V)
  : list (string * V) :=
  match d with
  | [] => [(k, v)]
  | (k', v') :: d' => if k =? k' then (k, v) :: d' else (k', v') :: dict_set d' k v
  end.

Definition dict_values {V : Type} (d : list (string * V)) : list V := map snd d.

(** [l.count(c)]. *)
Definition list_count (c : string) (l : list string) : nat :=
  count_occ string_dec l c.

(** Membership test of a Python [set] on cells: the same object, or equal
    objects.  [None], [pd.NA] and [NaT] are single objects; the floats read
    from a column are fresh objects, and NaN is not equal to itself. *)
Definition py_same (a b : value) : bool :=
  match a, b with
  | VNone, VNone => true
  | _, _ =>
      match py_compare op_eq a b with
      | Some t => t
      | None => false
      end
  end.

Definition py_set_add (s : list value) (v : value) : list value :=
  if existsb (py_same v) s then s else s ++ [v].

(** [set(xs)], its elements in the order they were added. *)
Definition py_set (xs : list value) : list value := fold_left py_set_add xs [].

(** [df[mask]]. *)
Definition getitem_mask (df : DataFrame) (m : Mask) : DataFrame :=
  mkDF (df_dtypes df) (select m (df_rows df)).

(** [df[labels]][mask], as the cells of the selected records; a missing label
    raises [KeyError] with the missing labels. *)
Definition project (df : DataFrame) (labels : list string) (m : Mask)
  : result (list (list value)) :=
  match filter (fun c => negb (has_column df c)) labels with
  | [] => Ok (map (fun r => map r labels) (select m (df_rows df)))
  | missing => raise KeyError [AList missing]
  end.

(** [check_filtered_row_count]: the filtered table must not hold more records
    than unique x-axis values per series. *)
Definition check_filtered_row_count (df : DataFrame) (mask : Mask) (x_axis : axis)
  (series_columns plot_columns : list string) : result unit :=
  (* get number of occurrences of each column *)
  let series_col_count :=
    fold_left (fun d c => dict_set d c (list_count c series_columns)) series_columns [] in
  (* get number of column combinations *)
  let series_combinations := fold_left Nat.mul (dict_values series_col_count) 1 in
  let num_filtered_rows := List.length (df_rows (getitem_mask df mask)) in
  xs <- getitem (getitem_mask df mask) (ax_value x_axis) ;;
  let num_x_data_points := series_combinations * List.length (py_set (s_values xs)) in
  (* check expected number of rows *)
  if (num_x_data_points <? num_filtered_rows)%nat
  then
    frame <- project df plot_columns mask ;;
    raise RuntimeError
      [AMsg [Lit "Unexpected number of rows ("; Num num_filtered_rows;
             Lit ") does not match ";
             Lit "                               ";
             Lit "number of unique x-axis values per series (";
             Num num_x_data_points; Lit ")"];
       AFrame frame]
  else Ok tt.

(** ** [transform_axis] and [transform_df_data] *)

Definition as_float (v : value) : option float :=
  match v with
  | VInt z => Some (float_of_Z z)
  | VFloat f => Some f
  | _ => None
  end.

Definition numeric_or_na (v : value) : bool :=
  match v with
  | VNone | VInt _ | VFloat _ => true
  | _ => false
  end.

(** True division of two cells, for a column of type [d]: the quotient of two
    numbers is a float (division by zero gives an infinity or NaN, not an
    error); [pd.NA] in a numeric column propagates; other operands are a
    [TypeError]. *)
Definition truediv (d : dtype) (a b : value) : result value :=
  match as_float a, as_float b with
  | Some x, Some y => Ok (VFloat (x / y))
  | _, _ =>
      if is_numeric_dtype d && numeric_or_na a && numeric_or_na b
      then Ok VNone
      else raise TypeError
             [AMsg [Lit "unsupported operand type(s) for /: "; Obj a; Lit " and "; Obj b]]
  end.

Fixpoint mapM {A B : Type} (f : A -> result B) (l : list A) : result (list B) :=
  match l with
  | [] => Ok []
  | a :: t => b <- f a ;; bs <- mapM f t ;; Ok (b :: bs)
  end.

(** The resolved baseline: one value, or an array of values. *)
Inductive divisor : Type :=
| Scalar (v : value)
| Vector (vs : list value).

(** [values / scaling_val] on one-dimensional arrays: by a scalar, element by
    element on equal lengths, by broadcasting when one side has length one;
    other shapes do not broadcast, a [ValueError]. *)
Definition np_truediv (d : dtype) (xs : list value) (s : divisor) : result (list value) :=
  match s with
  | Scalar v => mapM (fun x => truediv d x v) xs
  | Vector vs =>
      if (List.length xs =? List.length vs)%nat
      then mapM (fun p => truediv d (fst p) (snd p)) (combine xs vs)
      else match xs, vs with
           | [x], _ => mapM (fun v => truediv d x v) vs
           | _, [v] => mapM (fun x => truediv d x v) xs
           | _, _ =>
               raise ValueError
                 [AMsg [Lit "operands could not be broadcast together with shapes (";
                        Num (List.length xs); Lit ",) ("; Num (List.length vs); Lit ",)"]]
           end
  end.

(** The records of [df.loc[mask, c] = vals]: [vals], in order, under [c] in
    the selected records. *)
Fixpoint assign (m : Mask) (vals : list value) (c : string) (rs : list row) : list row :=
  match m, rs with
  | b :: m', r :: rs' =>
      if selected b then
        match vals with
        | v :: vals' => upd r c v :: assign m' vals' c rs'
        | [] => r :: rs'
        end
      else r :: assign m' vals c rs'
  | _, _ => rs
  end.

(** The cell that [.loc] stores for the value [v] in a column of type [d]:
    the value is cast to the type of the column, which the assignment keeps.
    A [float64] column takes numbers, and no missing value [pd.NA]; an
    [Int64] column takes the floats that denote integers, as integers. *)
Definition setitem_cast (d : dtype) (v : value) : result value :=
  match d, v with
  | Dobject, _ => Ok v
  | Dfloat64, VFloat _ => Ok v
  | Dfloat64, VInt z => Ok (VFloat (float_of_Z z))
  | Dfloat64, _ =>
      raise TypeError [AMsg [Lit "Invalid value '"; Obj v; Lit "' for dtype 'float64'"]]
  | DInt64, VNone => Ok VNone
  | DInt64, VInt z => int64_cell z
  | DInt64, VFloat f => float_to_int64 f
  | DInt64, _ =>
      raise TypeError [AMsg [Lit "Invalid value '"; Obj v; Lit "' for dtype 'Int64'"]]
  | Ddatetime64, VNone => Ok VNone
  | Ddatetime64, VStamp _ => Ok v
  | Ddatetime64, _ =>
      raise TypeError [AMsg [Lit "Invalid value '"; Obj v; Lit "' for dtype 'datetime64[ns]'"]]
  end.

(** [df.loc[mask, c] = vals] for an array [vals] and a column [c] of type
    [d]: as many values as selected records, else a [ValueError]; the values
    are cast to the type of the column. *)
Definition loc_setitem (df : DataFrame) (m : Mask) (c : string) (d : dtype)
  (vals : list value) : result DataFrame :=
  if (List.length (select m (df_rows df)) =? List.length vals)%nat
  then stored <- mapM (setitem_cast d) vals ;;
       Ok (mkDF (df_dtypes df) (assign m stored c (df_rows df)))
  else raise ValueError
         [AMsg [Lit "Must have equal len keys and value when setting with an iterable"]].

Definition dtype_name (d : dtype) : string :=
  match d with
  | Dobject => "object"
  | Dfloat64 => "float64"
  | DInt64 => "Int64"
  | Ddatetime64 => "datetime64[ns]"
  end.

(** [axis["scaling"]["column"]["name"]]. *)
Definition scaling_column_name (a : axis) : result string :=
  match ax_scaling a with
  | None => raise KeyError [AStr "scaling"]
  | Some sc =>
      match sc_column sc with
      | None => raise KeyError [AStr "column"]
      | Some col => Ok (col_name col)
      end
  end.

(** [axis["scaling"].get("custom")], when truthy. *)
Definition truthy_custom (sc : scaling_cfg) : option value :=
  match sc_custom sc with
  | Some c => if py_truthy c then Some c else None
  | None => None
  end.

(** The mask of the scaling value(s) and the state of the object
    [scaling_series_mask] after the statements
    [[
      scaling_mask = mask.copy()
      if scaling_series_mask is not None: scaling_mask = scaling_series_mask
      if scaling_x_value_mask is not None: scaling_mask &= scaling_x_value_mask
    ]]
    The second statement binds [scaling_mask] to the caller's object, and [&=]
    on a [Series] updates it in place. *)
Definition scaling_mask_of (mask : Mask) (scaling_series_mask scaling_x_value_mask : option Mask)
  : Mask * option Mask :=
  match scaling_series_mask, scaling_x_value_mask with
  | Some s, Some x => (mask_and s x, Some (mask_and s x))
  | Some s, None => (s, Some s)
  | None, Some x => (mask_and mask x, None)
  | None, None => (mask, None)
  end.

(** [scaling_column[scaling_mask]], as one value when it has exactly one. *)
Definition scaling_val_of (scaling_column : Series) (scaling_mask : Mask) : divisor :=
  match select scaling_mask (s_values scaling_column) with
  | [v] => Scalar v
  | vs => Vector vs
  end.

(** [transform_axis]: divide the selected values of the axis column.  Returns
    the new table and the state of the object [scaling_series_mask]. *)
Definition transform_axis (df : DataFrame) (mask : Mask) (axis : axis)
  (scaling_column : option Series)
  (scaling_series_mask scaling_x_value_mask : option Mask)
  : result (DataFrame * option Mask) :=
  match scaling_column with
  | Some scol =>
      (* scale by column: check types *)
      ycol <- getitem (getitem_mask df mask) (ax_value axis) ;;
      if negb (is_numeric_dtype (s_dtype ycol)) || negb (is_numeric_dtype (s_dtype scol))
      then
        name <- scaling_column_name axis ;;
        raise TypeError
          [AMsg [Lit "Cannot scale column '"; Name (ax_value axis); Lit "' of type ";
                 Lit (dtype_name (s_dtype ycol)); Lit " by column '"; Name name;
                 Lit "' of type "; Lit (dtype_name (s_dtype scol)); Lit "."]]
      else
        (* get mask of scaling value(s) *)
        let '(scaling_mask, scaling_series_mask') :=
          scaling_mask_of mask scaling_series_mask scaling_x_value_mask in
        let scaling_val := scaling_val_of scol scaling_mask in
        q <- np_truediv (s_dtype ycol) (s_values ycol) scaling_val ;;
        df' <- loc_setitem df mask (ax_value axis) (s_dtype ycol) q ;;
        Ok (df', scaling_series_mask')
  | None =>
      match ax_scaling axis with
      | None => raise KeyError [AStr "scaling"]
      | Some sc =>
          match truthy_custom sc with
          | Some scaling_value =>
              (* scale by custom value: interpret it as column dtype *)
              ycol <- getitem (getitem_mask df mask) (ax_value axis) ;;
              match pd_scalar scaling_value (s_dtype ycol) with
              | Err (Raise ValueError args) =>
                  Err (annotate (Raise ValueError args)
                         [Lit " as a scaling value for column '"; Name (ax_value axis); Lit "'"])
              | Err e => Err e
              | Ok scaling_value' =>
                  q <- np_truediv (s_dtype ycol) (s_values ycol) (Scalar scaling_value') ;;
                  df' <- loc_setitem df mask (ax_value axis) (s_dtype ycol) q ;;
                  Ok (df', scaling_series_mask)
              end
          | None => Ok (df, scaling_series_mask)
          end
      end
  end.

(** [l[i]] for a Python list: a negative index counts from the end. *)
Definition list_getitem {A : Type} (l : list A) (i : Z) : result A :=
  let n := Z.of_nat (List.length l) in
  let j := if (i <? 0)%Z then (i + n)%Z else i in
  match (if (0 <=? j)%Z then nth_error l (Z.to_nat j) else None) with
  | Some a => Ok a
  | None => raise IndexError [AMsg [Lit "list index out of range"]]
  end.

(** The loop [for f in series_filters] of [transform_df_data]: each condition
    is evaluated on the table as the previous iterations left it, and the
    object [scaling_series_mask] is shared by the iterations. *)
Fixpoint transform_series (fs : list filter_cond) (df : DataFrame) (mask : Mask)
  (y_axis : axis) (scaling_column : option Series)
  (scaling_series_mask scaling_x_value_mask : option Mask) : result DataFrame :=
  match fs with
  | [] => Ok df
  | f :: fs' =>
      m <- row_filter f df ;;
      '(df', scaling_series_mask') <-
        transform_axis df (mask_and mask m) y_axis scaling_column
          scaling_series_mask scaling_x_value_mask ;;
      transform_series fs' df' mask y_axis scaling_column
        scaling_series_mask' scaling_x_value_mask
  end.

(** The scaling information extracted by [transform_df_data]: the copy of the
    scaling column, the mask of the scaling series and the mask of the scaling
    x-value. *)
Definition scaling_info (df : DataFrame) (x_axis : axis) (sc : scaling_cfg)
  (series_filters : list filter_cond)
  : result (option Series * option Mask * option Mask) :=
  match sc_column sc with
  | Some col =>
      (* copy scaling column (prevents issues when scaling by itself) *)
      scaling_column <- getitem df (col_name col) ;;
      (* get mask of scaling series *)
      scaling_series_mask <-
        match col_series col with
        | Some i =>
            f <- list_getitem series_filters i ;;
            m <- row_filter f df ;;
            Ok (Some m)
        | None => Ok None
        end ;;
      (* get mask of scaling x-value *)
      scaling_x_value_mask <-
        match col_x_value col with
        | Some xv =>
            if py_truthy xv
            then xs <- getitem df (ax_value x_axis) ;;
                 m <- compare_series op_eq xs xv ;;
                 Ok (Some m)
            else Ok None
        | None => Ok None
        end ;;
      Ok (Some scaling_column, scaling_series_mask, scaling_x_value_mask)
  | None =>
      (* check custom value is not zero *)
      match truthy_custom sc with
      | Some _ => Ok (None, None, None)
      | None =>
          raise RuntimeError
            [AMsg [Lit "Invalid custom scaling value (cannot divide by ";
                   Obj (match sc_custom sc with Some c => c | None => VNone end);
                   Lit ")."]]
      end
  end.

(** [transform_df_data]: transform the y-axis according to its scaling. *)
Definition transform_df_data (df : DataFrame) (x_axis y_axis : axis)
  (series_filters : list filter_cond) (mask : Mask) : result DataFrame :=
  match ax_scaling y_axis with
  | None => Ok df
  | Some sc =>
      '(scaling_column, scaling_series_mask, scaling_x_value_mask) <-
        scaling_info df x_axis sc series_filters ;;
      match series_filters with
      | _ :: _ =>
          (* apply data transformation per series *)
          transform_series series_filters df mask y_axis scaling_column
            scaling_series_mask scaling_x_value_mask
      | [] =>
          (* apply data transformation to all data *)
          '(df', _) <- transform_axis df mask y_axis scaling_column
                         scaling_series_mask scaling_x_value_mask ;;
          Ok df'
      end
  end.

End Parsers.

(** ** [check_df_columns] and [apply_df_types] *)

(** The type of a column of the table as the perflogs give it: one of the
    canonical types, or another pandas type (["int64"], ["bool"], ...). *)
Inductive rdtype : Type :=
| Canonical (d : dtype)
| Other (name : string).

(** The table before its columns are typed. *)
Record RawFrame : Type := mkRaw {
  rf_dtypes : list (string * rdtype);
  rf_rows : list row
}.

(** [d.get(k)] on a dictionary with string keys. *)
Fixpoint dict_get {V : Type} (d : list (string * V)) (k : string) : option V :=
  match d with
  | [] => None
  | (k', v) :: d' => if k =? k' then Some v else dict_get d' k
  end.

(** [col in df.columns]. *)
Definition in_columns (df : RawFrame) (col : string) : bool :=
  existsb (String.eqb col) (map fst (rf_dtypes df)).

(** [check_df_columns]: every column of the configuration is in the table. *)
Definition check_df_columns (df : RawFrame) (all_columns : list string) : result unit :=
  (* check for invalid columns *)
  let invalid_columns :=
    fold_left (fun invalid col => if in_columns df col then invalid else invalid ++ [col])
              all_columns [] in
  match invalid_columns with
  | [] => Ok tt
  | _ :: _ => raise KeyError [AStr "Could not find columns"; AList invalid_columns]
  end.

(** What [apply_df_types] asks of pandas: the predicates of [pd.api.types] on
    a type given as a string, and the conversion of one cell by
    [Series.astype], from the type of its column to a canonical type. *)
Record pdtypes : Type := mkPdtypes {
  is_string_dtype : string -> bool;
  is_float_dtype : string -> bool;
  is_integer_dtype : string -> bool;
  is_datetime64_any_dtype : string -> bool;
  astype_cell : rdtype -> dtype -> value -> result value
}.

(** The internal type conversion of [apply_df_types]: the canonical type for
    a user-specified type, or the [RuntimeError]. *)
Definition canonical_type (T : pdtypes) (conversion_type col : string) : result dtype :=
  if is_string_dtype T conversion_type then Ok Dobject          (* "object" *)
  else if is_float_dtype T conversion_type then Ok Dfloat64     (* "float64" *)
  else if is_integer_dtype T conversion_type then Ok DInt64     (* "Int64" *)
  else if is_datetime64_any_dtype T conversion_type then Ok Ddatetime64
  else raise RuntimeError
         [AMsg [Lit "Unsupported user-specified type '"; Lit conversion_type;
                Lit "' for column '"; Name col; Lit "'."]].

Definition dtype_eqb (a b : dtype) : bool :=
  match a, b with
  | Dobject, Dobject | Dfloat64, Dfloat64 | DInt64, DInt64
  | Ddatetime64, Ddatetime64 => true
  | _, _ => false
  end.

(** [conversion_type == self.df[col].dtype], for a canonical
    [conversion_type]. *)
Definition is_dtype (target : dtype) (d : rdtype) : bool :=
  match d with
  | Canonical d' => dtype_eqb target d'
  | Other _ => false
  end.

(** The records with the cells [vals], in order, under [col]. *)
Fixpoint set_cells (col : string) (vals : list value) (rs : list row) : list row :=
  match rs, vals with
  | r :: rs', v :: vals' => upd r col v :: set_cells col vals' rs'
  | _, _ => rs
  end.

(** One iteration of the loop of [apply_df_types], for the column [col]. *)
Definition apply_column_type (T : pdtypes) (column_types : list (string * string))
  (df : RawFrame) (col : string) : result RawFrame :=
  match dict_get column_types col with
  | Some user_type =>
      if user_type =? "" then
        raise KeyError [AStr "Could not find user-specified type for column"; AStr col]
      else
        (* allow user to specify "datetime" as a type *)
        let conversion_type :=
          (user_type ++ (if user_type =? "datetime" then "64" else ""))%string in
        target <- canonical_type T conversion_type col ;;
        match dict_get (rf_dtypes df) col with
        | None => raise KeyError [AStr col]
        | Some current =>
            (* skip type conversion if column is already the desired type *)
            if is_dtype target current then Ok df
            else
              (* otherwise apply type to column *)
              cells <- mapM (astype_cell T current target)
                            (map (fun r => r col) (rf_rows df)) ;;
              Ok (mkRaw (dict_set (rf_dtypes df) col (Canonical target))
                        (set_cells col cells (rf_rows df)))
        end
  | None =>
      raise KeyError [AStr "Could not find user-specified type for column"; AStr col]
  end.

Fixpoint apply_column_types (T : pdtypes) (column_types : list (string * string))
  (cols : list string) (df : RawFrame) : result RawFrame :=
  match cols with
  | [] => Ok df
  | col :: cols' =>
      df' <- apply_column_type T column_types df col ;;
      apply_column_types T column_types cols' df'
  end.

(** [apply_df_types]: apply the user-specified types to the columns of the
    configuration. *)
Definition apply_df_types (T : pdtypes) (df : RawFrame) (all_columns : list string)
  (column_types : list (string * string)) : result RawFrame :=
  (* validate columns *)
  _ <- check_df_columns df all_columns ;;
  apply_column_types T column_types all_columns df.

(** ** [run_post_processing] *)

(** The configuration ([ConfigHandler]) as the pipeline reads it. *)
Record ConfigHandler : Type := mkConfig {
  cfg_title : string;
  cfg_all_columns : list string;
  cfg_column_types : list (string * string);
  cfg_x_axis : axis;
  cfg_y_axis : axis;
  cfg_series_columns : list string;
  cfg_and_filters : list filter_cond;
  cfg_or_filters : list filter_cond;
  cfg_series_filters : list filter_cond;
  cfg_plot_columns : list string
}.

(** The plotting script [plot_generic], which returns nothing or raises. *)
Definition plotter : Type :=
  string -> list (list value) -> axis -> axis -> list filter_cond -> result unit.

Section Pipeline.

Variable P : pyparse.

(** [run_post_processing], from the typed table on: [typed] is [self.df]
    after [read_all_perflogs] and [apply_df_types], or the exception they
    raise.  The function returns [self.df[config.plot_columns][mask]]; what
    it prints is left out. *)
Definition run_post_processing (quicksort : sorter) (plot_generic : plotter)
  (typed : result DataFrame) (config : ConfigHandler) : result (list (list value)) :=
  df <- typed ;;
  (* sort rows *)
  df <- sort_df quicksort df (cfg_x_axis config) (cfg_series_columns config) ;;
  (* filter data *)
  mask <- filter_df P df (cfg_and_filters config) (cfg_or_filters config)
            (cfg_series_filters config) ;;
  _ <- check_filtered_row_count df mask (cfg_x_axis config) (cfg_series_columns config)
         (cfg_plot_columns config) ;;
  (* scale y-axis *)
  df <- transform_df_data P df (cfg_x_axis config) (cfg_y_axis config)
          (cfg_series_filters config) mask ;;
  shown <- project df (cfg_plot_columns config) mask ;;
  (* call a plotting script *)
  _ <- plot_generic (cfg_title config) shown (cfg_x_axis config) (cfg_y_axis config)
         (cfg_series_filters config) ;;
  project df (cfg_plot_columns config) mask.

End Pipeline.

(** ** Sample tables and configurations *)

(** Parsers that accept no string: enough for the sample conditions, whose
    string literals are compared with text columns or are no numerals. *)
Definition no_numerals : pyparse :=
  mkParse (fun _ => None) (fun _ => None) (fun _ => None).

(** A benchmark record with an integer x-axis value, a series label and a
    float y-axis value. *)
Definition bench_row (x : Z) (series : string) (y : float) : row :=
  fun c =>
    if c =? "x" then VInt x
    else if c =? "series" then VStr series
    else if c =? "y" then VFloat y
    else VNone.

Definition bench_dtypes : list (string * dtype) :=
  [("x", DInt64); ("series", Dobject); ("y", Dfloat64)].

Definition bench (rs : list row) : DataFrame := mkDF bench_dtypes rs.

Definition x_axis0 : axis := mkAxis "x" None.

Definition series_is (label : string) : filter_cond := ("series", "==", VStr label).

(** The cells of a sample table, record by record, or the exception. *)
Definition bench_cells (r : result DataFrame) : result (list (list value)) :=
  df <- r ;; Ok (map (fun r => [r "x"; r "series"; r "y"]) (df_rows df)).

(** Two series on three x-axis values. *)
Definition grid6 : DataFrame :=
  bench [bench_row 1 "A" 10; bench_row 1 "B" 20;
         bench_row 2 "A" 30; bench_row 2 "B" 40;
         bench_row 3 "A" 50; bench_row 3 "B" 60].

(** Two series on two x-axis values. *)
Definition grid4 : DataFrame :=
  bench [bench_row 1 "A" 10; bench_row 1 "B" 20;
         bench_row 2 "A" 30; bench_row 2 "B" 40].


(** [y_axis] with [scaling: {custom: 10}]. *)
Definition y_axis_custom10 : axis :=
  mkAxis "y" (Some (mkScaling None (Some (VInt 10)))).

(** The two series of the sample tables, as series filters. *)
Definition two_series : list filter_cond := [series_is "A"; series_is "B"].

(** [y_axis] with [scaling: {column: {name: y, series: 0}}]: scale by the
    y-axis values of the first series. *)
Definition y_axis_by_first_series : axis :=
  mkAxis "y" (Some (mkScaling (Some (mkScalingColumn "y" (Some 0%Z) None)) None)).

(** One x-axis value, two series. *)
Definition pair_AB : DataFrame := bench [bench_row 1 "A" 10; bench_row 1 "B" 20].

(** Three records for a baseline of two values. *)
Definition three_rows : DataFrame :=
  bench [bench_row 1 "A" 10; bench_row 2 "A" 30; bench_row 3 "A" 50].

(** A table with a missing y-axis value. *)
Definition with_missing : DataFrame :=
  bench [bench_row 1 "A" 10; bench_row 1 "B" nan; bench_row 2 "A" 30].

(** The four records of [grid4], out of order. *)
Definition shuffled4 : DataFrame :=
  bench [bench_row 2 "B" 40; bench_row 1 "B" 20;
         bench_row 2 "A" 30; bench_row 1 "A" 10].


(** The columns of the sample tables. *)
Definition bench_columns : list string := ["x"; "series"; "y"].

(** The table a call returns, or [df] when it raises. *)
Definition table_or (df : DataFrame) (r : result (DataFrame * option Mask)) : DataFrame :=
  match r with
  | Ok (df', _) => df'
  | Err _ => df
  end.

(** A sample of the predicates of [pd.api.types], on the type names of the
    sample configurations, and of [astype] on the cells of the sample
    tables: an integer becomes a float in a float column. *)
Definition sample_pdtypes : pdtypes :=
  mkPdtypes
    (fun s => existsb (String.eqb s) ["str"; "object"])
    (fun s => existsb (String.eqb s) ["float"; "float64"])
    (fun s => existsb (String.eqb s) ["int"; "int64"; "Int64"])
    (fun s => existsb (String.eqb s) ["datetime64"; "datetime64[ns]"])
    (fun _ target v =>
       match target, v with
       | Dfloat64, VInt z => Ok (VFloat (float_of_Z z))
       | _, _ => Ok v
       end).

(** The records of [grid4] as the perflogs give them: [x] is of the
    non-nullable type int64. *)
Definition raw_bench : RawFrame :=
  mkRaw [("x", Other "int64"); ("series", Canonical Dobject); ("y", Canonical Dfloat64)]
        (df_rows grid4).

(** The user-specified types of the sample columns. *)
Definition bench_types : list (string * string) :=
  [("x", "int"); ("series", "str"); ("y", "float")].

(** The table a call returns, or [df] when it raises. *)
Definition raw_or (df : RawFrame) (r : result RawFrame) : RawFrame :=
  match r with
  | Ok df' => df'
  | Err _ => df
  end.

(** [raw_bench] with the types of [bench_types]. *)
Definition typed_bench : RawFrame :=
  raw_or raw_bench (apply_df_types sample_pdtypes raw_bench bench_columns bench_types).

(** [grid4] with its y-axis values divided by 10. *)
Definition grid4_tenth : DataFrame :=
  bench [bench_row 1 "A" 1; bench_row 1 "B" 2;
         bench_row 2 "A" 3; bench_row 2 "B" 4].

(** A table without the x-axis column. *)
Definition series_only : DataFrame :=
  mkDF [("series", Dobject)] (df_rows pair_AB).

(** [shuffled4], sorted on x and series. *)
Definition sorted4 : DataFrame :=
  mkDF bench_dtypes (lexsort ["x"; "series"] (df_rows shuffled4)).

(** A plotting script that draws nothing. *)
Definition plot_nothing : plotter := fun _ _ _ _ _ => Ok tt.

(** A configuration of the sample tables: both series, scaled by 10; the
    series column is listed once per series. *)
Definition config0 : ConfigHandler :=
  mkConfig "Sample" bench_columns bench_types x_axis0 y_axis_custom10
           ["series"; "series"] [] [] two_series bench_columns.

(** ** Vocabulary of the properties *)

(** The mask that is [True] (resp. [False]) on [n] records. *)
Definition all_true (n : nat) : Mask := repeat (Some true) n.
Definition all_false (n : nat) : Mask := repeat (Some false) n.

(** [AND(A)]: the conjunction of the masks of a group; the empty group is the
    identity of the conjunction. *)
Definition AND_group (n : nat) (ms : list Mask) : Mask :=
  fold_right mask_and (all_true n) ms.

(** [OR(B)]: the disjunction of the masks of a group; the empty group
    contributes the identity of the conjunction it is a part of. *)
Definition OR_group (n : nat) (ms : list Mask) : Mask :=
  match ms with
  | [] => all_true n
  | _ :: _ => fold_right mask_or (all_false n) ms
  end.

Definition product (l : list nat) : nat := fold_right Nat.mul 1 l.

(** The product, over the distinct names of the series-column list, of the
    multiplicity of the name in the list. *)
Definition multiplicity_product (series_columns : list string) : nat :=
  product (map (fun c => count_occ string_dec series_columns c)
               (nodup string_dec series_columns)).

(** The number of distinct x-axis values among the selected records. *)
Definition distinct_x (df : DataFrame) (m : Mask) (x_axis : axis) : nat :=
  List.length (py_set (map (fun r => r (ax_value x_axis)) (select m (df_rows df)))).

(** The cells that Python compares exactly: every cell but a float (NaN is
    not equal to itself, and the two zeros are equal). *)
Definition exact_cell (v : value) : bool :=
  match v with
  | VFloat _ => false
  | _ => true
  end.

(** The message of the [RuntimeError] of [check_filtered_row_count]. *)
Definition row_count_message (actual expected : nat) : message :=
  [Lit "Unexpected number of rows ("; Num actual;
   Lit ") does not match ";
   Lit "                               ";
   Lit "number of unique x-axis values per series (";
   Num expected; Lit ")"].

(** The keys of a dictionary filled key by key. *)
Definition add_key (ks : list string) (c : string) : list string :=
  if existsb (String.eqb c) ks then ks else ks ++ [c].


(** Sorted for the order [leb]: every element is not greater than the
    elements after it. *)
Definition sorted_with {A : Type} (leb : A -> A -> bool) (l : list A) : Prop :=
  StronglySorted (fun a b => leb a b = true) l.


(** The columns [sort_df] sorts on. *)
Definition sorting_columns (x_axis : axis) (series_columns : list string) : list string :=
  ax_value x_axis :: match series_columns with
                     | [] => []
                     | c :: _ => [c]
                     end.



(** The quotient of two numeric cells: a float, or [pd.NA] when an operand is
    missing. *)
Definition quotient (a b : value) : value :=
  match as_float a, as_float b with
  | Some x, Some y => VFloat (x / y)
  | _, _ => VNone
  end.

Definition is_float (v : value) : bool :=
  match v with
  | VFloat _ => true
  | _ => false
  end.

(** A number: an integer or a float. *)
Definition is_number (v : value) : bool :=
  match v with
  | VInt _ | VFloat _ => true
  | _ => false
  end.

(** The cells under [c] are floats, as in a column of type [float64]. *)
Definition float_cells (c : string) (rs : list row) : Prop :=
  Forall (fun r => is_float (r c) = true) rs.



(** The selected y-axis values [ys] divided by the resolved baseline: by its
    value when it has one, else element by element. *)
Definition divide_by (base ys : list value) : list value :=
  match base with
  | [v] => map (fun y => quotient y v) ys
  | _ => map (fun p => quotient (fst p) (snd p)) (combine ys base)
  end.

(** The records after the division by the baseline [base] of the cells of
    column [y] of the records selected by [m]. *)
Definition scale_group (m : Mask) (y : string) (base : list value) (rs : list row)
  : list row :=
  assign m (divide_by base (map (fun r => r y) (select m rs))) y rs.

(** The mask of the baseline: the mask [s] of the scaling series, narrowed
    to the records whose x-axis value equals [x_value] when the configuration
    gives a truthy one. *)
Definition x_value_narrows (df : DataFrame) (x_axis : axis) (x_value : option value)
  (s smask : Mask) : Prop :=
  match x_value with
  | Some v =>
      if py_truthy v
      then exists xs xm, getitem df (ax_value x_axis) = Ok xs
                         /\ compare_series op_eq xs v = Ok xm
                         /\ smask = mask_and s xm
      else smask = s
  | None => smask = s
  end.

(** The cells under [c] are numbers or missing, as in a numeric column. *)
Definition numeric_cells (c : string) (rs : list row) : Prop :=
  Forall (fun r => numeric_or_na (r c) = true) rs.

(** [after] differs from [before] at most in the cells of column [y] of the
    records selected by [m]. *)
Definition writes_only (m : Mask) (y : string) (before after : DataFrame) : Prop :=
  df_dtypes after = df_dtypes before
  /\ List.length (df_rows after) = List.length (df_rows before)
  /\ (forall c, c <> y ->
        map (fun r => r c) (df_rows after) = map (fun r => r c) (df_rows before))
  /\ (forall i, selected (nth i m None) = false ->
        nth i (map (fun r => r y) (df_rows after)) VNone =
        nth i (map (fun r => r y) (df_rows before)) VNone).

(** The records after the division by [c] of the cells of column [y] of the
    records selected by [m]. *)
Definition scale_where (m : Mask) (y : string) (c : value) (rs : list row) : list row :=
  assign m (map (fun r => quotient (r y) c) (select m rs)) y rs.


(** The type [apply_df_types] gives to a column: the canonical type of the
    type the user declares for it, when there is one and it is supported. *)
Definition declared_type (T : pdtypes) (column_types : list (string * string))
  (col : string) : option dtype :=
  match dict_get column_types col with
  | Some user_type =>
      if user_type =? "" then None
      else match canonical_type T
                   (user_type ++ (if user_type =? "datetime" then "64" else ""))%string col with
           | Ok d => Some d
           | Err _ => None
           end
  | None => None
  end.

(** The column [col] of [df] has the type declared for it. *)
Definition typed_as_declared (T : pdtypes) (column_types : list (string * string))
  (df : RawFrame) (col : string) : Prop :=
  exists d, declared_type T column_types col = Some d
            /\ dict_get (rf_dtypes df) col = Some (Canonical d).

(** * Properties *)

(** ** Masks and the composition of filter groups *)

Lemma and3_assoc (a b c : option bool) : and3 (and3 a b) c = and3 a (and3 b c).
Proof. destruct a as [[|]|], b as [[|]|], c as [[|]|]; reflexivity. Qed.

Lemma or3_assoc (a b c : option bool) : or3 (or3 a b) c = or3 a (or3 b c).
Proof. destruct a as [[|]|], b as [[|]|], c as [[|]|]; reflexivity. Qed.

Lemma and3_true_r (a : option bool) : and3 a (Some true) = a.
Proof. destruct a as [[|]|]; reflexivity. Qed.

Lemma and3_true_l (a : option bool) : and3 (Some true) a = a.
Proof. destruct a as [[|]|]; reflexivity. Qed.

Lemma or3_false_r (a : option bool) : or3 a (Some false) = a.
Proof. destruct a as [[|]|]; reflexivity. Qed.

Lemma map2_length {A B C : Type} (f : A -> B -> C) (l : list A) (l' : list B) :
  List.length l = List.length l' -> List.length (map2 f l l') = List.length l.
Proof.
  revert l'; induction l as [|a l IH]; intros [|b l'] H; simpl in *;
    try discriminate; auto.
Qed.

Lemma map2_assoc {A : Type} (f : A -> A -> A) :
  (forall a b c, f (f a b) c = f a (f b c)) ->
  forall l1 l2 l3, map2 f (map2 f l1 l2) l3 = map2 f l1 (map2 f l2 l3).
Proof.
  intros Hf; induction l1 as [|a l1 IH]; intros [|b l2] [|c l3]; simpl; auto.
  now rewrite Hf, IH.
Qed.

Lemma map2_unit_r {A : Type} (f : A -> A -> A) (u : A) :
  (forall a, f a u = a) ->
  forall l, map2 f l (repeat u (List.length l)) = l.
Proof.
  intros Hf; induction l as [|a l IH]; simpl; auto.
  now rewrite Hf, IH.
Qed.

Lemma map2_unit_l {A : Type} (f : A -> A -> A) (u : A) :
  (forall a, f u a = a) ->
  forall l, map2 f (repeat u (List.length l)) l = l.
Proof.
  intros Hf; induction l as [|a l IH]; simpl; auto.
  now rewrite Hf, IH.
Qed.

Lemma mask_and_assoc (a b c : Mask) :
  mask_and (mask_and a b) c = mask_and a (mask_and b c).
Proof. apply map2_assoc, and3_assoc. Qed.

Lemma mask_or_assoc (a b c : Mask) :
  mask_or (mask_or a b) c = mask_or a (mask_or b c).
Proof. apply map2_assoc, or3_assoc. Qed.

Lemma mask_and_all_true_r (m : Mask) : mask_and m (all_true (List.length m)) = m.
Proof. apply map2_unit_r, and3_true_r. Qed.

Lemma mask_and_all_true_l (m : Mask) : mask_and (all_true (List.length m)) m = m.
Proof. apply map2_unit_l, and3_true_l. Qed.

Lemma mask_or_all_false_r (m : Mask) : mask_or m (all_false (List.length m)) = m.
Proof. apply map2_unit_r, or3_false_r. Qed.

Lemma mask_and_all_true_idem (n : nat) :
  mask_and (all_true n) (all_true n) = all_true n.
Proof.
  unfold all_true, mask_and; induction n as [|n IH]; simpl; [reflexivity | now f_equal].
Qed.

Lemma all_true_length (n : nat) : List.length (all_true n) = n.
Proof. apply repeat_length. Qed.

Lemma all_true_map {A : Type} (l : list A) :
  map (fun _ => Some true) l = all_true (List.length l).
Proof. unfold all_true; induction l; simpl; [reflexivity | now f_equal]. Qed.

(** A left fold from the first mask is the right fold to the unit, for masks
    of a common length. *)
Lemma fold_left_group (op : Mask -> Mask -> Mask) (u : Mask) :
  (forall a b c, op (op a b) c = op a (op b c)) ->
  forall n : nat,
  (forall m, List.length m = n -> op m u = m) ->
  (forall a b, List.length a = n -> List.length b = n -> List.length (op a b) = n) ->
  forall ms m0,
    List.length m0 = n -> Forall (fun m => List.length m = n) ms ->
    fold_left op ms m0 = fold_right op u (m0 :: ms).
Proof.
  intros Hassoc n Hunit Hlen ms; induction ms as [|m ms IH]; intros m0 H0 Hms; simpl.
  - now rewrite Hunit.
  - inversion Hms as [|? ? Hm Hms']; subst.
    rewrite IH by auto. simpl. apply Hassoc.
Qed.

Lemma sequence_length {A : Type} (l : list (option A)) (l' : list A) :
  sequence l = Some l' -> List.length l' = List.length l.
Proof.
  revert l'; induction l as [|[a|] l IH]; intros l' H; simpl in *; try discriminate.
  - now inversion H.
  - destruct (sequence l) as [t|]; simpl in H; [|discriminate].
    inversion H; subst; simpl; f_equal; auto.
Qed.

Lemma getitem_Ok (df : DataFrame) (c : string) (s : Series) :
  getitem df c = Ok s ->
  lookup_dtype c (df_dtypes df) = Some (s_dtype s) /\
  s_values s = map (fun r => r c) (df_rows df).
Proof.
  unfold getitem; destruct lookup_dtype; simpl; intros H; inversion H; auto.
Qed.

Lemma compare_series_length (o : cmp_op) (s : Series) (v : value) (m : Mask) :
  compare_series o s v = Ok m -> List.length m = List.length (s_values s).
Proof.
  unfold compare_series. destruct sequence eqn:E; intros H; inversion H; subst.
  apply sequence_length in E. now rewrite E, length_map.
Qed.

Section FilterFacts.

Variable P : pyparse.

Lemma row_filter_length (f : filter_cond) (df : DataFrame) (m : Mask) :
  row_filter P f df = Ok m -> List.length m = List.length (df_rows df).
Proof.
  destruct f as [[column str_op] v]; unfold row_filter.
  destruct (op_lookup str_op) as [o|]; [|discriminate].
  assert (Hnull : (s <- getitem df column ;;
                   Ok (map (fun c => Some (if is_op_eq o then isnull c else notnull c))
                           (s_values s))) = Ok m ->
                  List.length m = List.length (df_rows df)).
  { destruct (getitem df column) as [s|] eqn:G; simpl; [|discriminate].
    intros H; inversion H; subst. apply getitem_Ok in G as [_ ->].
    now rewrite !length_map. }
  assert (Hcmp : (s <- getitem df column ;;
                  match pd_scalar P v (s_dtype s) with
                  | Err e => if row_filter_catches e
                             then Err (annotate e (filter_suffix column v)) else Err e
                  | Ok value' =>
                      match compare_series o s value' with
                      | Err e => if row_filter_catches e
                                 then Err (annotate e (filter_suffix column value'))
                                 else Err e
                      | Ok m => Ok m
                      end
                  end) = Ok m -> List.length m = List.length (df_rows df)).
  { destruct (getitem df column) as [s|] eqn:G; simpl; [|discriminate].
    destruct (pd_scalar P v (s_dtype s)) as [v'|e];
      [|destruct (row_filter_catches e); discriminate].
    destruct (compare_series o s v') as [m'|e] eqn:C;
      [|destruct (row_filter_catches e); discriminate].
    intros H; inversion H; subst. apply compare_series_length in C.
    apply getitem_Ok in G as [_ G]. now rewrite C, G, length_map. }
  destruct v; auto.
Qed.

Lemma mapM_row_filter_length (fs : list filter_cond) (df : DataFrame) (ms : list Mask) :
  mapM (fun f => row_filter P f df) fs = Ok ms ->
  Forall (fun m => List.length m = List.length (df_rows df)) ms.
Proof.
  revert ms; induction fs as [|f fs IH]; intros ms H; simpl in H.
  - inversion H; constructor.
  - destruct (row_filter P f df) as [m|] eqn:R; simpl in H; [|discriminate].
    destruct (mapM _ fs) as [ms'|]; simpl in H; [|discriminate].
    inversion H; subst. constructor; eauto using row_filter_length.
Qed.

Lemma reduce_from_fold (op : Mask -> Mask -> Mask) (fs : list filter_cond)
  (df : DataFrame) (ms : list Mask) (acc : Mask) :
  mapM (fun f => row_filter P f df) fs = Ok ms ->
  reduce_from P op acc fs df = Ok (fold_left op ms acc).
Proof.
  revert ms acc; induction fs as [|f fs IH]; intros ms acc H; simpl in *.
  - now inversion H.
  - destruct (row_filter P f df) as [m|]; simpl in *; [|discriminate].
    destruct (mapM _ fs) as [ms'|]; simpl in H; [|discriminate].
    inversion H; subst; simpl. now apply IH.
Qed.

Lemma AND_group_length (n : nat) (ms : list Mask) :
  Forall (fun m => List.length m = n) ms -> List.length (AND_group n ms) = n.
Proof.
  induction 1 as [|m ms Hm _ IH]; simpl.
  - apply all_true_length.
  - unfold mask_and. rewrite map2_length; [assumption|].
    now rewrite Hm, IH.
Qed.

Lemma OR_group_length (n : nat) (ms : list Mask) :
  Forall (fun m => List.length m = n) ms -> List.length (OR_group n ms) = n.
Proof.
  destruct 1 as [|m ms Hm Hms]; unfold OR_group; cbn [fold_right].
  - apply all_true_length.
  - assert (L : List.length (fold_right mask_or (all_false n) ms) = n).
    { induction Hms as [|m' ms' Hm' _ IH]; cbn [fold_right].
      - apply repeat_length.
      - unfold mask_or at 1. rewrite map2_length; [assumption|]. now rewrite Hm', IH. }
    unfold mask_or at 1. rewrite map2_length; [assumption|]. now rewrite Hm, L.
Qed.

(** A non-empty group of conditions that all evaluate reduces to the
    conjunction, resp. the disjunction, of their masks. *)
Lemma reduce_filters_and (fs : list filter_cond) (df : DataFrame) (ms : list Mask) :
  fs <> [] ->
  mapM (fun f => row_filter P f df) fs = Ok ms ->
  reduce_filters P mask_and fs df = Ok (AND_group (List.length (df_rows df)) ms).
Proof.
  intros Hne H. pose proof (mapM_row_filter_length _ _ H) as Hlen.
  destruct fs as [|f fs]; [congruence|]. simpl in *.
  destruct (row_filter P f df) as [m|] eqn:R; simpl in *; [|discriminate].
  destruct (mapM _ fs) as [ms'|] eqn:M; simpl in H; [|discriminate].
  inversion H; subst. inversion Hlen as [|? ? Hm Hms]; subst.
  rewrite (reduce_from_fold mask_and fs df m M).
  f_equal. unfold AND_group.
  apply (fold_left_group mask_and (all_true (List.length (df_rows df))) mask_and_assoc
           (n := List.length (df_rows df))); auto.
  - intros m0 H0. rewrite <- H0. apply mask_and_all_true_r.
  - intros a b Ha Hb. unfold mask_and. rewrite map2_length; congruence.
Qed.

Lemma reduce_filters_or (fs : list filter_cond) (df : DataFrame) (ms : list Mask) :
  fs <> [] ->
  mapM (fun f => row_filter P f df) fs = Ok ms ->
  reduce_filters P mask_or fs df = Ok (OR_group (List.length (df_rows df)) ms).
Proof.
  intros Hne H. pose proof (mapM_row_filter_length _ _ H) as Hlen.
  destruct fs as [|f fs]; [congruence|]. simpl in *.
  destruct (row_filter P f df) as [m|] eqn:R; simpl in *; [|discriminate].
  destruct (mapM _ fs) as [ms'|] eqn:M; simpl in H; [|discriminate].
  inversion H; subst. inversion Hlen as [|? ? Hm Hms]; subst.
  rewrite (reduce_from_fold mask_or fs df m M).
  f_equal. unfold OR_group.
  apply (fold_left_group mask_or (all_false (List.length (df_rows df))) mask_or_assoc
           (n := List.length (df_rows df))); auto.
  - intros m0 H0. rewrite <- H0. apply mask_or_all_false_r.
  - intros a b Ha Hb. unfold mask_or. rewrite map2_length; congruence.
Qed.

End FilterFacts.

Lemma select_all_true {A : Type} (xs : list A) :
  select (all_true (List.length xs)) xs = xs.
Proof. induction xs as [|x xs IH]; simpl; [reflexivity | now f_equal]. Qed.

Lemma bind_Ok {A B : Type} (a : A) (k : A -> result B) : bind (Ok a) k = k a.
Proof. reflexivity. Qed.

Lemma mapM_nil_inv {A B : Type} (f : A -> result B) (bs : list B) :
  mapM f [] = Ok bs -> bs = [].
Proof. simpl; intros H; now inversion H. Qed.

Section FilterComposition.

Variable P : pyparse.

(** The mask after one OR-group: unchanged when the group is empty, narrowed
    by the disjunction of the group otherwise. *)
Lemma or_step (df : DataFrame) (fs : list filter_cond) (ms : list Mask) (acc : Mask) :
  List.length acc = List.length (df_rows df) ->
  mapM (fun f => row_filter P f df) fs = Ok ms ->
  match fs with
  | [] => Ok acc
  | _ :: _ => m <- reduce_filters P mask_or fs df ;; Ok (mask_and acc m)
  end = Ok (mask_and acc (OR_group (List.length (df_rows df)) ms)).
Proof.
  intros Hacc H. destruct fs as [|f fs].
  - apply mapM_nil_inv in H; subst; simpl.
    now rewrite <- Hacc, mask_and_all_true_r.
  - rewrite (@reduce_filters_or P (f :: fs) df ms); [reflexivity | discriminate | assumption].
Qed.

(** C1. Mask composition: when the conditions of the three groups evaluate to
    the masks [mA], [mB], [mC], [filter_df] computes
    [AND(mA) & OR(mB) & OR(mC)], an empty group being the identity (all true),
    and returns it unless it selects no record.  With the three groups empty
    the mask is all true and selects every record. *)
Theorem filter_df_composition :
  forall (df : DataFrame) (A B C : list filter_cond) (mA mB mC : list Mask),
    mapM (fun f => row_filter P f df) A = Ok mA ->
    mapM (fun f => row_filter P f df) B = Ok mB ->
    mapM (fun f => row_filter P f df) C = Ok mC ->
    let n := List.length (df_rows df) in
    let m := mask_and (mask_and (AND_group n mA) (OR_group n mB)) (OR_group n mC) in
    filter_df P df A B C =
      (if masked_empty df m
       then raise EmptyDataError
              [AStr "Filtered dataframe is empty"; AIndex (masked_index df m)]
       else Ok m)
    /\ (A = [] -> B = [] -> C = [] ->
        m = all_true n /\ select m (df_rows df) = df_rows df).
Proof.
  intros df A B C mA mB mC HA HB HC n m. split.
  - unfold filter_df; cbv zeta.
    assert (E1 : match A with
                 | [] => Ok (map (fun _ : row => Some true) (df_rows df) : Mask)
                 | _ :: _ => reduce_filters P mask_and A df
                 end = Ok (AND_group n mA)).
    { destruct A as [|a A].
      - apply mapM_nil_inv in HA; subst; simpl. now rewrite all_true_map.
      - apply reduce_filters_and; [discriminate | assumption]. }
    rewrite E1, bind_Ok; cbv beta.
    assert (LA : List.length (AND_group n mA) = n)
      by (apply AND_group_length; eapply mapM_row_filter_length; eassumption).
    rewrite (or_step df B (AND_group n mA) LA HB), bind_Ok; cbv beta; fold n.
    assert (LB : List.length (mask_and (AND_group n mA) (OR_group n mB)) = n).
    { unfold mask_and. rewrite map2_length; [assumption|].
      rewrite LA. symmetry. apply OR_group_length.
      eapply mapM_row_filter_length; eassumption. }
    rewrite (or_step df C _ LB HC), bind_Ok; cbv beta; fold n.
    reflexivity.
  - intros -> -> ->.
    apply mapM_nil_inv in HA, HB, HC; subst mA mB mC.
    assert (Em : m = all_true n).
    { subst m; unfold AND_group, OR_group; cbn [fold_right].
      now rewrite !mask_and_all_true_idem. }
    split; [assumption|]. rewrite Em. apply select_all_true.
Qed.

End FilterComposition.

(** ** Conditions on missing values and coercion failures *)

Lemma select_map_pred {A : Type} (p : A -> bool) (xs : list A) :
  select (map (fun x => Some (p x)) xs) xs = filter p xs.
Proof.
  induction xs as [|x xs IH]; simpl; [reflexivity|].
  destruct (p x); simpl; now rewrite IH.
Qed.

Lemma op_lookup_eq : op_lookup "==" = Some op_eq.
Proof. reflexivity. Qed.

Lemma op_lookup_ne : op_lookup "!=" = Some op_ne.
Proof. reflexivity. Qed.

Section RowFilterFacts.

Variable P : pyparse.

(** [row_filter] on a condition whose value is [None]. *)
Lemma row_filter_None (df : DataFrame) (column str_op : string) (o : cmp_op) (d : dtype) :
  op_lookup str_op = Some o ->
  lookup_dtype column (df_dtypes df) = Some d ->
  row_filter P (column, str_op, VNone) df =
    Ok (map (fun r => Some (if is_op_eq o then isnull (r column) else notnull (r column)))
            (df_rows df)).
Proof.
  intros Ho Hd. unfold row_filter, getitem. rewrite Ho, Hd. simpl.
  now rewrite map_map.
Qed.

(** C6. Null semantics: on a column [y] of the table, the condition
    [(y, "==", None)] yields the mask that selects exactly the records whose
    [y] is missing, and [(y, "!=", None)] the mask that selects exactly the
    records whose [y] is present. *)
Theorem row_filter_null_semantics :
  forall (df : DataFrame) (y : string) (d : dtype),
    lookup_dtype y (df_dtypes df) = Some d ->
    (exists m, row_filter P (y, "==", VNone) df = Ok m /\
               m = map (fun r => Some (isnull (r y))) (df_rows df) /\
               select m (df_rows df) = filter (fun r => isnull (r y)) (df_rows df)) /\
    (exists m, row_filter P (y, "!=", VNone) df = Ok m /\
               m = map (fun r => Some (notnull (r y))) (df_rows df) /\
               select m (df_rows df) = filter (fun r => notnull (r y)) (df_rows df)).
Proof.
  intros df y d Hd. split.
  - eexists. split; [apply row_filter_None with (d := d); [exact op_lookup_eq | exact Hd]|].
    split; [reflexivity|]. simpl. apply (select_map_pred (fun r => isnull (r y))).
  - eexists. split; [apply row_filter_None with (d := d); [exact op_lookup_ne | exact Hd]|].
    split; [reflexivity|]. simpl. apply (select_map_pred (fun r => notnull (r y))).
Qed.

(** [row_filter] when the coercion of the literal fails: the handler extends
    the message of a [TypeError] and lets every other exception through. *)
Lemma row_filter_coercion_failure (df : DataFrame) (column str_op : string)
  (o : cmp_op) (d : dtype) (v : value) (e : exn) :
  op_lookup str_op = Some o ->
  v <> VNone ->
  lookup_dtype column (df_dtypes df) = Some d ->
  pd_scalar P v d = Err e ->
  row_filter P (column, str_op, v) df =
    Err (if row_filter_catches e then annotate e (filter_suffix column v) else e).
Proof.
  intros Ho Hv Hd He. unfold row_filter, getitem. rewrite Ho, Hd.
  destruct v; try congruence; simpl; rewrite He; now destruct (row_filter_catches e).
Qed.

(** C8 (what the code does). A coercion failure of class [ValueError] leaves
    [row_filter] as it was raised: its message names neither the column nor
    the literal.  A failure of class [TypeError] is annotated with both. *)
Theorem row_filter_annotation_by_class :
  forall (df : DataFrame) (column str_op : string) (o : cmp_op) (d : dtype)
         (v : value) (msg : message),
    op_lookup str_op = Some o ->
    v <> VNone ->
    lookup_dtype column (df_dtypes df) = Some d ->
    (pd_scalar P v d = Err (Raise ValueError [AMsg msg]) ->
     row_filter P (column, str_op, v) df = Err (Raise ValueError [AMsg msg])) /\
    (pd_scalar P v d = Err (Raise TypeError [AMsg msg]) ->
     row_filter P (column, str_op, v) df =
       Err (Raise TypeError [AMsg (msg ++ filter_suffix column v)])).
Proof.
  intros df column str_op o d v msg Ho Hv Hd. split; intros He.
  - now rewrite (row_filter_coercion_failure df column str_op Ho Hv Hd He).
  - now rewrite (row_filter_coercion_failure df column str_op Ho Hv Hd He).
Qed.

End RowFilterFacts.

(** ** Row-count validation *)

Lemma fold_left_mul (l : list nat) (a : nat) :
  fold_left Nat.mul l a = a * product l.
Proof.
  revert a; induction l as [|x l IH]; intros a; simpl; [lia|].
  rewrite IH. lia.
Qed.

Lemma product_perm (l l' : list nat) : Permutation l l' -> product l = product l'.
Proof. induction 1; simpl; lia. Qed.

Lemma dict_set_graph {V : Type} (f : string -> V) (ks : list string) (c : string) :
  dict_set (map (fun k => (k, f k)) ks) c (f c) = map (fun k => (k, f k)) (add_key ks c).
Proof.
  unfold add_key. induction ks as [|k ks IH]; simpl; [reflexivity|].
  destruct (String.eqb_spec c k) as [->|Hne]; simpl; [reflexivity|].
  rewrite IH. now destruct (existsb (String.eqb c) ks).
Qed.

Lemma dict_fill_graph {V : Type} (f : string -> V) (l ks : list string) :
  fold_left (fun d c => dict_set d c (f c)) l (map (fun k => (k, f k)) ks) =
  map (fun k => (k, f k)) (fold_left add_key l ks).
Proof.
  revert ks; induction l as [|c l IH]; intros ks; simpl; [reflexivity|].
  now rewrite dict_set_graph, IH.
Qed.

Lemma existsb_eqb_In (c : string) (ks : list string) :
  existsb (String.eqb c) ks = true <-> In c ks.
Proof.
  rewrite existsb_exists. split.
  - intros (x & Hx & E). apply String.eqb_eq in E. now subst.
  - intros H. exists c. split; [assumption | apply String.eqb_refl].
Qed.

Lemma add_key_In (ks : list string) (c x : string) :
  In x (add_key ks c) <-> In x ks \/ x = c.
Proof.
  unfold add_key. destruct (existsb (String.eqb c) ks) eqn:E.
  - apply existsb_eqb_In in E. split; [auto | intros [H| ->]; auto].
  - rewrite in_app_iff. simpl. intuition.
Qed.

Lemma add_key_NoDup (ks : list string) (c : string) :
  NoDup ks -> NoDup (add_key ks c).
Proof.
  intros H. unfold add_key. destruct (existsb (String.eqb c) ks) eqn:E; [assumption|].
  apply NoDup_app; [assumption | repeat constructor; simpl; tauto |].
  intros x Hx [<-|[]]. apply existsb_eqb_In in Hx. congruence.
Qed.

Lemma fill_keys_In (l ks : list string) (x : string) :
  In x (fold_left add_key l ks) <-> In x ks \/ In x l.
Proof.
  revert ks; induction l as [|c l IH]; intros ks; simpl; [tauto|].
  rewrite IH, add_key_In. intuition.
Qed.

Lemma fill_keys_NoDup (l ks : list string) :
  NoDup ks -> NoDup (fold_left add_key l ks).
Proof.
  revert ks; induction l as [|c l IH]; intros ks H; simpl; auto using add_key_NoDup.
Qed.

(** The number of column combinations computed through the dictionary of
    [check_filtered_row_count] is the product of the multiplicities of the
    distinct series columns. *)
Lemma series_combinations_eq (series_columns : list string) :
  fold_left Nat.mul
    (dict_values
       (fold_left (fun d c => dict_set d c (list_count c series_columns)) series_columns []))
    1 = multiplicity_product series_columns.
Proof.
  rewrite fold_left_mul, Nat.mul_1_l.
  change (@nil (string * nat))
    with (map (fun k => (k, list_count k series_columns)) []).
  rewrite dict_fill_graph. unfold dict_values, multiplicity_product.
  rewrite map_map; simpl.
  apply product_perm, Permutation_map, NoDup_Permutation.
  - apply fill_keys_NoDup; constructor.
  - apply NoDup_nodup.
  - intros x. rewrite fill_keys_In, nodup_In. simpl; tauto.
Qed.

Lemma project_Ok (df : DataFrame) (labels : list string) (m : Mask) :
  (forall c, In c labels -> has_column df c = true) ->
  project df labels m = Ok (map (fun r => map r labels) (select m (df_rows df))).
Proof.
  intros H. unfold project.
  replace (filter (fun c => negb (has_column df c)) labels) with (@nil string);
    [reflexivity|].
  symmetry. induction labels as [|c labels IH]; simpl; [reflexivity|].
  rewrite (H c) by (now left). simpl. apply IH. intros; apply H; now right.
Qed.

Lemma string_compare_refl (x : string) : String.compare x x = Eq.
Proof.
  pose proof (String.compare_antisym x x) as H.
  destruct (String.compare x x); simpl in H; congruence.
Qed.

Lemma py_same_exact (a b : value) :
  exact_cell a = true -> exact_cell b = true -> (py_same a b = true <-> a = b).
Proof.
  destruct a, b; simpl; try discriminate; intros _ _;
    try (split; [discriminate | congruence]); try tauto.
  - destruct (Z.compare_spec z z0); split; try congruence; try discriminate;
      intros E; inversion E; lia.
  - split.
    + destruct (String.compare s s0) eqn:E; try discriminate.
      apply String.compare_eq_iff in E. now subst.
    + intros E; inversion E; subst. now rewrite string_compare_refl.
  - destruct (Z.compare_spec ns ns0); split; try congruence; try discriminate;
      intros E; inversion E; lia.
Qed.

Lemma py_set_add_exact (s : list value) (v : value) :
  Forall (fun w => exact_cell w = true) s -> exact_cell v = true -> NoDup s ->
  NoDup (py_set_add s v) /\ (forall w, In w (py_set_add s v) <-> In w s \/ w = v).
Proof.
  intros Hs Hv Hnd. unfold py_set_add.
  destruct (existsb (py_same v) s) eqn:E.
  - split; [assumption|]. intros w. split; [auto|]. intros [H| ->]; [assumption|].
    apply existsb_exists in E as (u & Hu & Huv).
    rewrite Forall_forall in Hs.
    apply py_same_exact in Huv; [now subst | assumption | now apply Hs].
  - split.
    + apply NoDup_app; [assumption | repeat constructor; simpl; tauto |].
      intros w Hw [<-|[]].
      assert (existsb (py_same v) s = true); [|congruence].
      apply existsb_exists. exists v. split; [assumption|].
      now apply py_same_exact.
    + intros w. rewrite in_app_iff. simpl. intuition.
Qed.

(** On cells that compare exactly, [set(xs)] holds each value of [xs] once. *)
Lemma py_set_distinct (xs : list value) :
  Forall (fun v => exact_cell v = true) xs ->
  NoDup (py_set xs) /\ (forall v, In v (py_set xs) <-> In v xs).
Proof.
  unfold py_set. intros Hxs.
  assert (G : forall s, Forall (fun w => exact_cell w = true) s -> NoDup s ->
              NoDup (fold_left py_set_add xs s) /\
              (forall v, In v (fold_left py_set_add xs s) <-> In v s \/ In v xs)).
  { induction Hxs as [|x xs Hx _ IH]; intros s Hs Hnd; simpl.
    - split; [assumption | tauto].
    - destruct (@py_set_add_exact s x Hs Hx Hnd) as [Hnd' Hin'].
      assert (Hs' : Forall (fun w => exact_cell w = true) (py_set_add s x)).
      { apply Forall_forall. intros w Hw. apply Hin' in Hw as [Hw| ->]; [|assumption].
        rewrite Forall_forall in Hs. now apply Hs. }
      destruct (IH _ Hs' Hnd') as [Hnd'' Hin'']. split; [assumption|].
      intros v. rewrite Hin'', Hin'. intuition. }
  destruct (G [] (Forall_nil _) (NoDup_nil _)) as [Hnd Hin].
  split; [assumption|]. intros v. rewrite Hin. simpl. tauto.
Qed.

(** [check_filtered_row_count] in closed form, on a table that has the x-axis
    column and the plot columns. *)
Lemma check_filtered_row_count_eq (df : DataFrame) (m : Mask) (x_axis : axis)
  (series_columns plot_columns : list string) (d : dtype) :
  lookup_dtype (ax_value x_axis) (df_dtypes df) = Some d ->
  (forall c, In c plot_columns -> has_column df c = true) ->
  check_filtered_row_count df m x_axis series_columns plot_columns =
    let actual := List.length (select m (df_rows df)) in
    let expected := multiplicity_product series_columns * distinct_x df m x_axis in
    if (expected <? actual)%nat
    then raise RuntimeError
           [AMsg (row_count_message actual expected);
            AFrame (map (fun r => map r plot_columns) (select m (df_rows df)))]
    else Ok tt.
Proof.
  intros Hx Hp. unfold check_filtered_row_count, getitem, getitem_mask; simpl.
  rewrite Hx; simpl. rewrite series_combinations_eq.
  unfold distinct_x.
  destruct (_ <? _)%nat; [|reflexivity].
  now rewrite project_Ok.
Qed.

(** C2. Row-count validation: with [expected] the product of the
    multiplicities of the distinct series columns times the number of distinct
    x-axis values among the selected records, and [actual] the number of
    selected records, [check_filtered_row_count] raises the [RuntimeError]
    that reports both counts if and only if [actual > expected]; it returns
    normally otherwise, in particular when [actual < expected]. *)
Theorem row_count_validation :
  forall (df : DataFrame) (m : Mask) (x_axis : axis)
         (series_columns plot_columns : list string) (d : dtype),
    List.length m = List.length (df_rows df) ->
    lookup_dtype (ax_value x_axis) (df_dtypes df) = Some d ->
    (forall c, In c plot_columns -> has_column df c = true) ->
    let actual := List.length (select m (df_rows df)) in
    let expected := multiplicity_product series_columns * distinct_x df m x_axis in
    (actual > expected <->
     exists frame,
       check_filtered_row_count df m x_axis series_columns plot_columns =
         Err (Raise RuntimeError [AMsg (row_count_message actual expected); AFrame frame]))
    /\ (actual <= expected <->
        check_filtered_row_count df m x_axis series_columns plot_columns = Ok tt)
    /\ (actual < expected ->
        check_filtered_row_count df m x_axis series_columns plot_columns = Ok tt)
    /\ (forall xs l,
          xs = map (fun r => r (ax_value x_axis)) (select m (df_rows df)) ->
          Forall (fun v => exact_cell v = true) xs ->
          NoDup l -> (forall v, In v l <-> In v xs) ->
          distinct_x df m x_axis = List.length l).
Proof.
  intros df m x_axis series_columns plot_columns d _ Hx Hp actual expected.
  rewrite (check_filtered_row_count_eq df m x_axis series_columns plot_columns Hx Hp).
  cbv zeta. fold actual expected.
  assert (Hdistinct : forall xs l,
             xs = map (fun r => r (ax_value x_axis)) (select m (df_rows df)) ->
             Forall (fun v => exact_cell v = true) xs ->
             NoDup l -> (forall v, In v l <-> In v xs) ->
             distinct_x df m x_axis = List.length l).
  { intros xs l -> Hexact Hnd Hin. unfold distinct_x.
    destruct (@py_set_distinct _ Hexact) as [Hnd' Hin'].
    apply Permutation_length, NoDup_Permutation; auto.
    intros v. now rewrite Hin', Hin. }
  destruct (Nat.ltb_spec expected actual) as [Hlt|Hge].
  - split; [|split; [|split]]; [| | |exact Hdistinct].
    + split; [intros _; eexists; reflexivity | intros _; lia].
    + split; [lia | discriminate].
    + lia.
  - split; [|split; [|split]]; [| | |exact Hdistinct].
    + split; [lia | intros [frame H]; discriminate].
    + split; [reflexivity | intros _; lia].
    + reflexivity.
Qed.

Lemma select_app {A : Type} (m m' : Mask) (xs xs' : list A) :
  List.length m = List.length xs ->
  select (m ++ m') (xs ++ xs') = select m xs ++ select m' xs'.
Proof.
  revert xs; induction m as [|b m IH]; intros [|x xs] H; simpl in *;
    try discriminate; [reflexivity|].
  destruct (selected b); simpl; rewrite IH by lia; reflexivity.
Qed.

Lemma py_set_snoc (xs : list value) (v : value) :
  py_set (xs ++ [v]) = py_set_add (py_set xs) v.
Proof. unfold py_set. now rewrite fold_left_app. Qed.

(** C3 (as the code has it). Grid validation.  The validation does not read
    the series values: it multiplies the multiplicities of the names in the
    list of series columns.  When they multiply to 2 (the series column
    listed twice, once per series), a table whose selected records hold
    three distinct x-axis values, six records in all, passes the validation,
    and with a seventh selected record that repeats an x-axis value the
    validation raises the [RuntimeError] reporting 7 records for 6
    expected. *)
Theorem grid_validation_2x3 :
  forall (df : DataFrame) (m : Mask) (x_axis : axis) (series_columns : list string)
         (plot_columns : list string) (d : dtype) (r : row),
    List.length m = List.length (df_rows df) ->
    lookup_dtype (ax_value x_axis) (df_dtypes df) = Some d ->
    (forall c, In c plot_columns -> has_column df c = true) ->
    multiplicity_product series_columns = 2 ->
    distinct_x df m x_axis = 3 ->
    List.length (select m (df_rows df)) = 6 ->
    existsb (py_same (r (ax_value x_axis)))
            (py_set (map (fun r => r (ax_value x_axis)) (select m (df_rows df)))) = true ->
    check_filtered_row_count df m x_axis series_columns plot_columns = Ok tt
    /\ exists frame,
         check_filtered_row_count (mkDF (df_dtypes df) (df_rows df ++ [r]))
           (m ++ [Some true]) x_axis series_columns plot_columns =
         Err (Raise RuntimeError [AMsg (row_count_message 7 6); AFrame frame]).
Proof.
  intros df m x_axis series_columns plot_columns d r Hm Hx Hp Hs H3 H6 Hdup.
  split.
  - rewrite (check_filtered_row_count_eq df m x_axis series_columns plot_columns Hx Hp).
    cbv zeta. now rewrite Hs, H3, H6.
  - eexists.
    rewrite (@check_filtered_row_count_eq (mkDF (df_dtypes df) (df_rows df ++ [r]))
               (m ++ [Some true]) x_axis series_columns plot_columns d Hx Hp).
    cbv zeta. unfold distinct_x. simpl df_rows.
    rewrite (select_app m [Some true] (df_rows df) [r] Hm).
    cbn [select selected]. rewrite map_app. cbn [map]. rewrite py_set_snoc.
    unfold py_set_add. unfold row in *. rewrite Hdup.
    change (List.length (py_set (map (fun r0 => r0 (ax_value x_axis)) (select m (df_rows df)))))
      with (distinct_x df m x_axis).
    rewrite Hs, H3, length_app, H6. reflexivity.
Qed.

(** C3 (counterexample). The six records of [grid6] hold two series values
    on three x-axis values; with the series column listed once, the
    validation expects three records and rejects the six. *)
Lemma grid_validation_series_listed_once :
  List.length (py_set (map (fun r : row => r "series") (df_rows grid6))) = 2
  /\ distinct_x grid6 (all_true 6) x_axis0 = 3
  /\ List.length (select (all_true 6) (df_rows grid6)) = 6
  /\ exists frame,
       check_filtered_row_count grid6 (all_true 6) x_axis0 ["series"] bench_columns =
         Err (Raise RuntimeError [AMsg (row_count_message 6 3); AFrame frame]).
Proof.
  repeat split; try (vm_compute; reflexivity).
  eexists. vm_compute. reflexivity.
Qed.

(** ** Sorting *)

Section InsertionSorts.

Variable A : Type.
Variable leb : A -> A -> bool.

Lemma insert_sorted_perm (x : A) (l : list A) :
  Permutation (insert_sorted leb x l) (x :: l).
Proof.
  induction l as [|y t IH]; simpl; [reflexivity|].
  destruct (leb x y); [reflexivity|].
  rewrite IH. apply perm_swap.
Qed.


Lemma stable_sort_perm (l : list A) : Permutation (stable_sort leb l) l.
Proof.
  induction l as [|x l IH]; simpl; [reflexivity|].
  rewrite insert_sorted_perm. now constructor.
Qed.


Hypothesis leb_total : forall a b, leb a b = true \/ leb b a = true.
Hypothesis leb_trans : forall a b c, leb a b = true -> leb b c = true -> leb a c = true.

Lemma insert_sorted_sorted (x : A) (l : list A) :
  sorted_with leb l -> sorted_with leb (insert_sorted leb x l).
Proof.
  induction 1 as [|y t Ht IH Hy]; simpl.
  - repeat constructor.
  - destruct (leb x y) eqn:E.
    + constructor; [now constructor|].
      constructor; [exact E|].
      eapply Forall_impl; [|exact Hy]. intros z Hz. exact (leb_trans E Hz).
    + constructor; [assumption|].
      apply (Permutation_Forall (Permutation_sym (insert_sorted_perm x t))).
      constructor; [|assumption].
      destruct (leb_total x y) as [H|H]; [congruence | exact H].
Qed.


Lemma stable_sort_sorted (l : list A) : sorted_with leb (stable_sort leb l).
Proof.
  induction l as [|x l IH]; simpl; [constructor | now apply insert_sorted_sorted].
Qed.




End InsertionSorts.



(** *** The order of cells is a total preorder *)

Lemma SFleb_total (a b : spec_float) :
  a <> S754_nan -> b <> S754_nan -> SFleb a b = true \/ SFleb b a = true.
Proof.
  unfold SFleb.
  destruct a as [sa|sa| |sa ma ea], b as [sb|sb| |sb mb eb]; simpl; try congruence;
    intros _ _;
    repeat match goal with s : bool |- _ => destruct s end; simpl; auto;
    change (Pos.compare_cont Eq) with Pos.compare;
    destruct (Z.compare_spec ea eb), (Z.compare_spec eb ea); try lia; simpl; auto;
    destruct (Pos.compare_spec ma mb), (Pos.compare_spec mb ma); simpl; auto; lia.
Qed.

Lemma SFleb_trans (a b c : spec_float) :
  SFleb a b = true -> SFleb b c = true -> SFleb a c = true.
Proof.
  unfold SFleb.
  destruct a as [sa|sa| |sa ma ea], b as [sb|sb| |sb mb eb], c as [sc|sc| |sc mc ec];
    simpl; try discriminate;
    repeat match goal with s : bool |- _ => destruct s end; simpl;
    try discriminate; try reflexivity;
    change (Pos.compare_cont Eq) with Pos.compare;
    destruct (Z.compare_spec ea eb), (Z.compare_spec eb ec), (Z.compare_spec ea ec);
    try lia; simpl; try discriminate; try reflexivity;
    destruct (Pos.compare_spec ma mb), (Pos.compare_spec mb mc), (Pos.compare_spec ma mc);
    simpl; try discriminate; try reflexivity; lia.
Qed.

Lemma not_nan_spec (f : float) : is_nan f = false -> Prim2SF f <> S754_nan.
Proof.
  unfold is_nan. rewrite eqb_spec. unfold SFeqb. intros H E. rewrite E in H.
  discriminate.
Qed.

Lemma float_leb_total (a b : float) :
  is_nan a = false -> is_nan b = false -> (a <=? b)%float = true \/ (b <=? a)%float = true.
Proof.
  intros Ha Hb. rewrite !leb_spec. apply SFleb_total; now apply not_nan_spec.
Qed.

Lemma float_leb_trans (a b c : float) :
  (a <=? b)%float = true -> (b <=? c)%float = true -> (a <=? c)%float = true.
Proof. rewrite !leb_spec. apply SFleb_trans. Qed.

Lemma string_leb_trans (a b c : string) :
  String.leb a b = true -> String.leb b c = true -> String.leb a c = true.
Proof.
  unfold String.leb. revert b c.
  induction a as [|x a IH]; intros [|y b] [|z c]; simpl; try easy.
  unfold Ascii.compare.
  destruct (N.compare_spec (N_of_ascii x) (N_of_ascii y)),
           (N.compare_spec (N_of_ascii y) (N_of_ascii z)),
           (N.compare_spec (N_of_ascii x) (N_of_ascii z)); try lia; try easy.
  apply IH.
Qed.

Lemma cell_leb_total (a b : value) : cell_leb a b = true \/ cell_leb b a = true.
Proof.
  unfold cell_leb.
  destruct (isnull b) eqn:Nb; [now left|].
  destruct (isnull a) eqn:Na; [now right|].
  destruct a, b; simpl in *; try discriminate; auto.
  - destruct (Z.leb_spec z z0), (Z.leb_spec z0 z); auto; lia.
  - now apply float_leb_total.
  - apply String.leb_total.
  - destruct (Z.leb_spec ns ns0), (Z.leb_spec ns0 ns); auto; lia.
Qed.

Lemma cell_leb_trans (a b c : value) :
  cell_leb a b = true -> cell_leb b c = true -> cell_leb a c = true.
Proof.
  unfold cell_leb.
  destruct (isnull c) eqn:Nc; [reflexivity|].
  destruct (isnull b) eqn:Nb; [discriminate|].
  destruct (isnull a) eqn:Na; [discriminate|].
  destruct a, b, c; simpl in *; try discriminate; try reflexivity.
  - rewrite !Z.leb_le. lia.
  - apply float_leb_trans.
  - apply string_leb_trans.
  - rewrite !Z.leb_le. lia.
Qed.

Lemma lex_leb_total (by_ : list string) (a b : row) :
  lex_leb by_ a b = true \/ lex_leb by_ b a = true.
Proof.
  induction by_ as [|c by_ IH]; simpl; [now left|].
  destruct (cell_leb_total (a c) (b c)) as [H|H]; rewrite H;
    destruct (cell_leb (b c) (a c)) eqn:E1, (cell_leb (a c) (b c)) eqn:E2;
    auto; discriminate.
Qed.

Lemma lex_leb_trans (by_ : list string) (a b c : row) :
  lex_leb by_ a b = true -> lex_leb by_ b c = true -> lex_leb by_ a c = true.
Proof.
  induction by_ as [|k by_ IH]; simpl; [reflexivity|].
  destruct (cell_leb (a k) (b k)) eqn:Eab; [|discriminate].
  destruct (cell_leb (b k) (c k)) eqn:Ebc; [|intros _; discriminate].
  rewrite (cell_leb_trans _ _ _ Eab Ebc).
  destruct (cell_leb (c k) (a k)) eqn:Eca; [|reflexivity].
  rewrite (cell_leb_trans _ _ _ Ebc Eca), (cell_leb_trans _ _ _ Eca Eab).
  exact IH.
Qed.

(** *** [sort_df] *)







Lemma one_kind_iff (vs : list value) :
  one_kind vs = true <->
  (forall a b, In a vs -> In b vs -> notnull a = true -> notnull b = true ->
               kind_rank a = kind_rank b).
Proof.
  unfold one_kind. destruct (filter notnull vs) as [|v t] eqn:F.
  - split; [|reflexivity]. intros _ a b Ha _ Na _.
    assert (X : In a (filter notnull vs)) by (apply filter_In; auto).
    rewrite F in X. contradiction.
  - assert (Hin : forall w, In w (v :: t) <-> In w vs /\ notnull w = true)
      by (intros w; rewrite <- F; apply filter_In).
    rewrite forallb_forall. split.
    + intros H a b Ha Hb Na Nb.
      assert (K : forall w, In w (v :: t) -> kind_rank w = kind_rank v).
      { intros w [<-|Hw]; [reflexivity|]. now apply Nat.eqb_eq, H. }
      rewrite (K a), (K b); [reflexivity| |]; apply Hin; auto.
    + intros H w Hw. apply Nat.eqb_eq.
      destruct (proj1 (Hin w) (or_intror Hw)) as [W1 W2].
      destruct (proj1 (Hin v) (or_introl eq_refl)) as [V1 V2]. now apply H.
Qed.

Lemma one_kind_perm (l l' : list value) :
  Permutation l l' -> one_kind l = one_kind l'.
Proof.
  intros Hp.
  assert (E : one_kind l = true <-> one_kind l' = true).
  { rewrite !one_kind_iff. split; intros H a b Ha Hb; apply H.
    - now apply (Permutation_in _ (Permutation_sym Hp)).
    - now apply (Permutation_in _ (Permutation_sym Hp)).
    - now apply (Permutation_in _ Hp).
    - now apply (Permutation_in _ Hp). }
  destruct (one_kind l), (one_kind l'); try reflexivity.
  - symmetry. now apply E.
  - now apply E.
Qed.

Lemma mixed_columns_perm (rs rs' : list row) (labels : list string) :
  Permutation rs rs' ->
  filter (fun c => negb (one_kind (map (fun r : row => r c) rs))) labels =
  filter (fun c => negb (one_kind (map (fun r : row => r c) rs'))) labels.
Proof.
  intros Hp. apply filter_ext. intros c. f_equal.
  apply one_kind_perm. now apply Permutation_map.
Qed.





(** ** Scaling *)

Lemma truediv_numeric (d : dtype) (a b : value) :
  is_numeric_dtype d = true -> numeric_or_na a = true -> numeric_or_na b = true ->
  truediv d a b = Ok (quotient a b).
Proof.
  intros Hd Ha Hb. unfold truediv, quotient. rewrite Hd, Ha, Hb.
  now destruct (as_float a), (as_float b).
Qed.

Lemma mapM_Ok {A B : Type} (f : A -> result B) (g : A -> B) (l : list A) :
  Forall (fun a => f a = Ok (g a)) l -> mapM f l = Ok (map g l).
Proof.
  induction 1 as [|a l Ha _ IH]; simpl; [reflexivity|].
  now rewrite Ha, IH.
Qed.

Lemma select_length_le {A : Type} (m : Mask) (xs : list A) :
  List.length (select m xs) <= List.length xs.
Proof.
  revert xs; induction m as [|b m IH]; intros [|x xs]; simpl; try lia.
  specialize (IH xs). destruct (selected b); simpl; lia.
Qed.


Lemma select_Forall {A : Type} (Q : A -> Prop) (m : Mask) (xs : list A) :
  Forall Q xs -> Forall Q (select m xs).
Proof.
  intros H; revert m; induction H as [|x xs Hx _ IH]; intros [|b m]; simpl;
    try constructor.
  destruct (selected b); [constructor|]; auto.
Qed.

Lemma upd_same (r : row) (c : string) (v : value) : upd r c v c = v.
Proof. unfold upd. now rewrite String.eqb_refl. Qed.

Lemma upd_other (r : row) (c c' : string) (v : value) : c' <> c -> upd r c v c' = r c'.
Proof. intros H. unfold upd. now apply String.eqb_neq in H as ->. Qed.

Lemma assign_length (m : Mask) (vals : list value) (c : string) (rs : list row) :
  List.length (assign m vals c rs) = List.length rs.
Proof.
  revert vals rs; induction m as [|b m IH]; intros vals [|r rs]; simpl; try reflexivity.
  destruct (selected b); [destruct vals|]; simpl; now rewrite ?IH.
Qed.

Lemma assign_other (m : Mask) (vals : list value) (c c' : string) (rs : list row) :
  c' <> c -> map (fun r => r c') (assign m vals c rs) = map (fun r => r c') rs.
Proof.
  intros Hc; revert vals rs; induction m as [|b m IH]; intros vals [|r rs]; simpl;
    try reflexivity.
  destruct (selected b); [destruct vals|]; simpl; rewrite ?IH, ?upd_other; auto.
Qed.

Lemma assign_unselected (m : Mask) (vals : list value) (c : string) (rs : list row) (i : nat) :
  selected (nth i m None) = false ->
  nth i (map (fun r => r c) (assign m vals c rs)) VNone = nth i (map (fun r => r c) rs) VNone.
Proof.
  revert vals rs i; induction m as [|b m IH]; intros vals [|r rs] i H; simpl;
    try reflexivity.
  destruct i as [|i]; simpl in H.
  - rewrite H. reflexivity.
  - destruct (selected b); [destruct vals|]; simpl; auto.
Qed.

(** The selected cells after [df.loc[mask, c] = vals] are [vals]. *)
Lemma select_assign (m : Mask) (vals : list value) (c : string) (rs : list row) :
  List.length (select m rs) = List.length vals ->
  map (fun r => r c) (select m (assign m vals c rs)) = vals.
Proof.
  revert vals rs; induction m as [|b m IH]; intros vals [|r rs] H;
    cbn [select assign List.length map] in *;
    try (destruct vals; [reflexivity | discriminate]).
  destruct (selected b) eqn:Sb.
  - destruct vals as [|v vals]; [discriminate|].
    cbn [select map]. rewrite ?Sb. cbn [map].
    rewrite upd_same. f_equal. apply IH. simpl in H. lia.
  - cbn [select]. rewrite ?Sb. now apply IH.
Qed.

Lemma mapM_length {A B : Type} (f : A -> result B) (l : list A) (r : list B) :
  mapM f l = Ok r -> List.length r = List.length l.
Proof.
  revert r; induction l as [|a l IH]; intros r H; simpl in H.
  - now inversion H.
  - destruct (f a); cbn [bind] in H; [|discriminate].
    destruct (mapM f l) as [bs|]; cbn [bind] in H; [|discriminate].
    inversion H; subst. simpl. now rewrite (IH bs eq_refl).
Qed.

Lemma loc_setitem_writes_only (df df' : DataFrame) (m : Mask) (y : string) (d : dtype)
  (vals : list value) :
  loc_setitem df m y d vals = Ok df' -> writes_only m y df df'.
Proof.
  unfold loc_setitem. destruct (_ =? _)%nat; [|discriminate].
  destruct (mapM (setitem_cast d) vals) as [stored|]; cbn [bind]; [|discriminate].
  intros H; inversion H; subst; clear H. unfold writes_only; simpl.
  split; [reflexivity|]. split; [apply assign_length|].
  split; [intros c Hc; now apply assign_other|].
  intros i Hi. now apply assign_unselected.
Qed.

Lemma writes_only_refl (m : Mask) (y : string) (df : DataFrame) : writes_only m y df df.
Proof. unfold writes_only; auto. Qed.

Lemma writes_only_trans (m : Mask) (y : string) (a b c : DataFrame) :
  writes_only m y a b -> writes_only m y b c -> writes_only m y a c.
Proof.
  intros (D1 & L1 & O1 & U1) (D2 & L2 & O2 & U2). unfold writes_only.
  split; [congruence|]. split; [congruence|].
  split; [intros k Hk; now rewrite O2, O1|].
  intros i Hi. now rewrite U2, U1.
Qed.

Lemma mask_and_selected (a b : Mask) (i : nat) :
  selected (nth i a None) = false -> selected (nth i (mask_and a b) None) = false.
Proof.
  revert b i; induction a as [|x a IH]; intros [|z b] [|i] H; simpl in *;
    try reflexivity.
  - now destruct x as [[|]|], z as [[|]|].
  - now apply IH.
Qed.

(** Writing under a narrower mask is writing under the mask. *)
Lemma writes_only_narrow (m m' : Mask) (y : string) (a b : DataFrame) :
  writes_only (mask_and m m') y a b -> writes_only m y a b.
Proof.
  intros (D & L & O & U). unfold writes_only. repeat split; auto.
  intros i Hi. apply U. now apply mask_and_selected.
Qed.

Section ScalingFacts.

Variable P : pyparse.

Lemma transform_axis_writes_only (df df' : DataFrame) (mask : Mask) (a : axis)
  (scol : option Series) (ssm sxm ssm' : option Mask) :
  transform_axis P df mask a scol ssm sxm = Ok (df', ssm') ->
  writes_only mask (ax_value a) df df'.
Proof.
  unfold transform_axis. destruct scol as [scol|].
  - intros H.
    destruct (getitem (getitem_mask df mask) (ax_value a)) as [ycol|] eqn:G;
      cbn [bind] in H; [|discriminate].
    destruct (negb (is_numeric_dtype (s_dtype ycol)) || negb (is_numeric_dtype (s_dtype scol))).
    + destruct (scaling_column_name a); discriminate.
    + destruct (scaling_mask_of mask ssm sxm) as [smask ssm0].
      destruct (np_truediv _ _ _) as [q|]; cbn [bind] in H; [|discriminate].
      destruct (loc_setitem df mask (ax_value a) (s_dtype ycol) q) as [df1|] eqn:L;
        cbn [bind] in H; [|discriminate].
      inversion H; subst. eapply loc_setitem_writes_only; eassumption.
  - destruct (ax_scaling a) as [sc|]; [|discriminate].
    destruct (truthy_custom sc) as [c|].
    + intros H.
      destruct (getitem (getitem_mask df mask) (ax_value a)) as [ycol|] eqn:G;
        cbn [bind] in H; [|discriminate].
      destruct (pd_scalar P c (s_dtype ycol)) as [c'|[[] args]]; try discriminate.
      destruct (np_truediv _ _ _) as [q|]; cbn [bind] in H; [|discriminate].
      destruct (loc_setitem df mask (ax_value a) (s_dtype ycol) q) as [df1|] eqn:L;
        cbn [bind] in H; [|discriminate].
      inversion H; subst. eapply loc_setitem_writes_only; eassumption.
    + intros H; inversion H; subst. apply writes_only_refl.
Qed.

Lemma transform_series_writes_only (fs : list filter_cond) :
  forall (df df' : DataFrame) (mask : Mask) (y_axis : axis) (scol : option Series)
         (ssm sxm : option Mask),
    transform_series P fs df mask y_axis scol ssm sxm = Ok df' ->
    writes_only mask (ax_value y_axis) df df'.
Proof.
  induction fs as [|f fs IH]; intros df df' mask y_axis scol ssm sxm H; simpl in H.
  - inversion H; subst. apply writes_only_refl.
  - destruct (row_filter P f df) as [m|]; cbn [bind] in H; [|discriminate].
    destruct (transform_axis P df (mask_and mask m) y_axis scol ssm sxm)
      as [[df1 ssm1]|] eqn:T; cbn [bind] in H; [|discriminate].
    apply transform_axis_writes_only, writes_only_narrow in T.
    eapply writes_only_trans; [exact T|]. eapply IH; eassumption.
Qed.

Lemma transform_df_data_writes_only (df df' : DataFrame) (x_axis y_axis : axis)
  (series_filters : list filter_cond) (mask : Mask) :
  transform_df_data P df x_axis y_axis series_filters mask = Ok df' ->
  writes_only mask (ax_value y_axis) df df'.
Proof.
  unfold transform_df_data. destruct (ax_scaling y_axis) as [sc|].
  - intros H.
    destruct (scaling_info P df x_axis sc series_filters) as [[[scol ssm] sxm]|];
      cbn [bind] in H; [|discriminate].
    destruct series_filters as [|f fs].
    + destruct (transform_axis P df mask y_axis scol ssm sxm) as [[df1 ssm1]|] eqn:T;
        cbn [bind] in H; [|discriminate].
      inversion H; subst. eapply transform_axis_writes_only; eassumption.
    + eapply transform_series_writes_only; eassumption.
  - intros H; inversion H; subst. apply writes_only_refl.
Qed.

(** C9. Frame of the scaling: an application of [transform_axis] (by a
    baseline column or by a constant), and [transform_df_data] as a whole,
    change at most the y-axis cells of the records selected by the mask: the
    records that are not selected keep their y-axis value, and every other
    column is unchanged in all records. *)
Theorem scaling_writes_only_masked_y :
  (forall (df df' : DataFrame) (mask : Mask) (a : axis) (scol : option Series)
          (ssm sxm ssm' : option Mask),
      transform_axis P df mask a scol ssm sxm = Ok (df', ssm') ->
      writes_only mask (ax_value a) df df')
  /\ (forall (df df' : DataFrame) (x_axis y_axis : axis)
             (series_filters : list filter_cond) (mask : Mask),
         transform_df_data P df x_axis y_axis series_filters mask = Ok df' ->
         writes_only mask (ax_value y_axis) df df').
Proof.
  split.
  - intros; eapply transform_axis_writes_only; eassumption.
  - intros; eapply transform_df_data_writes_only; eassumption.
Qed.

End ScalingFacts.

(** *** The cast of the quotients *)

Lemma is_float_numeric (v : value) : is_float v = true -> numeric_or_na v = true.
Proof. now destruct v. Qed.

Lemma is_number_numeric (v : value) : is_number v = true -> numeric_or_na v = true.
Proof. now destruct v. Qed.

Lemma float_cells_numeric (c : string) (rs : list row) :
  float_cells c rs -> numeric_cells c rs.
Proof.
  intros H. eapply Forall_impl; [|exact H]. intros r. apply is_float_numeric.
Qed.

(** The quotient of a float by a number is a float. *)
Lemma quotient_is_float (a b : value) :
  is_float a = true -> is_number b = true -> is_float (quotient a b) = true.
Proof. destruct a, b; try discriminate; reflexivity. Qed.

(** A float is stored as it is in a column of type float64. *)
Lemma setitem_cast_float (v : value) :
  is_float v = true -> setitem_cast Dfloat64 v = Ok v.
Proof. destruct v; try discriminate; reflexivity. Qed.

Lemma cast_float_quotients {A : Type} (q : A -> value) (l : list A) :
  Forall (fun a => is_float (q a) = true) l ->
  mapM (setitem_cast Dfloat64) (map q l) = Ok (map q l).
Proof.
  intros H. rewrite <- (map_id (map q l)) at 2. apply mapM_Ok.
  apply Forall_map. eapply Forall_impl; [|exact H].
  intros a Ha. now apply setitem_cast_float.
Qed.





Section ScalingValues.

Variable P : pyparse.

Lemma getitem_masked (df : DataFrame) (m : Mask) (c : string) (d : dtype) :
  lookup_dtype c (df_dtypes df) = Some d ->
  getitem (getitem_mask df m) c =
    Ok (mkSeries d (map (fun r => r c) (select m (df_rows df)))).
Proof. intros H. unfold getitem, getitem_mask; simpl. now rewrite H. Qed.

(** [transform_axis] by a baseline column, on numeric columns: the division by
    the resolved baseline, then the assignment. *)
Lemma transform_axis_by_column (df : DataFrame) (mask : Mask) (a : axis) (scol : Series)
  (ssm sxm : option Mask) (dy : dtype) :
  lookup_dtype (ax_value a) (df_dtypes df) = Some dy ->
  is_numeric_dtype dy = true ->
  is_numeric_dtype (s_dtype scol) = true ->
  transform_axis P df mask a (Some scol) ssm sxm =
    (q <- np_truediv dy (map (fun r => r (ax_value a)) (select mask (df_rows df)))
            (scaling_val_of scol (fst (scaling_mask_of mask ssm sxm))) ;;
     df' <- loc_setitem df mask (ax_value a) dy q ;;
     Ok (df', snd (scaling_mask_of mask ssm sxm))).
Proof.
  intros Hy Hdy Hds. unfold transform_axis.
  rewrite (getitem_masked df mask (ax_value a) Hy); cbn [bind s_dtype s_values].
  rewrite Hdy, Hds; cbn [negb orb].
  now destruct (scaling_mask_of mask ssm sxm).
Qed.

Lemma scaling_val_vector (scol : Series) (smask : Mask) :
  List.length (select smask (s_values scol)) <> 1 ->
  scaling_val_of scol smask = Vector (select smask (s_values scol)).
Proof.
  unfold scaling_val_of. destruct (select smask (s_values scol)) as [|v [|w vs]];
    simpl; intros H; congruence.
Qed.

Lemma truediv_all (d : dtype) (xs : list value) (v : value) :
  is_numeric_dtype d = true ->
  Forall (fun x => numeric_or_na x = true) xs -> numeric_or_na v = true ->
  mapM (fun x => truediv d x v) xs = Ok (map (fun x => quotient x v) xs).
Proof.
  intros Hd Hxs Hv. apply mapM_Ok. eapply Forall_impl; [|exact Hxs].
  intros x Hx. now apply truediv_numeric.
Qed.


Lemma masked_numeric (c : string) (m : Mask) (rs : list row) :
  numeric_cells c rs ->
  Forall (fun x => numeric_or_na x = true) (map (fun r => r c) (select m rs)).
Proof.
  intros H. apply Forall_map. now apply select_Forall.
Qed.

(** By a baseline of one value, on numeric columns: the quotients by that
    value, cast to the type of the y-axis column, are written under the
    mask. *)
Lemma transform_axis_by_value (df : DataFrame) (mask : Mask) (a : axis) (scol : Series)
  (ssm sxm : option Mask) (dy : dtype) (v : value) :
  lookup_dtype (ax_value a) (df_dtypes df) = Some dy ->
  is_numeric_dtype dy = true ->
  is_numeric_dtype (s_dtype scol) = true ->
  numeric_cells (ax_value a) (df_rows df) ->
  numeric_or_na v = true ->
  select (fst (scaling_mask_of mask ssm sxm)) (s_values scol) = [v] ->
  transform_axis P df mask a (Some scol) ssm sxm =
    (stored <- mapM (setitem_cast dy)
                 (map (fun r => quotient (r (ax_value a)) v) (select mask (df_rows df))) ;;
     Ok (mkDF (df_dtypes df) (assign mask stored (ax_value a) (df_rows df)),
         snd (scaling_mask_of mask ssm sxm))).
Proof.
  intros Hy Hdy Hds Hcells Hv Hbase.
  rewrite (transform_axis_by_column df mask a scol ssm sxm Hy Hdy Hds).
  unfold scaling_val_of. rewrite Hbase. unfold np_truediv.
  rewrite (@truediv_all dy _ v Hdy (@masked_numeric (ax_value a) mask _ Hcells) Hv);
    cbn [bind].
  unfold loc_setitem. rewrite !length_map, Nat.eqb_refl. rewrite map_map.
  now destruct (mapM _ _).
Qed.


Lemma pd_scalar_numeric (v v' : value) (d : dtype) :
  is_numeric_dtype d = true -> pd_scalar P v d = Ok v' -> numeric_or_na v' = true.
Proof.
  assert (I : forall z w, int64_cell z = Ok w -> numeric_or_na w = true).
  { intros z w. unfold int64_cell.
    destruct ((- 2 ^ 63 <=? z) && (z <? 2 ^ 63))%Z; [now intros [= <-]|].
    destruct ((2 ^ 63 <=? z) && (z <? 2 ^ 64))%Z; discriminate. }
  destruct d; try discriminate; intros _; destruct v; cbn [pd_scalar]; intros H;
    try (inversion H; subst; reflexivity); try discriminate; try (now apply I in H).
  - destruct (str_to_float P s); inversion H; reflexivity.
  - unfold float_to_int64 in H. destruct (is_nan f); [inversion H; reflexivity|].
    destruct (Z_of_float f) as [z|]; [|discriminate].
    destruct ((- 2 ^ 63 <=? z) && (z <? 2 ^ 63))%Z; inversion H; reflexivity.
  - destruct (str_to_int P s); [now apply I in H | discriminate].
Qed.

(** A constant coerced to [float64] is a float. *)
Lemma pd_scalar_float (v v' : value) :
  pd_scalar P v Dfloat64 = Ok v' -> is_float v' = true.
Proof.
  destruct v; cbn [pd_scalar]; intros H; try (inversion H; subst; reflexivity);
    try discriminate.
  destruct (str_to_float P s); inversion H; reflexivity.
Qed.

(** [transform_axis] by a constant, on a numeric column: the constant is
    coerced to the type of the column and divides the selected cells; the
    quotients are cast to the type of the column. *)
Lemma transform_axis_by_constant_cast (df : DataFrame) (mask : Mask) (a : axis)
  (sc : scaling_cfg) (c c' : value) (ssm sxm : option Mask) (dy : dtype) :
  ax_scaling a = Some sc ->
  truthy_custom sc = Some c ->
  lookup_dtype (ax_value a) (df_dtypes df) = Some dy ->
  is_numeric_dtype dy = true ->
  numeric_cells (ax_value a) (df_rows df) ->
  pd_scalar P c dy = Ok c' ->
  transform_axis P df mask a None ssm sxm =
    (stored <- mapM (setitem_cast dy)
                 (map (fun r => quotient (r (ax_value a)) c') (select mask (df_rows df))) ;;
     Ok (mkDF (df_dtypes df) (assign mask stored (ax_value a) (df_rows df)), ssm)).
Proof.
  intros Hs Hc Hy Hdy Hcells Hcoerce. unfold transform_axis. rewrite Hs, Hc.
  rewrite (getitem_masked df mask (ax_value a) Hy); cbn [bind s_dtype s_values].
  rewrite Hcoerce. unfold np_truediv.
  rewrite (@truediv_all dy _ c' Hdy (@masked_numeric (ax_value a) mask _ Hcells)
             (@pd_scalar_numeric c c' dy Hdy Hcoerce)); cbn [bind].
  unfold loc_setitem. rewrite !length_map, Nat.eqb_refl. rewrite map_map.
  now destruct (mapM _ _).
Qed.

(** By a constant, on a column of type [float64]: the quotients are
    written as they are. *)
Lemma transform_axis_by_constant (df : DataFrame) (mask : Mask) (a : axis)
  (sc : scaling_cfg) (c c' : value) (ssm sxm : option Mask) :
  ax_scaling a = Some sc ->
  truthy_custom sc = Some c ->
  lookup_dtype (ax_value a) (df_dtypes df) = Some Dfloat64 ->
  float_cells (ax_value a) (df_rows df) ->
  pd_scalar P c Dfloat64 = Ok c' ->
  transform_axis P df mask a None ssm sxm =
    Ok (mkDF (df_dtypes df)
             (assign mask
                (map (fun r => quotient (r (ax_value a)) c') (select mask (df_rows df)))
                (ax_value a) (df_rows df)),
        ssm).
Proof.
  intros Hs Hc Hy Hcells Hcoerce.
  rewrite (transform_axis_by_constant_cast df mask a ssm sxm Hs Hc Hy eq_refl
             (float_cells_numeric Hcells) Hcoerce).
  rewrite (cast_float_quotients (fun r : row => quotient (r (ax_value a)) c')).
  - reflexivity.
  - apply select_Forall. eapply Forall_impl; [|exact Hcells].
    intros r Hr. apply quotient_is_float; [exact Hr|].
    apply pd_scalar_float in Hcoerce. now destruct c'.
Qed.

End ScalingValues.

Section ScalingClaims.

Variable P : pyparse.



End ScalingClaims.

(** * The properties at sample inputs *)

Lemma bench_has_columns (rs : list row) (cs : list string) :
  forallb (fun c => has_column (bench rs) c) cs = true ->
  forall c, In c cs -> has_column (bench rs) c = true.
Proof. intros H c Hc. rewrite forallb_forall in H. now apply H. Qed.


(** [filter_df_composition] at a sample input. *)
Lemma filter_df_composition_witness :
  filter_df no_numerals grid4 [("x", ">=", VInt 2)] two_series [series_is "B"] =
    Ok [Some false; Some false; Some false; Some true].
Proof.
  exact (proj1 (@filter_df_composition no_numerals grid4
                  [("x", ">=", VInt 2)] two_series [series_is "B"]
                  [[Some false; Some false; Some true; Some true]]
                  [[Some true; Some false; Some true; Some false];
                   [Some false; Some true; Some false; Some true]]
                  [[Some false; Some true; Some false; Some true]]
                  eq_refl eq_refl eq_refl)).
Defined.

(** [row_count_validation] at a sample input. *)
Lemma row_count_validation_witness :
  check_filtered_row_count grid4 [Some true; Some true; Some true; Some false] x_axis0
    ["series"; "series"] bench_columns = Ok tt.
Proof.
  apply (proj1 (proj2 (proj2 (@row_count_validation grid4
                         [Some true; Some true; Some true; Some false] x_axis0
                         ["series"; "series"] bench_columns DInt64
                         eq_refl eq_refl (bench_has_columns _ bench_columns eq_refl))))).
  vm_compute. lia.
Defined.

(** [grid_validation_2x3] at a sample input. *)
Lemma grid_validation_2x3_witness :
  check_filtered_row_count grid6 (all_true 6) x_axis0 ["series"; "series"] bench_columns
    = Ok tt
  /\ exists frame,
       check_filtered_row_count
         (mkDF (df_dtypes grid6) (df_rows grid6 ++ [bench_row 2 "A" 35]))
         (all_true 6 ++ [Some true]) x_axis0 ["series"; "series"] bench_columns =
       Err (Raise RuntimeError [AMsg (row_count_message 7 6); AFrame frame]).
Proof.
  exact (@grid_validation_2x3 grid6 (all_true 6) x_axis0 ["series"; "series"]
           bench_columns DInt64 (bench_row 2 "A" 35)
           eq_refl eq_refl (bench_has_columns _ bench_columns eq_refl)
           eq_refl eq_refl eq_refl eq_refl).
Defined.



(** [row_filter_null_semantics] at a sample input. *)
Lemma row_filter_null_semantics_witness :
  (exists m, row_filter no_numerals ("y", "==", VNone) with_missing = Ok m /\
             m = map (fun r => Some (isnull (r "y"))) (df_rows with_missing) /\
             select m (df_rows with_missing) =
               filter (fun r => isnull (r "y")) (df_rows with_missing)) /\
  (exists m, row_filter no_numerals ("y", "!=", VNone) with_missing = Ok m /\
             m = map (fun r => Some (notnull (r "y"))) (df_rows with_missing) /\
             select m (df_rows with_missing) =
               filter (fun r => notnull (r "y")) (df_rows with_missing)).
Proof.
  exact (@row_filter_null_semantics no_numerals with_missing "y" Dfloat64 eq_refl).
Defined.


(** [row_filter_annotation_by_class] at a sample input. *)
Lemma row_filter_annotation_by_class_witness :
  row_filter no_numerals ("y", "==", VStr "abc") grid4 =
    Err (Raise ValueError [AMsg [Lit "could not convert string to float: "; Obj (VStr "abc")]]).
Proof.
  refine (proj1 (@row_filter_annotation_by_class no_numerals grid4 "y" "==" op_eq Dfloat64
                   (VStr "abc") [Lit "could not convert string to float: "; Obj (VStr "abc")]
                   eq_refl _ eq_refl) eq_refl).
  discriminate.
Defined.

(** [scaling_writes_only_masked_y] at a sample input. *)
Lemma scaling_writes_only_masked_y_witness :
  writes_only [Some true; Some false; Some true; Some false] "y" grid4
    (table_or grid4
       (transform_axis no_numerals grid4 [Some true; Some false; Some true; Some false]
          y_axis_custom10 None None None)).
Proof.
  exact (proj1 (scaling_writes_only_masked_y no_numerals) grid4 _
           [Some true; Some false; Some true; Some false]
           y_axis_custom10 None None None None eq_refl).
Defined.

(** * Further properties *)

(** ** Column checks and column types *)

Lemma invalid_columns_filter (df : RawFrame) (cols acc : list string) :
  fold_left (fun invalid col => if in_columns df col then invalid else invalid ++ [col])
            cols acc
  = acc ++ filter (fun c => negb (in_columns df c)) cols.
Proof.
  revert acc; induction cols as [|c cols IH]; intros acc; simpl.
  - now rewrite app_nil_r.
  - rewrite IH. destruct (in_columns df c); simpl; [reflexivity|].
    now rewrite <- app_assoc.
Qed.

Lemma check_df_columns_eq (df : RawFrame) (cols : list string) :
  check_df_columns df cols =
    match filter (fun c => negb (in_columns df c)) cols with
    | [] => Ok tt
    | missing => raise KeyError [AStr "Could not find columns"; AList missing]
    end.
Proof.
  unfold check_df_columns. rewrite invalid_columns_filter. simpl.
  now destruct (filter _ cols).
Qed.

Lemma filter_nil_iff {A : Type} (p : A -> bool) (l : list A) :
  filter p l = [] <-> Forall (fun a => p a = false) l.
Proof.
  induction l as [|a l IH]; simpl.
  - split; constructor.
  - destruct (p a) eqn:E; split; intros H.
    + discriminate.
    + inversion H; congruence.
    + constructor; [assumption | now apply IH].
    + inversion H; subst. now apply IH.
Qed.

(** X1. [check_df_columns] returns normally exactly when every listed column
    is in the table; otherwise it raises one [KeyError] that carries all the
    missing columns, in the order of the list (with their repetitions). *)
Theorem check_df_columns_reports_all_missing :
  forall (df : RawFrame) (cols : list string),
    (check_df_columns df cols = Ok tt <-> Forall (fun c => in_columns df c = true) cols)
    /\ (forall c, In c cols -> in_columns df c = false ->
        check_df_columns df cols =
          Err (Raise KeyError [AStr "Could not find columns";
                               AList (filter (fun c => negb (in_columns df c)) cols)])
        /\ In c (filter (fun c => negb (in_columns df c)) cols)).
Proof.
  intros df cols. rewrite check_df_columns_eq. unfold raise. split.
  - destruct (filter _ cols) as [|m ms] eqn:F.
    + split; [intros _|reflexivity].
      apply filter_nil_iff in F. eapply Forall_impl; [|exact F].
      intros a Ha. cbv beta in Ha. now destruct (in_columns df a).
    + split; [discriminate|]. intros H.
      assert (Hm : In m (filter (fun c => negb (in_columns df c)) cols))
        by (rewrite F; now left).
      apply filter_In in Hm as [Hm Hneg]. rewrite Forall_forall in H.
      rewrite (H m Hm) in Hneg. discriminate.
  - intros c Hc Hmiss.
    assert (Hin : In c (filter (fun c => negb (in_columns df c)) cols))
      by (apply filter_In; split; [assumption | now rewrite Hmiss]).
    split; [|assumption].
    destruct (filter _ cols); [contradiction | reflexivity].
Qed.

Lemma dict_get_set_same {V : Type} (d : list (string * V)) (k : string) (v : V) :
  dict_get (dict_set d k v) k = Some v.
Proof.
  induction d as [|[k' v'] d IH]; simpl.
  - now rewrite String.eqb_refl.
  - destruct (String.eqb_spec k k') as [->|N]; simpl.
    + now rewrite String.eqb_refl.
    + apply String.eqb_neq in N. now rewrite N.
Qed.

Lemma dict_get_set_other {V : Type} (d : list (string * V)) (k k' : string) (v : V) :
  k' <> k -> dict_get (dict_set d k v) k' = dict_get d k'.
Proof.
  intros N. induction d as [|[k0 v0] d IH]; simpl.
  - apply String.eqb_neq in N. now rewrite N.
  - destruct (String.eqb_spec k k0) as [->|N0]; simpl.
    + apply String.eqb_neq in N. now rewrite N.
    + now rewrite IH.
Qed.

Lemma in_columns_dict_get (df : RawFrame) (c : string) :
  in_columns df c = true <-> exists d, dict_get (rf_dtypes df) c = Some d.
Proof.
  unfold in_columns. induction (rf_dtypes df) as [|[k v] ds IH]; simpl.
  - split; [discriminate | intros [d H]; discriminate].
  - destruct (c =? k); simpl; [split; eauto|exact IH].
Qed.

Lemma set_cells_length (col : string) (vals : list value) (rs : list row) :
  List.length (set_cells col vals rs) = List.length rs.
Proof.
  revert vals; induction rs as [|r rs IH]; intros [|v vals]; simpl; auto.
Qed.

Lemma set_cells_other (col c : string) (vals : list value) (rs : list row) :
  c <> col -> map (fun r => r c) (set_cells col vals rs) = map (fun r => r c) rs.
Proof.
  intros N. revert vals; induction rs as [|r rs IH]; intros [|v vals]; simpl; auto.
  now rewrite upd_other, IH.
Qed.

Lemma dtype_eqb_eq (a b : dtype) : dtype_eqb a b = true <-> a = b.
Proof. destruct a, b; simpl; split; congruence. Qed.

Section ColumnTypes.

Variable T : pdtypes.
Variable column_types : list (string * string).

(** One iteration: the column gets its declared type, and nothing else
    changes. *)
Lemma apply_column_type_Ok (df df' : RawFrame) (col : string) :
  apply_column_type T column_types df col = Ok df' ->
  typed_as_declared T column_types df' col
  /\ List.length (rf_rows df') = List.length (rf_rows df)
  /\ (forall c, c <> col ->
        dict_get (rf_dtypes df') c = dict_get (rf_dtypes df) c
        /\ map (fun r => r c) (rf_rows df') = map (fun r => r c) (rf_rows df)).
Proof.
  unfold apply_column_type, typed_as_declared, declared_type.
  destruct (dict_get column_types col) as [t|]; [|discriminate].
  destruct (t =? ""); [discriminate|].
  destruct (canonical_type T _ col) as [target|]; cbn [bind]; [|discriminate].
  destruct (dict_get (rf_dtypes df) col) as [current|] eqn:G; [|discriminate].
  destruct (is_dtype target current) eqn:E.
  - intros H; inversion H; subst; clear H.
    destruct current as [d'|]; simpl in E; [|discriminate].
    apply dtype_eqb_eq in E; subst. repeat split; eauto.
  - destruct (mapM _ _) as [cells|]; cbn [bind]; [|discriminate].
    intros H; inversion H; subst; clear H. simpl.
    split; [eexists; split; [reflexivity | apply dict_get_set_same]|].
    split; [apply set_cells_length|].
    intros c N. split; [now apply dict_get_set_other | now apply set_cells_other].
Qed.

Lemma apply_column_type_keeps (df df' : RawFrame) (col c : string) :
  apply_column_type T column_types df col = Ok df' ->
  typed_as_declared T column_types df c -> typed_as_declared T column_types df' c.
Proof.
  intros H Hc. destruct (String.eqb_spec c col) as [->|N].
  - now apply apply_column_type_Ok in H.
  - apply apply_column_type_Ok in H as (_ & _ & H).
    destruct Hc as (d & Hd & Hg). exists d. split; [assumption|].
    now rewrite (proj1 (H c N)).
Qed.

Lemma apply_column_types_Ok (cols : list string) :
  forall df df' : RawFrame,
    apply_column_types T column_types cols df = Ok df' ->
    (forall c, In c cols -> typed_as_declared T column_types df' c)
    /\ (forall c, typed_as_declared T column_types df c ->
                  typed_as_declared T column_types df' c)
    /\ List.length (rf_rows df') = List.length (rf_rows df)
    /\ (forall c, ~ In c cols ->
          dict_get (rf_dtypes df') c = dict_get (rf_dtypes df) c
          /\ map (fun r => r c) (rf_rows df') = map (fun r => r c) (rf_rows df)).
Proof.
  induction cols as [|col cols IH]; intros df df' H; simpl in H.
  - inversion H; subst. repeat split; auto. intros c [].
  - destruct (apply_column_type T column_types df col) as [df1|] eqn:S;
      cbn [bind] in H; [|discriminate].
    destruct (IH _ _ H) as (Hin & Hkeep & Hlen & Hout).
    pose proof (apply_column_type_Ok _ _ S) as (Hcol & Hlen1 & Hout1).
    split; [|split; [|split]].
    + intros c [<-|Hc]; [now apply Hkeep | now apply Hin].
    + intros c Hc. apply Hkeep. eapply apply_column_type_keeps; eassumption.
    + congruence.
    + intros c Hc. simpl in Hc.
      assert (N : c <> col) by (intros ->; tauto).
      assert (Hc' : ~ In c cols) by tauto.
      destruct (Hout c Hc') as [E1 E2], (Hout1 c N) as [E3 E4].
      split; congruence.
Qed.

(** A column that has its declared type is skipped. *)
Lemma apply_column_type_skip (df : RawFrame) (col : string) :
  typed_as_declared T column_types df col ->
  apply_column_type T column_types df col = Ok df.
Proof.
  intros (d & Hd & Hg). unfold apply_column_type. unfold declared_type in Hd.
  destruct (dict_get column_types col) as [t|]; [|discriminate].
  destruct (t =? ""); [discriminate|].
  destruct (canonical_type T _ col) as [target|]; [|discriminate].
  inversion Hd; subst. cbn [bind]. rewrite Hg. simpl.
  now rewrite (proj2 (dtype_eqb_eq d d) eq_refl).
Qed.

Lemma apply_column_types_skip (cols : list string) (df : RawFrame) :
  (forall c, In c cols -> typed_as_declared T column_types df c) ->
  apply_column_types T column_types cols df = Ok df.
Proof.
  induction cols as [|col cols IH]; intros H; simpl; [reflexivity|].
  rewrite apply_column_type_skip by (apply H; now left). cbn [bind].
  apply IH. intros c Hc. apply H. now right.
Qed.

Lemma apply_df_types_inv (df df' : RawFrame) (all_columns : list string) :
  apply_df_types T df all_columns column_types = Ok df' ->
  check_df_columns df all_columns = Ok tt
  /\ apply_column_types T column_types all_columns df = Ok df'.
Proof.
  unfold apply_df_types. destruct (check_df_columns df all_columns) as [[]|];
    cbn [bind]; [auto | discriminate].
Qed.

(** X2. When [apply_df_types] returns, every column of the configuration has
    a declared, supported type and holds the canonical type of it; the
    columns that the configuration does not list keep their type and their
    cells, and the table keeps its number of records. *)
Theorem apply_df_types_postcondition :
  forall (df df' : RawFrame) (all_columns : list string),
    apply_df_types T df all_columns column_types = Ok df' ->
    (forall c, In c all_columns -> typed_as_declared T column_types df' c)
    /\ List.length (rf_rows df') = List.length (rf_rows df)
    /\ (forall c, ~ In c all_columns ->
          dict_get (rf_dtypes df') c = dict_get (rf_dtypes df) c
          /\ map (fun r => r c) (rf_rows df') = map (fun r => r c) (rf_rows df)).
Proof.
  intros df df' all_columns H. apply apply_df_types_inv in H as [_ H].
  apply apply_column_types_Ok in H as (Hin & _ & Hlen & Hout). auto.
Qed.

(** X3. Idempotence of the coercion: applying the types to the table that
    [apply_df_types] returned changes nothing (every column is skipped). *)
Theorem apply_df_types_idempotent :
  forall (df df' : RawFrame) (all_columns : list string),
    apply_df_types T df all_columns column_types = Ok df' ->
    apply_df_types T df' all_columns column_types = Ok df'.
Proof.
  intros df df' all_columns H. apply apply_df_types_inv in H as [_ H].
  apply apply_column_types_Ok in H as (Hin & _).
  unfold apply_df_types.
  assert (C : check_df_columns df' all_columns = Ok tt).
  { rewrite check_df_columns_eq.
    replace (filter (fun c => negb (in_columns df' c)) all_columns) with (@nil string);
      [reflexivity|].
    symmetry. apply filter_nil_iff, Forall_forall. intros c Hc.
    destruct (Hin c Hc) as (d & _ & Hg).
    now rewrite (proj2 (in_columns_dict_get df' c) (ex_intro _ _ Hg)). }
  rewrite C. cbn [bind]. now apply apply_column_types_skip.
Qed.

(** X4. Missing columns come first: when a column of the configuration is not
    in the table, [apply_df_types] raises the [KeyError] of
    [check_df_columns] with all the missing columns, whatever the declared
    types are (also when a type is missing or unsupported); and it never
    returns when a listed column has no declared, supported type. *)
Theorem apply_df_types_errors :
  forall (df : RawFrame) (all_columns : list string) (c : string),
    In c all_columns ->
    (in_columns df c = false ->
     apply_df_types T df all_columns column_types =
       Err (Raise KeyError [AStr "Could not find columns";
                            AList (filter (fun c => negb (in_columns df c)) all_columns)]))
    /\ (declared_type T column_types c = None ->
        exists e, apply_df_types T df all_columns column_types = Err e).
Proof.
  intros df all_columns c Hc. split.
  - intros Hmiss. unfold apply_df_types. rewrite check_df_columns_eq.
    assert (Hin : In c (filter (fun c => negb (in_columns df c)) all_columns))
      by (apply filter_In; split; [assumption | now rewrite Hmiss]).
    destruct (filter _ all_columns); [contradiction | reflexivity].
  - intros Hnone.
    destruct (apply_df_types T df all_columns column_types) as [df'|e] eqn:E;
      [|eauto].
    apply apply_df_types_inv in E as [_ E].
    apply apply_column_types_Ok in E as (Hin & _).
    destruct (Hin c Hc) as (d & Hd & _). congruence.
Qed.

End ColumnTypes.

(** ** Filter conditions *)

Lemma and3_comm (a b : option bool) : and3 a b = and3 b a.
Proof. destruct a as [[|]|], b as [[|]|]; reflexivity. Qed.

Lemma or3_comm (a b : option bool) : or3 a b = or3 b a.
Proof. destruct a as [[|]|], b as [[|]|]; reflexivity. Qed.

Lemma map2_comm {A : Type} (f : A -> A -> A) :
  (forall a b, f a b = f b a) -> forall l l', map2 f l l' = map2 f l' l.
Proof.
  intros Hf; induction l as [|a l IH]; intros [|b l']; simpl; auto.
  now rewrite Hf, IH.
Qed.

Lemma fold_right_perm {A : Type} (f : A -> A -> A) (u : A) (l l' : list A) :
  (forall a b c, f (f a b) c = f a (f b c)) ->
  (forall a b, f a b = f b a) ->
  Permutation l l' -> fold_right f u l = fold_right f u l'.
Proof.
  intros Hassoc Hcomm; induction 1; simpl; congruence.
Qed.

Lemma mapM_perm {A B : Type} (f : A -> result B) (l l' : list A) :
  Permutation l l' ->
  forall r, mapM f l = Ok r -> exists r', mapM f l' = Ok r' /\ Permutation r r'.
Proof.
  induction 1 as [|x l l' _ IH|x y l|l l' l'' _ IH1 _ IH2]; intros r H; simpl in *.
  - eauto.
  - destruct (f x) as [b|]; cbn [bind] in *; [|discriminate].
    destruct (mapM f l) as [bs|]; cbn [bind] in *; [|discriminate].
    destruct (IH bs eq_refl) as (bs' & -> & Hp). inversion H; subst.
    eexists; split; [reflexivity | now constructor].
  - destruct (f y) as [b|]; cbn [bind] in *; [|discriminate].
    destruct (f x) as [c|]; cbn [bind] in *; [|discriminate].
    destruct (mapM f l) as [bs|]; cbn [bind] in *; [|discriminate].
    inversion H; subst. eexists; split; [reflexivity | apply perm_swap].
  - destruct (IH1 r H) as (r1 & H1 & P1). destruct (IH2 r1 H1) as (r2 & H2 & P2).
    exists r2. split; [assumption | now transitivity r1].
Qed.

Lemma mapM_app_Ok {A B : Type} (f : A -> result B) (l l' : list A) (r r' : list B) :
  mapM f l = Ok r -> mapM f l' = Ok r' -> mapM f (l ++ l') = Ok (r ++ r').
Proof.
  revert r; induction l as [|a l IH]; intros r H H'; simpl in *.
  - inversion H; subst. assumption.
  - destruct (f a) as [b|]; cbn [bind] in *; [|discriminate].
    destruct (mapM f l) as [bs|]; cbn [bind] in *; [|discriminate].
    inversion H; subst. now rewrite (IH bs eq_refl H').
Qed.

Lemma mapM_app_inv_Ok {A B : Type} (f : A -> result B) (l l' : list A) (r : list B) :
  mapM f (l ++ l') = Ok r -> exists r1 r2, mapM f l = Ok r1 /\ mapM f l' = Ok r2.
Proof.
  revert r; induction l as [|a l IH]; intros r H; simpl in *; [eauto|].
  destruct (f a) as [b|]; cbn [bind] in *; [|discriminate].
  destruct (mapM f (l ++ l')) as [bs|] eqn:E; cbn [bind] in *; [|discriminate].
  destruct (IH bs eq_refl) as (r1 & r2 & -> & ->). cbn [bind]. eauto.
Qed.

Lemma mapM_app_Err {A B : Type} (f : A -> result B) (l l' : list A) (e : exn) :
  mapM f (l ++ l') = Err e ->
  mapM f l = Err e \/ exists r, mapM f l = Ok r /\ mapM f l' = Err e.
Proof.
  induction l as [|a l IH]; intros H; simpl in *.
  - right. eauto.
  - destruct (f a) as [b|]; cbn [bind] in *; [|now left].
    destruct (mapM f (l ++ l')) as [bs|e'] eqn:E; cbn [bind] in *; [discriminate|].
    destruct (IH H) as [H1|(r & H1 & H2)].
    + left. rewrite H1. reflexivity.
    + right. rewrite H1. cbn [bind]. eauto.
Qed.

Lemma mapM_first_Err {A B : Type} (f : A -> result B) (l1 l2 : list A) (a : A) (e : exn) :
  Forall (fun x => exists b, f x = Ok b) l1 -> f a = Err e ->
  mapM f (l1 ++ a :: l2) = Err e.
Proof.
  intros H Ha. induction H as [|x l1 [b Hx] _ IH]; simpl.
  - now rewrite Ha.
  - now rewrite Hx, IH.
Qed.

Lemma mapM_ext_Forall {A B : Type} (f g : A -> result B) (l : list A) :
  Forall (fun a => f a = g a) l -> mapM f l = mapM g l.
Proof.
  induction 1 as [|a l Ha _ IH]; simpl; [reflexivity|]. now rewrite Ha, IH.
Qed.

Section FilterProperties.

Variable P : pyparse.

Lemma getitem_local (df1 df2 : DataFrame) (c : string) :
  lookup_dtype c (df_dtypes df1) = lookup_dtype c (df_dtypes df2) ->
  map (fun r => r c) (df_rows df1) = map (fun r => r c) (df_rows df2) ->
  getitem df1 c = getitem df2 c.
Proof. intros Hd Hv. unfold getitem. now rewrite Hd, Hv. Qed.

(** A condition reads the column it names, and nothing else of the table. *)
Lemma row_filter_local (df1 df2 : DataFrame) (c str_op : string) (v : value) :
  lookup_dtype c (df_dtypes df1) = lookup_dtype c (df_dtypes df2) ->
  map (fun r => r c) (df_rows df1) = map (fun r => r c) (df_rows df2) ->
  row_filter P (c, str_op, v) df1 = row_filter P (c, str_op, v) df2.
Proof.
  intros Hd Hv. unfold row_filter. now rewrite (getitem_local df1 df2 c Hd Hv).
Qed.

Lemma reduce_from_Err (op : Mask -> Mask -> Mask) (fs : list filter_cond)
  (df : DataFrame) (e : exn) :
  forall acc, mapM (fun f => row_filter P f df) fs = Err e ->
              reduce_from P op acc fs df = Err e.
Proof.
  induction fs as [|f fs IH]; intros acc H; cbn [mapM reduce_from reduce_filters app] in *; [discriminate|].
  destruct (row_filter P f df) as [m|]; cbn [bind] in *; [|congruence].
  destruct (mapM _ fs) as [ms|e'] eqn:E; cbn [bind] in H; [discriminate|].
  inversion H; subst. now apply IH.
Qed.

Lemma reduce_filters_Err (op : Mask -> Mask -> Mask) (fs : list filter_cond)
  (df : DataFrame) (e : exn) :
  mapM (fun f => row_filter P f df) fs = Err e -> reduce_filters P op fs df = Err e.
Proof.
  destruct fs as [|f fs]; cbn [mapM reduce_filters]; [discriminate|]. intros H.
  destruct (row_filter P f df) as [m|]; cbn [bind] in *; [|congruence].
  destruct (mapM _ fs) as [ms|e'] eqn:E; cbn [bind] in H; [discriminate|].
  inversion H; subst. now apply reduce_from_Err.
Qed.

(** [filter_df] when its conditions evaluate: the composed mask, or the
    [EmptyDataError]. *)
Lemma filter_df_Ok_inv (df : DataFrame) (A B C : list filter_cond) (m : Mask) :
  filter_df P df A B C = Ok m -> masked_empty df m = false.
Proof.
  unfold filter_df; cbv zeta. intros H.
  repeat match type of H with
         | bind ?r _ = Ok _ => destruct r; cbn [bind] in H; [|discriminate]
         end.
  destruct (masked_empty df _) eqn:E; [discriminate|]. now inversion H; subst.
Qed.

Lemma filter_df_formula (df : DataFrame) (A B C : list filter_cond) (mA mB mC : list Mask) :
  mapM (fun f => row_filter P f df) A = Ok mA ->
  mapM (fun f => row_filter P f df) B = Ok mB ->
  mapM (fun f => row_filter P f df) C = Ok mC ->
  filter_df P df A B C =
    (let n := List.length (df_rows df) in
     let m := mask_and (mask_and (AND_group n mA) (OR_group n mB)) (OR_group n mC) in
     if masked_empty df m
     then raise EmptyDataError
            [AStr "Filtered dataframe is empty"; AIndex (masked_index df m)]
     else Ok m).
Proof.
  intros HA HB HC. cbv zeta. set (n := List.length (df_rows df)).
  unfold filter_df; cbv zeta.
  assert (E1 : match A with
               | [] => Ok (map (fun _ : row => Some true) (df_rows df) : Mask)
               | _ :: _ => reduce_filters P mask_and A df
               end = Ok (AND_group n mA)).
  { destruct A as [|a A].
    - apply mapM_nil_inv in HA; subst; simpl. now rewrite all_true_map.
    - apply reduce_filters_and; [discriminate | assumption]. }
  rewrite E1, bind_Ok; cbv beta.
  assert (LA : List.length (AND_group n mA) = n)
    by (apply AND_group_length; eapply mapM_row_filter_length; eassumption).
  rewrite (or_step P df B (AND_group n mA) LA HB), bind_Ok; cbv beta; fold n.
  assert (LB : List.length (mask_and (AND_group n mA) (OR_group n mB)) = n).
  { unfold mask_and. rewrite map2_length; [assumption|].
    rewrite LA. symmetry. apply OR_group_length.
    eapply mapM_row_filter_length; eassumption. }
  rewrite (or_step P df C _ LB HC), bind_Ok; cbv beta; fold n.
  reflexivity.
Qed.

Lemma composed_mask_length (df : DataFrame) (fsA fsB fsC : list filter_cond)
  (mA mB mC : list Mask) :
  mapM (fun f => row_filter P f df) fsA = Ok mA ->
  mapM (fun f => row_filter P f df) fsB = Ok mB ->
  mapM (fun f => row_filter P f df) fsC = Ok mC ->
  let n := List.length (df_rows df) in
  List.length (mask_and (mask_and (AND_group n mA) (OR_group n mB)) (OR_group n mC)) = n.
Proof.
  intros HA HB HC n.
  assert (LA : List.length (AND_group n mA) = n)
    by (apply AND_group_length; eapply mapM_row_filter_length; eassumption).
  assert (LB : List.length (OR_group n mB) = n)
    by (apply OR_group_length; eapply mapM_row_filter_length; eassumption).
  assert (LC : List.length (OR_group n mC) = n)
    by (apply OR_group_length; eapply mapM_row_filter_length; eassumption).
  assert (LAB : List.length (mask_and (AND_group n mA) (OR_group n mB)) = n).
  { unfold mask_and at 1. rewrite map2_length; congruence. }
  unfold mask_and at 1. rewrite map2_length; congruence.
Qed.

(** X5. Precedence of the errors of [row_filter]: an unknown operator raises
    [KeyError("Unknown comparison operator", op)] whatever the column, the
    value and the table are (also when the column is missing); with a known
    operator, a column that is not in the table raises [KeyError(column)]
    whatever the value is, before any coercion. *)
Theorem row_filter_error_precedence :
  forall (df : DataFrame) (column str_op : string) (v : value),
    (op_lookup str_op = None ->
     row_filter P (column, str_op, v) df =
       Err (Raise KeyError [AStr "Unknown comparison operator"; AStr str_op]))
    /\ (op_lookup str_op <> None ->
        lookup_dtype column (df_dtypes df) = None ->
        row_filter P (column, str_op, v) df = Err (Raise KeyError [AStr column])).
Proof.
  intros df column str_op v. unfold row_filter, getitem. split.
  - intros ->. reflexivity.
  - intros Ho Hc. destruct (op_lookup str_op) as [o|]; [|congruence].
    rewrite Hc. now destruct v.
Qed.

(** X6. For every comparison operator other than ["=="], a condition whose
    value is [None] selects exactly the records whose cell is present:
    [(y, "<", None)] is [(y, "!=", None)]. *)
Theorem row_filter_None_other_operators :
  forall (df : DataFrame) (y str_op : string) (o : cmp_op) (d : dtype),
    op_lookup str_op = Some o ->
    o <> op_eq ->
    lookup_dtype y (df_dtypes df) = Some d ->
    row_filter P (y, str_op, VNone) df = row_filter P (y, "!=", VNone) df
    /\ exists m, row_filter P (y, str_op, VNone) df = Ok m
                 /\ select m (df_rows df) = filter (fun r => notnull (r y)) (df_rows df).
Proof.
  intros df y str_op o d Ho Hne Hd.
  rewrite (row_filter_None P df y str_op Ho Hd), (row_filter_None P df y "!=" op_lookup_ne Hd).
  assert (E : is_op_eq o = false) by (destruct o; congruence || reflexivity).
  rewrite E. simpl. split; [reflexivity|].
  eexists. split; [reflexivity|]. apply (select_map_pred (fun r => notnull (r y))).
Qed.

(** X7. A condition reads only the column it names: on two tables that give
    this column the same type and the same cells, [row_filter] returns the
    same mask or raises the same exception. *)
Theorem row_filter_reads_one_column :
  forall (df1 df2 : DataFrame) (c str_op : string) (v : value),
    lookup_dtype c (df_dtypes df1) = lookup_dtype c (df_dtypes df2) ->
    map (fun r => r c) (df_rows df1) = map (fun r => r c) (df_rows df2) ->
    row_filter P (c, str_op, v) df1 = row_filter P (c, str_op, v) df2.
Proof. exact row_filter_local. Qed.

Lemma mapM_Ok_or_Err {A B : Type} (f : A -> result B) (l : list A) :
  (exists r, mapM f l = Ok r) \/ (exists e, mapM f l = Err e).
Proof. destruct (mapM f l); eauto. Qed.

(** [filter_df] fails as the evaluation, in order, of the conditions of
    [and_filters], [or_filters] and [series_filters] does. *)
Lemma filter_df_mapM_Err (df : DataFrame) (A B C : list filter_cond) (e : exn) :
  mapM (fun f => row_filter P f df) (A ++ B ++ C) = Err e ->
  filter_df P df A B C = Err e.
Proof.
  intros H. unfold filter_df; cbv zeta.
  apply mapM_app_Err in H as [HA|(mA & HA & H)].
  - destruct A as [|a A]; [discriminate|].
    now rewrite (reduce_filters_Err mask_and (a :: A) df HA).
  - assert (E1 : exists m1, match A with
                 | [] => Ok (map (fun _ : row => Some true) (df_rows df) : Mask)
                 | _ :: _ => reduce_filters P mask_and A df
                 end = Ok m1).
    { destruct A as [|a A]; [eauto|]. eexists.
      apply reduce_filters_and; [discriminate | eassumption]. }
    destruct E1 as [m1 ->]. rewrite bind_Ok; cbv beta.
    apply mapM_app_Err in H as [HB|(mB & HB & HC)].
    + destruct B as [|b B]; [discriminate|].
      now rewrite (reduce_filters_Err mask_or (b :: B) df HB).
    + assert (E2 : exists m2, match B with
                   | [] => Ok m1
                   | _ :: _ => m <- reduce_filters P mask_or B df ;; Ok (mask_and m1 m)
                   end = Ok m2).
      { destruct B as [|b B]; [eauto|].
        rewrite (@reduce_filters_or P (b :: B) df mB);
          [cbn [bind]; eauto | discriminate | assumption]. }
      destruct E2 as [m2 ->]. rewrite bind_Ok; cbv beta.
      destruct C as [|c C]; [discriminate|].
      now rewrite (reduce_filters_Err mask_or (c :: C) df HC).
Qed.

(** X8. The first failure wins: [filter_df] evaluates the conditions of
    [and_filters], then of [or_filters], then of [series_filters], in their
    order, and raises the exception of the first one that fails, whatever the
    conditions after it are. *)
Theorem filter_df_first_error :
  forall (df : DataFrame) (A B C before after : list filter_cond) (f : filter_cond)
         (e : exn),
    A ++ B ++ C = before ++ f :: after ->
    Forall (fun g => exists m, row_filter P g df = Ok m) before ->
    row_filter P f df = Err e ->
    filter_df P df A B C = Err e.
Proof.
  intros df A B C before after f e Hsplit Hbefore Hf.
  apply filter_df_mapM_Err. rewrite Hsplit.
  now apply mapM_first_Err.
Qed.

(** X9. What [filter_df] returns: a mask with one boolean per record of the
    table that selects at least one record (of a table that has columns);
    [filter_df] never returns a mask that selects nothing. *)
Theorem filter_df_returns_nonempty_selection :
  forall (df : DataFrame) (A B C : list filter_cond) (m : Mask),
    filter_df P df A B C = Ok m ->
    List.length m = List.length (df_rows df)
    /\ select m (df_rows df) <> []
    /\ df_dtypes df <> [].
Proof.
  intros df A B C m H.
  destruct (mapM_Ok_or_Err (fun f => row_filter P f df) (A ++ B ++ C)) as [[r Hr]|[e He]].
  2:{ rewrite (filter_df_mapM_Err df A B C He) in H. discriminate. }
  apply mapM_app_inv_Ok in Hr as (mA & rBC & HA & Hr).
  apply mapM_app_inv_Ok in Hr as (mB & mC & HB & HC).
  rewrite (filter_df_formula df A B C HA HB HC) in H. cbv zeta in H.
  pose proof (composed_mask_length df A B C HA HB HC) as L. cbv zeta in L.
  destruct (masked_empty df _) eqn:E; [discriminate|].
  inversion H; subst; clear H. split; [exact L|].
  unfold masked_empty in E. apply orb_false_iff in E as [E1 E2].
  apply Nat.eqb_neq in E1, E2.
  split; intros X.
  - rewrite X in E1. simpl in E1. congruence.
  - rewrite X in E2. simpl in E2. congruence.
Qed.

(** X10. The order of the conditions inside a group does not matter: when the
    conditions evaluate, [filter_df] returns the same result for any
    reordering of [and_filters], of [or_filters] and of [series_filters]. *)
Theorem filter_df_order_insensitive :
  forall (df : DataFrame) (A A' B B' C C' : list filter_cond) (mA mB mC : list Mask),
    Permutation A A' -> Permutation B B' -> Permutation C C' ->
    mapM (fun f => row_filter P f df) A = Ok mA ->
    mapM (fun f => row_filter P f df) B = Ok mB ->
    mapM (fun f => row_filter P f df) C = Ok mC ->
    filter_df P df A' B' C' = filter_df P df A B C.
Proof.
  intros df A A' B B' C C' mA mB mC PA PB PC HA HB HC.
  destruct (mapM_perm _ PA HA) as (mA' & HA' & QA).
  destruct (mapM_perm _ PB HB) as (mB' & HB' & QB).
  destruct (mapM_perm _ PC HC) as (mC' & HC' & QC).
  rewrite (filter_df_formula df A B C HA HB HC),
          (filter_df_formula df A' B' C' HA' HB' HC').
  cbv zeta. set (n := List.length (df_rows df)).
  assert (EA : AND_group n mA' = AND_group n mA).
  { unfold AND_group. symmetry.
    apply fold_right_perm; [apply mask_and_assoc | apply map2_comm, and3_comm | exact QA]. }
  assert (EO : forall ms ms', Permutation ms ms' -> OR_group n ms' = OR_group n ms).
  { intros ms ms' Q. unfold OR_group. destruct ms as [|x ms], ms' as [|x' ms'].
    - reflexivity.
    - apply Permutation_nil in Q. discriminate.
    - apply Permutation_sym, Permutation_nil in Q. discriminate.
    - symmetry.
      apply fold_right_perm; [apply mask_or_assoc | apply map2_comm, or3_comm | exact Q]. }
  now rewrite EA, (EO _ _ QB), (EO _ _ QC).
Qed.

End FilterProperties.

(** ** Row-count validation and sorting *)

(** [check_filtered_row_count] on a table that has the x-axis column: the
    plot columns are read only when the count is exceeded. *)
Lemma check_filtered_row_count_cases (df : DataFrame) (m : Mask) (x_axis : axis)
  (series_columns plot_columns : list string) (d : dtype) :
  lookup_dtype (ax_value x_axis) (df_dtypes df) = Some d ->
  check_filtered_row_count df m x_axis series_columns plot_columns =
    let actual := List.length (select m (df_rows df)) in
    let expected := multiplicity_product series_columns * distinct_x df m x_axis in
    if (expected <? actual)%nat
    then frame <- project df plot_columns m ;;
         raise RuntimeError [AMsg (row_count_message actual expected); AFrame frame]
    else Ok tt.
Proof.
  intros Hx. unfold check_filtered_row_count, getitem, getitem_mask; simpl.
  rewrite Hx; simpl. rewrite series_combinations_eq. reflexivity.
Qed.

Lemma py_set_incl (xs : list value) : incl (py_set xs) xs.
Proof.
  unfold py_set.
  assert (G : forall s, incl (fold_left py_set_add xs s) (s ++ xs)).
  { induction xs as [|x xs IH]; intros s; simpl.
    - rewrite app_nil_r. apply incl_refl.
    - intros v Hv. apply IH in Hv. unfold py_set_add in Hv.
      apply in_app_iff in Hv as [Hv|Hv].
      + destruct (existsb (py_same x) s).
        * apply in_app_iff; now left.
        * apply in_app_iff in Hv as [Hv|[<-|[]]]; apply in_app_iff; simpl; auto.
      + apply in_app_iff; simpl; auto. }
  exact (G []).
Qed.

(** X11. Without series columns the validation is a test of uniqueness: on
    x-axis cells that compare exactly (integers, text, time stamps, missing),
    [check_filtered_row_count] with an empty series list passes exactly when
    no two selected records have the same x-axis value. *)
Theorem row_count_without_series :
  forall (df : DataFrame) (m : Mask) (x_axis : axis) (plot_columns : list string)
         (d : dtype),
    lookup_dtype (ax_value x_axis) (df_dtypes df) = Some d ->
    Forall (fun r => exact_cell (r (ax_value x_axis)) = true) (select m (df_rows df)) ->
    (check_filtered_row_count df m x_axis [] plot_columns = Ok tt
     <-> NoDup (map (fun r => r (ax_value x_axis)) (select m (df_rows df)))).
Proof.
  intros df m x_axis plot_columns d Hx Hexact.
  rewrite (check_filtered_row_count_cases df m x_axis [] plot_columns Hx). cbv zeta.
  unfold distinct_x.
  set (xs := map (fun r => r (ax_value x_axis)) (select m (df_rows df))).
  assert (Hex : Forall (fun v => exact_cell v = true) xs)
    by (subst xs; now apply Forall_map).
  destruct (@py_set_distinct xs Hex) as [Hnd Hin].
  assert (La : List.length (select m (df_rows df)) = List.length xs)
    by (subst xs; now rewrite length_map).
  rewrite La.
  change (multiplicity_product []) with 1. rewrite Nat.mul_1_l.
  destruct (Nat.ltb_spec (List.length (py_set xs)) (List.length xs)) as [Hlt|Hge].
  - split.
    + destruct (project df plot_columns m); discriminate.
    + intros Hxs. exfalso.
      assert (Permutation xs (py_set xs)).
      { apply NoDup_Permutation; auto. intros v. now rewrite Hin. }
      apply Permutation_length in H. lia.
  - split; [intros _|reflexivity].
    apply (NoDup_incl_NoDup Hnd Hge). intros v Hv. now apply Hin.
Qed.

(** X12. Precedence of the errors of [check_filtered_row_count]: a missing
    x-axis column raises [KeyError] whatever the counts are; the plot columns
    are looked up only to build the error report, so a missing plot column
    goes unnoticed when the count fits, and replaces the [RuntimeError] by a
    [KeyError] carrying the missing plot columns when the count is exceeded. *)
Theorem row_count_error_precedence :
  forall (df : DataFrame) (m : Mask) (x_axis : axis)
         (series_columns plot_columns : list string),
    (lookup_dtype (ax_value x_axis) (df_dtypes df) = None ->
     check_filtered_row_count df m x_axis series_columns plot_columns =
       Err (Raise KeyError [AStr (ax_value x_axis)]))
    /\ (forall c, lookup_dtype (ax_value x_axis) (df_dtypes df) <> None ->
                  In c plot_columns -> has_column df c = false ->
        let actual := List.length (select m (df_rows df)) in
        let expected := multiplicity_product series_columns * distinct_x df m x_axis in
        (actual <= expected ->
         check_filtered_row_count df m x_axis series_columns plot_columns = Ok tt)
        /\ (actual > expected ->
            check_filtered_row_count df m x_axis series_columns plot_columns =
              Err (Raise KeyError
                     [AList (filter (fun c => negb (has_column df c)) plot_columns)]))).
Proof.
  intros df m x_axis series_columns plot_columns. split.
  - intros Hx. unfold check_filtered_row_count, getitem, getitem_mask; simpl.
    now rewrite Hx.
  - intros c Hx Hc Hmiss actual expected.
    destruct (lookup_dtype (ax_value x_axis) (df_dtypes df)) as [d|] eqn:E; [|congruence].
    rewrite (check_filtered_row_count_cases df m x_axis series_columns plot_columns E).
    cbv zeta. fold actual expected.
    assert (Hin : In c (filter (fun c => negb (has_column df c)) plot_columns))
      by (apply filter_In; split; [assumption | now rewrite Hmiss]).
    destruct (Nat.ltb_spec expected actual); split; intros; try lia; try reflexivity.
    unfold project. destruct (filter _ plot_columns); [contradiction | reflexivity].
Qed.

Lemma stable_sort_sorted_id {A : Type} (leb : A -> A -> bool) (l : list A) :
  sorted_with leb l -> stable_sort leb l = l.
Proof.
  induction 1 as [|x l Hl IH Hx]; simpl; [reflexivity|].
  fold (stable_sort leb l). rewrite IH.
  destruct l as [|y t]; [reflexivity|]. simpl.
  inversion Hx as [|? ? Hxy _]; subst. now rewrite Hxy.
Qed.

(** X13. With a series column, [sort_df] is idempotent: sorting the table it
    returned returns the same table (a stable sort leaves a sorted table as it
    is), whatever algorithm stands for the single-column case. *)
Theorem sort_df_idempotent_with_series :
  forall (qs : sorter) (df df1 : DataFrame) (x_axis : axis) (c : string)
         (series_columns : list string),
    sort_df qs df x_axis (c :: series_columns) = Ok df1 ->
    sort_df qs df1 x_axis (c :: series_columns) = Ok df1.
Proof.
  intros qs df df1 x_axis c series_columns. unfold sort_df, sort_values. simpl app.
  destruct (filter (fun c0 => negb (has_column df c0)) [ax_value x_axis; c]) eqn:F;
    [|discriminate].
  destruct (filter (fun c0 => negb (one_kind (map (fun r : row => r c0) (df_rows df))))
              [ax_value x_axis; c]) eqn:K; [|discriminate].
  intros H; inversion H; subst; clear H.
  change (filter (fun c0 => negb (has_column
            {| df_dtypes := df_dtypes df;
               df_rows := lexsort [ax_value x_axis; c] (df_rows df) |} c0))
            [ax_value x_axis; c])
    with (filter (fun c0 => negb (has_column df c0)) [ax_value x_axis; c]).
  rewrite F. cbn [df_dtypes df_rows].
  rewrite (@mixed_columns_perm (lexsort [ax_value x_axis; c] (df_rows df)) (df_rows df)
             [ax_value x_axis; c] (stable_sort_perm _ _)), K.
  do 2 f_equal.
  unfold lexsort. apply stable_sort_sorted_id, stable_sort_sorted.
  - apply lex_leb_total.
  - apply lex_leb_trans.
Qed.

(** ** Scaling configurations *)

Lemma and3_idem (a : option bool) : and3 a a = a.
Proof. destruct a as [[|]|]; reflexivity. Qed.

Lemma mask_and_idem (m : Mask) : mask_and m m = m.
Proof.
  unfold mask_and. induction m as [|a m IH]; simpl; [reflexivity|].
  now rewrite and3_idem, IH.
Qed.

Lemma mask_and_absorb (s x : Mask) : mask_and (mask_and s x) x = mask_and s x.
Proof. now rewrite mask_and_assoc, mask_and_idem. Qed.

Lemma combine_Forall {A B : Type} (Q : A -> Prop) (R : B -> Prop)
  (xs : list A) (ys : list B) :
  Forall Q xs -> Forall R ys -> Forall (fun p => Q (fst p) /\ R (snd p)) (combine xs ys).
Proof.
  intros Hx; revert ys; induction Hx as [|x xs Hx _ IH]; intros ys Hy; simpl;
    [constructor|].
  destruct Hy as [|y ys Hy Hys]; constructor; auto.
Qed.

Lemma divide_by_vector (base ys : list value) :
  List.length base <> 1 ->
  divide_by base ys = map (fun p => quotient (fst p) (snd p)) (combine ys base).
Proof.
  unfold divide_by. destruct base as [|v [|w vs]]; try reflexivity.
  intros H. now contradiction H.
Qed.

Section ScalingConfigurations.

Variable P : pyparse.

(** By a baseline column, [transform_axis] reads of the axis its column and
    the name of the baseline column only. *)
Lemma transform_axis_by_column_axis (df : DataFrame) (mask : Mask) (a a' : axis)
  (scol : Series) (ssm sxm : option Mask) :
  ax_value a = ax_value a' ->
  scaling_column_name a = scaling_column_name a' ->
  transform_axis P df mask a (Some scol) ssm sxm =
  transform_axis P df mask a' (Some scol) ssm sxm.
Proof. intros Hv Hn. unfold transform_axis. now rewrite Hv, Hn. Qed.

Lemma transform_series_by_column_axis (fs : list filter_cond) (a a' : axis)
  (scol : Series) (sxm : option Mask) :
  ax_value a = ax_value a' ->
  scaling_column_name a = scaling_column_name a' ->
  forall (df : DataFrame) (mask : Mask) (ssm : option Mask),
    transform_series P fs df mask a (Some scol) ssm sxm =
    transform_series P fs df mask a' (Some scol) ssm sxm.
Proof.
  intros Hv Hn. induction fs as [|f fs IH]; intros df mask ssm;
    cbn [transform_series]; [reflexivity|].
  destruct (row_filter P f df) as [m|]; cbn [bind]; [|reflexivity].
  rewrite (transform_axis_by_column_axis df (mask_and mask m) a a' scol ssm sxm Hv Hn).
  destruct (transform_axis P df (mask_and mask m) a' (Some scol) ssm sxm) as [[df1 ssm1]|];
    cbn [bind]; [apply IH | reflexivity].
Qed.

(** Two scaling configurations that extract the same scaling information from
    the table, with a baseline column of the same name, transform the table
    in the same way. *)
Lemma transform_df_data_same_info (df : DataFrame) (x_axis : axis) (y : string)
  (sc sc' : scaling_cfg) (fs : list filter_cond) (mask : Mask) (scol : Series)
  (ssm sxm : option Mask) :
  scaling_info P df x_axis sc fs = Ok (Some scol, ssm, sxm) ->
  scaling_info P df x_axis sc' fs = Ok (Some scol, ssm, sxm) ->
  scaling_column_name (mkAxis y (Some sc)) = scaling_column_name (mkAxis y (Some sc')) ->
  transform_df_data P df x_axis (mkAxis y (Some sc)) fs mask =
  transform_df_data P df x_axis (mkAxis y (Some sc')) fs mask.
Proof.
  intros H H' Hn. unfold transform_df_data. cbn [ax_scaling]. rewrite H, H'. cbn [bind].
  destruct fs as [|f fs].
  - now rewrite (transform_axis_by_column_axis df mask (mkAxis y (Some sc))
                   (mkAxis y (Some sc')) scol ssm sxm eq_refl Hn).
  - now apply transform_series_by_column_axis.
Qed.

(** X14. A zero or absent constant is rejected first: without a baseline
    column, when [scaling.custom] is absent or falsy (0, 0.0, the empty
    string), [transform_df_data] raises
    [RuntimeError("Invalid custom scaling value ...")] whatever the table, the
    series filters and the mask are: nothing of the table is read. *)
Theorem invalid_constant_rejected_first :
  forall (df : DataFrame) (x_axis : axis) (y : string) (custom : option value)
         (fs : list filter_cond) (mask : Mask),
    match custom with
    | Some c => py_truthy c = false
    | None => True
    end ->
    transform_df_data P df x_axis (mkAxis y (Some (mkScaling None custom))) fs mask =
      Err (Raise RuntimeError
             [AMsg [Lit "Invalid custom scaling value (cannot divide by ";
                    Obj (match custom with Some c => c | None => VNone end);
                    Lit ")."]]).
Proof.
  intros df x_axis y custom fs mask H.
  unfold transform_df_data, scaling_info, truthy_custom; simpl.
  destruct custom as [c|]; [rewrite H|]; reflexivity.
Qed.

(** X15. The baseline column wins over the constant: when the scaling names a
    baseline column, [scaling.custom] is never read, and [transform_df_data]
    does what it does without it (also when the constant is zero). *)
Theorem baseline_column_overrides_constant :
  forall (df : DataFrame) (x_axis : axis) (y : string) (col : scaling_column_cfg)
         (custom : option value) (fs : list filter_cond) (mask : Mask),
    transform_df_data P df x_axis (mkAxis y (Some (mkScaling (Some col) custom))) fs mask =
    transform_df_data P df x_axis (mkAxis y (Some (mkScaling (Some col) None))) fs mask.
Proof.
  intros df x_axis y col custom fs mask.
  destruct (scaling_info P df x_axis (mkScaling (Some col) None) fs)
    as [[[scol ssm] sxm]|e] eqn:E.
  - assert (S : exists s, scol = Some s).
    { unfold scaling_info in E; simpl in E.
      destruct (getitem df (col_name col)); cbn [bind] in E; [|discriminate].
      destruct (match col_series col with Some _ => _ | None => _ end);
        cbn [bind] in E; [|discriminate].
      destruct (match col_x_value col with Some _ => _ | None => _ end);
        cbn [bind] in E; [|discriminate].
      inversion E; eauto. }
    destruct S as [s ->].
    apply (transform_df_data_same_info df x_axis y (mkScaling (Some col) custom)
             (mkScaling (Some col) None) fs mask E E eq_refl).
  - unfold transform_df_data. cbn [ax_scaling].
    change (scaling_info P df x_axis (mkScaling (Some col) custom) fs)
      with (scaling_info P df x_axis (mkScaling (Some col) None) fs).
    now rewrite E.
Qed.

(** X16. A falsy [x_value] is no [x_value]: the baseline is narrowed to an
    x-axis value only when [scaling.column.x_value] is truthy, so with
    [x_value: 0] (or 0.0, or the empty string) [transform_df_data] does what
    it does without an [x_value]: the baseline is not narrowed to the records
    whose x-axis value is 0. *)
Theorem falsy_x_value_is_ignored :
  forall (df : DataFrame) (x_axis : axis) (y name : string) (series : option Z)
         (xv : value) (custom : option value) (fs : list filter_cond) (mask : Mask),
    py_truthy xv = false ->
    transform_df_data P df x_axis
      (mkAxis y (Some (mkScaling (Some (mkScalingColumn name series (Some xv))) custom)))
      fs mask =
    transform_df_data P df x_axis
      (mkAxis y (Some (mkScaling (Some (mkScalingColumn name series None)) custom)))
      fs mask.
Proof.
  intros df x_axis y name series xv custom fs mask Hxv.
  assert (I : scaling_info P df x_axis
                (mkScaling (Some (mkScalingColumn name series (Some xv))) custom) fs =
              scaling_info P df x_axis
                (mkScaling (Some (mkScalingColumn name series None)) custom) fs).
  { unfold scaling_info; simpl. now rewrite Hxv. }
  destruct (scaling_info P df x_axis
              (mkScaling (Some (mkScalingColumn name series None)) custom) fs)
    as [[[scol ssm] sxm]|e] eqn:E.
  - assert (S : exists s, scol = Some s).
    { unfold scaling_info in E; simpl in E.
      destruct (getitem df name); cbn [bind] in E; [|discriminate].
      destruct (match series with Some _ => _ | None => _ end);
        cbn [bind] in E; [|discriminate].
      inversion E; eauto. }
    destruct S as [s ->].
    apply (transform_df_data_same_info df x_axis y _ _ fs mask I E eq_refl).
  - unfold transform_df_data. cbn [ax_scaling]. now rewrite I, E.
Qed.

(** X17. The series index is not checked: with a baseline column of the table
    and [scaling.column.series = i], an index outside of
    [-len(series_filters) .. len(series_filters) - 1] makes
    [transform_df_data] raise [IndexError]: in particular every index does
    when there is no series filter. *)
Theorem series_index_out_of_range :
  forall (df : DataFrame) (x_axis : axis) (y name : string) (i : Z)
         (xv : option value) (custom : option value) (fs : list filter_cond)
         (mask : Mask) (d : dtype),
    lookup_dtype name (df_dtypes df) = Some d ->
    (i < - Z.of_nat (List.length fs) \/ Z.of_nat (List.length fs) <= i)%Z ->
    transform_df_data P df x_axis
      (mkAxis y (Some (mkScaling (Some (mkScalingColumn name (Some i) xv)) custom)))
      fs mask =
    Err (Raise IndexError [AMsg [Lit "list index out of range"]]).
Proof.
  intros df x_axis y name i xv custom fs mask d Hd Hi.
  unfold transform_df_data, scaling_info, getitem; simpl. rewrite Hd; cbn [bind].
  assert (G : list_getitem fs i = Err (Raise IndexError [AMsg [Lit "list index out of range"]])).
  { unfold list_getitem.
    destruct (Z.ltb_spec i 0).
    - destruct (Z.leb_spec 0 (i + Z.of_nat (List.length fs))); [lia | reflexivity].
    - destruct (Z.leb_spec 0 i); [|lia].
      destruct (nth_error fs (Z.to_nat i)) eqn:N; [|reflexivity].
      assert (nth_error fs (Z.to_nat i) <> None) by congruence.
      apply nth_error_Some in H1. lia. }
  now rewrite G.
Qed.

(** By a baseline column, on a y-axis column of type [float64]: when the
    resolved baseline has one value, or as many values as the mask selects
    records, the selected y-axis values are divided by it. *)
Lemma transform_axis_by_baseline (df : DataFrame) (mask : Mask) (a : axis) (scol : Series)
  (ssm sxm : option Mask) :
  lookup_dtype (ax_value a) (df_dtypes df) = Some Dfloat64 ->
  is_numeric_dtype (s_dtype scol) = true ->
  float_cells (ax_value a) (df_rows df) ->
  let baseline := select (fst (scaling_mask_of mask ssm sxm)) (s_values scol) in
  Forall (fun v => is_number v = true) baseline ->
  List.length baseline = 1 \/ List.length baseline = List.length (select mask (df_rows df)) ->
  transform_axis P df mask a (Some scol) ssm sxm =
    Ok (mkDF (df_dtypes df) (scale_group mask (ax_value a) baseline (df_rows df)),
        snd (scaling_mask_of mask ssm sxm)).
Proof.
  intros Hy Hds Hcells baseline Hb Hlen.
  assert (Hys : Forall (fun y => is_float y = true)
                  (map (fun r : row => r (ax_value a)) (select mask (df_rows df))))
    by (apply Forall_map; now apply select_Forall).
  unfold scale_group.
  destruct (Nat.eq_dec (List.length baseline) 1) as [E1|N1].
  - destruct baseline as [|v [|w vs]] eqn:Eb; try discriminate.
    assert (Hv : is_number v = true) by (now inversion Hb).
    rewrite (transform_axis_by_value P df mask a scol ssm sxm Hy eq_refl Hds
               (float_cells_numeric Hcells) (is_number_numeric v Hv) Eb).
    rewrite (cast_float_quotients (fun r : row => quotient (r (ax_value a)) v)).
    2:{ apply select_Forall. eapply Forall_impl; [|exact Hcells].
        intros r Hr. now apply quotient_is_float. }
    cbn [bind divide_by]. now rewrite map_map.
  - destruct Hlen as [Hlen|Hlen]; [contradiction|].
    rewrite (transform_axis_by_column P df mask a scol ssm sxm Hy eq_refl Hds).
    rewrite (scaling_val_vector scol _ N1). fold baseline.
    rewrite divide_by_vector by exact N1.
    assert (Hpairs : Forall (fun p : value * value =>
                               is_float (fst p) = true /\ is_number (snd p) = true)
                       (combine (map (fun r : row => r (ax_value a))
                                     (select mask (df_rows df))) baseline))
      by (exact (@combine_Forall _ _ (fun y => is_float y = true)
                   (fun v => is_number v = true) _ _ Hys Hb)).
    unfold np_truediv. unfold row in *. rewrite length_map, <- Hlen, Nat.eqb_refl.
    rewrite (mapM_Ok (fun p => truediv Dfloat64 (fst p) (snd p))
                     (fun p => quotient (fst p) (snd p))).
    2:{ eapply Forall_impl; [|exact Hpairs].
        intros p [Hp1 Hp2]. apply truediv_numeric; [reflexivity| |].
        - now apply is_float_numeric.
        - now apply is_number_numeric. }
    cbn [bind]. unfold loc_setitem.
    rewrite length_map, length_combine, length_map, Hlen, Nat.min_id, Nat.eqb_refl.
    rewrite (cast_float_quotients (fun p : value * value => quotient (fst p) (snd p))).
    2:{ eapply Forall_impl; [|exact Hpairs].
        intros p [Hp1 Hp2]. now apply quotient_is_float. }
    reflexivity.
Qed.

(** X18. In a y-axis column of type [float64], a baseline of as many values
    as the group has selected records (and not one) divides them element by
    element, in the order of the records: the i-th selected y-axis value is
    divided by the i-th value of the baseline. *)
Theorem baseline_vector_divides_elementwise :
  forall (df : DataFrame) (mask : Mask) (a : axis) (scol : Series)
         (ssm sxm : option Mask),
    lookup_dtype (ax_value a) (df_dtypes df) = Some Dfloat64 ->
    is_numeric_dtype (s_dtype scol) = true ->
    float_cells (ax_value a) (df_rows df) ->
    let baseline := select (fst (scaling_mask_of mask ssm sxm)) (s_values scol) in
    Forall (fun v => is_number v = true) baseline ->
    List.length baseline = List.length (select mask (df_rows df)) ->
    List.length baseline <> 1 ->
    exists df' ssm',
      transform_axis P df mask a (Some scol) ssm sxm = Ok (df', ssm')
      /\ map (fun r => r (ax_value a)) (select mask (df_rows df')) =
         map (fun p => quotient (fst p) (snd p))
             (combine (map (fun r => r (ax_value a)) (select mask (df_rows df))) baseline).
Proof.
  intros df mask a scol ssm sxm Hy Hds Hcells baseline Hb Hlen H1.
  rewrite (transform_axis_by_baseline df mask a scol ssm sxm Hy Hds Hcells Hb
             (or_intror Hlen)).
  fold baseline. do 2 eexists. split; [reflexivity|].
  cbn [df_rows]. unfold scale_group.
  rewrite divide_by_vector by exact H1. apply select_assign.
  unfold row in *.
  now rewrite length_map, length_combine, length_map, Hlen, Nat.min_id.
Qed.

(** By a constant, [transform_axis] hands the object [scaling_series_mask]
    back as it got it, and does not read it. *)
Lemma transform_axis_by_constant_state (df : DataFrame) (mask : Mask) (a : axis)
  (ssm ssm' sxm : option Mask) :
  transform_axis P df mask a None ssm sxm =
    match transform_axis P df mask a None ssm' sxm with
    | Ok (df', _) => Ok (df', ssm)
    | Err e => Err e
    end.
Proof.
  unfold transform_axis. destruct (ax_scaling a) as [sc|]; [|reflexivity].
  destruct (truthy_custom sc) as [c|]; [|reflexivity].
  destruct (getitem (getitem_mask df mask) (ax_value a)) as [ycol|]; cbn [bind];
    [|reflexivity].
  destruct (pd_scalar P c (s_dtype ycol)) as [c'|[[] args]]; try reflexivity.
  destruct (np_truediv _ _ _) as [q|]; cbn [bind]; [|reflexivity].
  destruct (loc_setitem _ _ _ _ _); reflexivity.
Qed.

(** X19. The update in place of the shared mask is harmless.  The loop over
    the series filters hands the same object [scaling_series_mask] to every
    call of [transform_axis], which narrows it in place by the mask of the
    x-value ([&=]); as [&] is idempotent, the loop does the same from the
    narrowed mask as from the mask: every group's baseline is resolved under
    the series mask and-ed once with the x-value mask. *)
Theorem shared_series_mask_update_is_harmless :
  forall (fs : list filter_cond) (df : DataFrame) (mask : Mask) (a : axis)
         (scol : option Series) (s x : Mask),
    transform_series P fs df mask a scol (Some (mask_and s x)) (Some x) =
    transform_series P fs df mask a scol (Some s) (Some x).
Proof.
  induction fs as [|f fs IH]; intros df mask a scol s x;
    cbn [transform_series]; [reflexivity|].
  destruct (row_filter P f df) as [m|]; cbn [bind]; [|reflexivity].
  destruct scol as [scol|].
  - assert (E : transform_axis P df (mask_and mask m) a (Some scol)
                  (Some (mask_and s x)) (Some x) =
                transform_axis P df (mask_and mask m) a (Some scol) (Some s) (Some x)).
    { unfold transform_axis, scaling_mask_of. now rewrite mask_and_absorb. }
    now rewrite E.
  - rewrite (transform_axis_by_constant_state df (mask_and mask m) a
               (Some (mask_and s x)) (Some s) (Some x)).
    rewrite (transform_axis_by_constant_state df (mask_and mask m) a
               (Some s) (Some s) (Some x)) at 2.
    destruct (transform_axis P df (mask_and mask m) a None (Some s) (Some x))
      as [[df1 ssm1]|]; cbn [bind]; [apply IH | reflexivity].
Qed.

End ScalingConfigurations.

(** ** Scaling the series by a constant *)

Lemma assign_Forall (Q : row -> Prop) (m : Mask) (vals : list value) (c : string)
  (rs : list row) :
  (forall r v, In v vals -> Q r -> Q (upd r c v)) ->
  Forall Q rs -> Forall Q (assign m vals c rs).
Proof.
  revert vals rs; induction m as [|b m IH]; intros vals rs Hupd Hrs;
    [destruct rs; exact Hrs|].
  destruct rs as [|r rs]; [exact Hrs|].
  pose proof (Forall_inv Hrs) as Hr. pose proof (Forall_inv_tail Hrs) as Ht.
  cbn [assign]. destruct (selected b).
  - destruct vals as [|v vals]; [exact Hrs|]. constructor.
    + apply Hupd; [now left | assumption].
    + apply IH; [|assumption]. intros r' v' Hv'. apply Hupd. now right.
  - constructor; [assumption|]. now apply IH.
Qed.

(** Writing floats under [y] keeps the cells under [y] floats. *)
Lemma assign_float_cells (m : Mask) (vals : list value) (y : string) (rs : list row) :
  Forall (fun v => is_float v = true) vals ->
  float_cells y rs -> float_cells y (assign m vals y rs).
Proof.
  intros Hvals H. unfold float_cells. apply assign_Forall; [|exact H].
  intros r v Hv _. rewrite upd_same. rewrite Forall_forall in Hvals. now apply Hvals.
Qed.

Lemma scale_where_float (m : Mask) (y : string) (c : value) (rs : list row) :
  is_number c = true -> float_cells y rs -> float_cells y (scale_where m y c rs).
Proof.
  intros Hc H. unfold scale_where. apply assign_float_cells; [|exact H].
  apply Forall_map, select_Forall. eapply Forall_impl; [|exact H].
  intros r Hr. now apply quotient_is_float.
Qed.

Section ConstantBySeries.

Variable P : pyparse.

(** The loop over the series filters, for a constant, a y-axis column of
    type [float64] and series filters on other columns than the y-axis: the
    masks of the series filters can be taken on the table before the loop,
    and each iteration divides the records of its group. *)
Lemma transform_series_by_constant (a : axis) (sc : scaling_cfg) (c c' : value)
  (mask : Mask) (sxm : option Mask) :
  ax_scaling a = Some sc ->
  truthy_custom sc = Some c ->
  pd_scalar P c Dfloat64 = Ok c' ->
  forall (fs : list filter_cond) (df : DataFrame) (ms : list Mask) (ssm : option Mask),
    lookup_dtype (ax_value a) (df_dtypes df) = Some Dfloat64 ->
    float_cells (ax_value a) (df_rows df) ->
    Forall (fun f => fst (fst f) <> ax_value a) fs ->
    mapM (fun f => row_filter P f df) fs = Ok ms ->
    transform_series P fs df mask a None ssm sxm =
      Ok (mkDF (df_dtypes df)
               (fold_left (fun rs m => scale_where (mask_and mask m) (ax_value a) c' rs)
                          ms (df_rows df))).
Proof.
  intros Ha Hc Hc'.
  assert (Hnum : is_number c' = true)
    by (apply pd_scalar_float in Hc'; now destruct c').
  induction fs as [|f fs IH]; intros df ms ssm Hy Hcells Hcols Hms.
  - apply mapM_nil_inv in Hms; subst ms. now destruct df.
  - cbn [mapM] in Hms.
    destruct (row_filter P f df) as [m|] eqn:Hf; cbn [bind] in Hms; [|discriminate].
    destruct (mapM (fun f => row_filter P f df) fs) as [ms'|] eqn:Hfs;
      cbn [bind] in Hms; [|discriminate].
    inversion Hms; subst ms; clear Hms.
    cbn [transform_series]. rewrite Hf; cbn [bind].
    rewrite (transform_axis_by_constant P df (mask_and mask m) a ssm sxm
               Ha Hc Hy Hcells Hc').
    cbn [bind fold_left].
    fold (scale_where (mask_and mask m) (ax_value a) c' (df_rows df)).
    pose proof (Forall_inv_tail Hcols) as Hcols'.
    rewrite (IH (mkDF (df_dtypes df)
                      (scale_where (mask_and mask m) (ax_value a) c' (df_rows df)))
                ms' ssm).
    + reflexivity.
    + exact Hy.
    + now apply scale_where_float.
    + exact Hcols'.
    + rewrite <- Hfs. apply mapM_ext_Forall.
      eapply Forall_impl; [|exact Hcols'].
      intros [[col str_op] v] Hcol. cbn [fst] in Hcol.
      apply row_filter_local; [reflexivity|].
      cbn [df_rows]. unfold scale_where. now apply assign_other.
Qed.

(** X20. Scaling the series by a constant.  With [scaling.custom = c], a
    y-axis column of type [float64] and series filters on columns other than
    the y-axis, [transform_df_data] takes the groups of the series filters
    one after the other and divides the y-axis values of the selected
    records of each group by [c] (coerced to the type of the y-axis column):
    the masks of the groups are those of the table before the scaling, and a
    record that two series filters select is divided twice. *)
Theorem constant_scaling_by_series :
  forall (df : DataFrame) (x_axis : axis) (y : string) (c c' : value)
         (f : filter_cond) (fs : list filter_cond) (ms : list Mask) (mask : Mask),
    py_truthy c = true ->
    lookup_dtype y (df_dtypes df) = Some Dfloat64 ->
    float_cells y (df_rows df) ->
    pd_scalar P c Dfloat64 = Ok c' ->
    Forall (fun g => fst (fst g) <> y) (f :: fs) ->
    mapM (fun g => row_filter P g df) (f :: fs) = Ok ms ->
    transform_df_data P df x_axis (mkAxis y (Some (mkScaling None (Some c)))) (f :: fs) mask =
      Ok (mkDF (df_dtypes df)
               (fold_left (fun rs m => scale_where (mask_and mask m) y c' rs)
                          ms (df_rows df))).
Proof.
  intros df x_axis y c c' f fs ms mask Hc Hy Hcells Hc' Hcols Hms.
  assert (T : truthy_custom (mkScaling None (Some c)) = Some c)
    by (unfold truthy_custom; cbn [sc_custom]; now rewrite Hc).
  unfold transform_df_data, scaling_info. cbn [ax_scaling sc_column]. rewrite T.
  cbn [bind].
  exact (@transform_series_by_constant (mkAxis y (Some (mkScaling None (Some c))))
           (mkScaling None (Some c)) c c' mask None eq_refl T Hc'
           (f :: fs) df ms None Hy Hcells Hcols Hms).
Qed.

End ConstantBySeries.

(** ** The pipeline *)

Lemma bind_inv {A B : Type} (r : result A) (k : A -> result B) (b : B) :
  bind r k = Ok b -> exists a, r = Ok a /\ k a = Ok b.
Proof. destruct r as [a|e]; simpl; intros H; [eauto | discriminate]. Qed.




Lemma select_length_eq {A B : Type} (m : Mask) (xs : list A) (ys : list B) :
  List.length xs = List.length ys ->
  List.length (select m xs) = List.length (select m ys).
Proof.
  revert xs ys; induction m as [|b m IH]; intros xs ys H; [now destruct xs, ys|].
  destruct xs as [|x xs], ys as [|y ys]; try discriminate; [reflexivity|].
  cbn [select]. injection H as H. destruct (selected b); cbn [List.length];
    now rewrite (IH xs ys H).
Qed.


Lemma check_filtered_row_count_Ok (df : DataFrame) (m : Mask) (x_axis : axis)
  (series_columns plot_columns : list string) :
  check_filtered_row_count df m x_axis series_columns plot_columns = Ok tt ->
  List.length (select m (df_rows df)) <=
    multiplicity_product series_columns * distinct_x df m x_axis.
Proof.
  intros H.
  destruct (lookup_dtype (ax_value x_axis) (df_dtypes df)) as [d|] eqn:Hx.
  - rewrite (check_filtered_row_count_cases df m x_axis series_columns plot_columns Hx) in H.
    cbv zeta in H.
    destruct (Nat.ltb_spec (multiplicity_product series_columns * distinct_x df m x_axis)
                (List.length (select m (df_rows df)))) as [Hlt|Hle]; [|exact Hle].
    destruct (project df plot_columns m); discriminate.
  - unfold check_filtered_row_count, getitem, getitem_mask in H. cbn [df_dtypes] in H.
    rewrite Hx in H. discriminate.
Qed.

Lemma project_inv (df : DataFrame) (labels : list string) (m : Mask)
  (shown : list (list value)) :
  project df labels m = Ok shown ->
  shown = map (fun r => map r labels) (select m (df_rows df)).
Proof.
  unfold project. destruct (filter _ labels); [|discriminate].
  intros H; now inversion H.
Qed.

Section PipelineProperties.

Variable P : pyparse.

(** The stages of a run that returns. *)
Lemma run_post_processing_inv (qs : sorter) (plot : plotter) (typed : result DataFrame)
  (config : ConfigHandler) (shown : list (list value)) :
  run_post_processing P qs plot typed config = Ok shown ->
  exists (df sorted scaled : DataFrame) (mask : Mask),
    typed = Ok df
    /\ sort_df qs df (cfg_x_axis config) (cfg_series_columns config) = Ok sorted
    /\ filter_df P sorted (cfg_and_filters config) (cfg_or_filters config)
         (cfg_series_filters config) = Ok mask
    /\ check_filtered_row_count sorted mask (cfg_x_axis config)
         (cfg_series_columns config) (cfg_plot_columns config) = Ok tt
    /\ transform_df_data P sorted (cfg_x_axis config) (cfg_y_axis config)
         (cfg_series_filters config) mask = Ok scaled
    /\ project scaled (cfg_plot_columns config) mask = Ok shown
    /\ plot (cfg_title config) shown (cfg_x_axis config) (cfg_y_axis config)
         (cfg_series_filters config) = Ok tt.
Proof.
  unfold run_post_processing. intros H.
  apply bind_inv in H as (df & Hdf & H).
  apply bind_inv in H as (sorted & Hsort & H).
  apply bind_inv in H as (mask & Hmask & H).
  apply bind_inv in H as ([] & Hcheck & H).
  apply bind_inv in H as (scaled & Hscaled & H).
  apply bind_inv in H as (shown' & Hshown & H).
  apply bind_inv in H as ([] & Hplot & H).
  assert (shown' = shown) by congruence; subst shown'.
  exists df, sorted, scaled, mask. repeat split; assumption.
Qed.

(** X21. What a run returns.  When [run_post_processing] returns, the frame
    it returns is the one it gave to [plot_generic]: the plot columns of the
    records that [filter_df] selected in the sorted table, where the scaling
    changed at most their y-axis values; it has at least one record, and not
    more than the distinct x-axis values of the selected records times the
    combinations of series columns. *)
Theorem run_post_processing_returns_selected_records :
  forall (qs : sorter) (plot : plotter) (typed : result DataFrame)
         (config : ConfigHandler) (shown : list (list value)),
    run_post_processing P qs plot typed config = Ok shown ->
    exists (df sorted scaled : DataFrame) (mask : Mask),
      typed = Ok df
      /\ sort_df qs df (cfg_x_axis config) (cfg_series_columns config) = Ok sorted
      /\ filter_df P sorted (cfg_and_filters config) (cfg_or_filters config)
           (cfg_series_filters config) = Ok mask
      /\ writes_only mask (ax_value (cfg_y_axis config)) sorted scaled
      /\ shown = map (fun r => map r (cfg_plot_columns config)) (select mask (df_rows scaled))
      /\ plot (cfg_title config) shown (cfg_x_axis config) (cfg_y_axis config)
           (cfg_series_filters config) = Ok tt
      /\ 1 <= List.length shown
      /\ List.length shown <=
           multiplicity_product (cfg_series_columns config)
           * distinct_x sorted mask (cfg_x_axis config).
Proof.
  intros qs plot typed config shown H.
  apply run_post_processing_inv in H
    as (df & sorted & scaled & mask & Hdf & Hsort & Hmask & Hcheck & Hscaled & Hshown & Hplot).
  pose proof (@transform_df_data_writes_only P _ _ _ _ _ _ Hscaled) as W.
  apply project_inv in Hshown.
  assert (L : List.length shown = List.length (select mask (df_rows sorted))).
  { rewrite Hshown, length_map. apply select_length_eq. apply W. }
  exists df, sorted, scaled, mask.
  repeat (split; [assumption|]). split.
  - rewrite L. apply filter_df_Ok_inv in Hmask.
    unfold masked_empty in Hmask. apply orb_false_iff in Hmask as [E _].
    apply Nat.eqb_neq in E. lia.
  - rewrite L. now apply check_filtered_row_count_Ok in Hcheck.
Qed.


End PipelineProperties.

(** ** The baseline of a series *)

Lemma divide_by_float (base ys : list value) :
  Forall (fun y => is_float y = true) ys ->
  Forall (fun v => is_number v = true) base ->
  Forall (fun q => is_float q = true) (divide_by base ys).
Proof.
  intros Hys Hb.
  assert (V : Forall (fun q => is_float q = true)
                (map (fun p => quotient (fst p) (snd p)) (combine ys base))).
  { apply Forall_map.
    eapply Forall_impl;
      [|exact (@combine_Forall _ _ (fun y => is_float y = true)
                 (fun v => is_number v = true) _ _ Hys Hb)].
    intros p [H1 H2]. now apply quotient_is_float. }
  unfold divide_by. destruct base as [|v [|w vs]]; try exact V.
  apply Forall_map. eapply Forall_impl; [|exact Hys].
  intros y Hy. apply quotient_is_float; [exact Hy | now inversion Hb].
Qed.

Lemma scale_group_float (m : Mask) (y : string) (base : list value) (rs : list row) :
  Forall (fun v => is_number v = true) base ->
  float_cells y rs -> float_cells y (scale_group m y base rs).
Proof.
  intros Hb H. unfold scale_group. apply assign_float_cells; [|exact H].
  apply divide_by_float; [|exact Hb].
  apply Forall_map. now apply select_Forall.
Qed.

Lemma list_getitem_nil {A : Type} (i : Z) :
  @list_getitem A [] i = Err (Raise IndexError [AMsg [Lit "list index out of range"]]).
Proof.
  unfold list_getitem. cbn [List.length].
  destruct (0 <=? _)%Z; [destruct (Z.to_nat _)|]; reflexivity.
Qed.

Section SeriesBaseline.

Variable P : pyparse.

(** The loop over the series filters with a baseline column and the mask
    [ssm] of the scaling series: every group is divided by the baseline that
    [ssm], narrowed by the mask of the x-value, selects in the copy of the
    baseline column. *)
Lemma transform_series_by_baseline (a : axis) (scol : Series) (mask smask : Mask)
  (sxm : option Mask) :
  is_numeric_dtype (s_dtype scol) = true ->
  Forall (fun v => is_number v = true) (select smask (s_values scol)) ->
  forall (fs : list filter_cond) (df : DataFrame) (ms : list Mask) (ssm : Mask),
    lookup_dtype (ax_value a) (df_dtypes df) = Some Dfloat64 ->
    float_cells (ax_value a) (df_rows df) ->
    match sxm with
    | Some x => mask_and ssm x
    | None => ssm
    end = smask ->
    Forall (fun f => fst (fst f) <> ax_value a) fs ->
    mapM (fun f => row_filter P f df) fs = Ok ms ->
    Forall (fun m =>
              List.length (select smask (s_values scol)) = 1 \/
              List.length (select smask (s_values scol)) =
                List.length (select (mask_and mask m) (df_rows df))) ms ->
    transform_series P fs df mask a (Some scol) (Some ssm) sxm =
      Ok (mkDF (df_dtypes df)
               (fold_left (fun rs m => scale_group (mask_and mask m) (ax_value a)
                                         (select smask (s_values scol)) rs)
                          ms (df_rows df))).
Proof.
  intros Hds Hbase.
  induction fs as [|f fs IH]; intros df ms ssm Hy Hcells Hres Hcols Hms Hlen.
  - apply mapM_nil_inv in Hms; subst ms. now destruct df.
  - cbn [mapM] in Hms.
    destruct (row_filter P f df) as [m|] eqn:Hf; cbn [bind] in Hms; [|discriminate].
    destruct (mapM (fun f => row_filter P f df) fs) as [ms'|] eqn:Hfs;
      cbn [bind] in Hms; [|discriminate].
    inversion Hms; subst ms; clear Hms.
    pose proof (Forall_inv Hlen) as Hlen1. pose proof (Forall_inv_tail Hlen) as Hlen'.
    pose proof (Forall_inv_tail Hcols) as Hcols'.
    assert (Hfst : fst (scaling_mask_of (mask_and mask m) (Some ssm) sxm) = smask)
      by (rewrite <- Hres; now destruct sxm).
    cbn [transform_series]. rewrite Hf; cbn [bind].
    rewrite (@transform_axis_by_baseline P df (mask_and mask m) a scol (Some ssm) sxm
               Hy Hds Hcells);
      rewrite Hfst; [|exact Hbase|exact Hlen1].
    cbn [bind fold_left].
    assert (Hsnd : exists ssm1,
               snd (scaling_mask_of (mask_and mask m) (Some ssm) sxm) = Some ssm1
               /\ match sxm with
                  | Some x => mask_and ssm1 x
                  | None => ssm1
                  end = smask).
    { destruct sxm as [x|]; cbn [scaling_mask_of snd].
      - exists (mask_and ssm x). split; [reflexivity|].
        now rewrite mask_and_absorb.
      - exists ssm. now split. }
    destruct Hsnd as (ssm1 & -> & Hres1).
    rewrite (IH (mkDF (df_dtypes df)
                      (scale_group (mask_and mask m) (ax_value a)
                         (select smask (s_values scol)) (df_rows df)))
                ms' ssm1).
    + reflexivity.
    + exact Hy.
    + now apply scale_group_float.
    + exact Hres1.
    + exact Hcols'.
    + rewrite <- Hfs. apply mapM_ext_Forall.
      eapply Forall_impl; [|exact Hcols'].
      intros [[col str_op] v] Hcol. cbn [fst] in Hcol.
      apply row_filter_local; [reflexivity|].
      cbn [df_rows]. unfold scale_group. now apply assign_other.
    + eapply Forall_impl; [|exact Hlen'].
      intros m' [H1|Hn]; [now left | right].
      rewrite Hn. cbn [df_rows]. apply select_length_eq.
      unfold scale_group. now rewrite assign_length.
Qed.

(** C10. Baseline drawn by the series filter.  When the scaling names a
    baseline column and the series index [i], [transform_df_data] resolves
    the baseline once for all groups: the values of the baseline column under
    the mask of the series filter [series_filters[i]] alone, narrowed to the
    records of the x-value when a truthy one is given.  The mask of a group
    takes no part in it: it only selects the records whose y-axis values are
    divided by that baseline.  (The y-axis column is of type [float64], the
    series filters are on other columns, and the baseline has one value or
    as many values as each group has records.)  On a sample table the
    divisor is the y-axis value of a record that the composed mask excludes:
    the mask selects the second record only, and its y-axis value 20 is
    divided by the 10 of the first record. *)
Theorem baseline_series_mask_replaces_group_mask :
  (forall (df : DataFrame) (x_axis : axis) (y name : string) (i : Z)
          (x_value custom : option value) (fs : list filter_cond) (mask : Mask)
          (ds : dtype) (f : filter_cond) (s smask : Mask) (ms : list Mask),
      lookup_dtype y (df_dtypes df) = Some Dfloat64 ->
      float_cells y (df_rows df) ->
      lookup_dtype name (df_dtypes df) = Some ds ->
      is_numeric_dtype ds = true ->
      list_getitem fs i = Ok f ->
      row_filter P f df = Ok s ->
      x_value_narrows df x_axis x_value s smask ->
      let baseline := select smask (map (fun r => r name) (df_rows df)) in
      Forall (fun v => is_number v = true) baseline ->
      Forall (fun g => fst (fst g) <> y) fs ->
      mapM (fun g => row_filter P g df) fs = Ok ms ->
      Forall (fun m =>
                List.length baseline = 1 \/
                List.length baseline =
                  List.length (select (mask_and mask m) (df_rows df))) ms ->
      transform_df_data P df x_axis
        (mkAxis y (Some (mkScaling (Some (mkScalingColumn name (Some i) x_value)) custom)))
        fs mask =
      Ok (mkDF (df_dtypes df)
               (fold_left (fun rs m => scale_group (mask_and mask m) y baseline rs)
                          ms (df_rows df))))
  /\ (m <- filter_df no_numerals pair_AB [("series", "!=", VStr "A")] [] two_series ;;
      cells <- bench_cells
                 (transform_df_data no_numerals pair_AB x_axis0 y_axis_by_first_series
                    two_series m) ;;
      Ok (m, cells)) =
     Ok ([Some false; Some true],
         [[VInt 1; VStr "A"; VFloat 10]; [VInt 1; VStr "B"; VFloat 2]]).
Proof.
  split; [|vm_compute; reflexivity].
  intros df x_axis y name i x_value custom fs mask ds f s smask ms
         Hy Hcells Hname Hds Hi Hf Hx baseline Hbase Hcols Hms Hlen.
  set (scol := mkSeries ds (map (fun r : row => r name) (df_rows df))).
  assert (I : exists sxm,
             scaling_info P df x_axis
               (mkScaling (Some (mkScalingColumn name (Some i) x_value)) custom) fs =
               Ok (Some scol, Some s, sxm)
             /\ match sxm with
                | Some x => mask_and s x
                | None => s
                end = smask).
  { unfold scaling_info, getitem. cbn [sc_column col_name col_series col_x_value].
    rewrite Hname; cbn [bind]. rewrite Hi; cbn [bind]. rewrite Hf; cbn [bind].
    unfold x_value_narrows in Hx. destruct x_value as [v|].
    - destruct (py_truthy v).
      + destruct Hx as (xs & xm & Hxs & Hxm & ->).
        unfold getitem in Hxs.
        destruct (lookup_dtype (ax_value x_axis) (df_dtypes df)); [|discriminate].
        cbn [bind]. inversion Hxs; subst xs. rewrite Hxm; cbn [bind].
        exists (Some xm). now split.
      + subst smask. exists None. now split.
    - subst smask. exists None. now split. }
  destruct I as (sxm & Hinfo & Hres).
  unfold transform_df_data. cbn [ax_scaling]. rewrite Hinfo; cbn [bind].
  destruct fs as [|g fs]; [now rewrite list_getitem_nil in Hi|].
  exact (@transform_series_by_baseline
           (mkAxis y (Some (mkScaling (Some (mkScalingColumn name (Some i) x_value)) custom)))
           scol mask smask sxm Hds Hbase (g :: fs) df ms s Hy Hcells Hres Hcols Hms Hlen).
Qed.

End SeriesBaseline.

(** * The further properties at sample inputs *)

(** [check_df_columns_reports_all_missing] at a sample input. *)
Lemma check_df_columns_reports_all_missing_witness :
  check_df_columns raw_bench ["x"; "z"; "y"; "w"] =
    Err (Raise KeyError [AStr "Could not find columns"; AList ["z"; "w"]])
  /\ In "w" ["z"; "w"].
Proof.
  refine (proj2 (@check_df_columns_reports_all_missing raw_bench ["x"; "z"; "y"; "w"])
            "w" _ eq_refl).
  simpl; auto.
Defined.

(** [apply_df_types_postcondition] at a sample input. *)
Lemma apply_df_types_postcondition_witness :
  (forall c, In c bench_columns -> typed_as_declared sample_pdtypes bench_types typed_bench c)
  /\ List.length (rf_rows typed_bench) = List.length (rf_rows raw_bench)
  /\ (forall c, ~ In c bench_columns ->
        dict_get (rf_dtypes typed_bench) c = dict_get (rf_dtypes raw_bench) c
        /\ map (fun r => r c) (rf_rows typed_bench) = map (fun r => r c) (rf_rows raw_bench)).
Proof.
  exact (@apply_df_types_postcondition sample_pdtypes bench_types raw_bench typed_bench
           bench_columns eq_refl).
Defined.

(** [apply_df_types_idempotent] at a sample input. *)
Lemma apply_df_types_idempotent_witness :
  apply_df_types sample_pdtypes typed_bench bench_columns bench_types = Ok typed_bench.
Proof.
  exact (@apply_df_types_idempotent sample_pdtypes bench_types raw_bench typed_bench
           bench_columns eq_refl).
Defined.

(** [apply_df_types_errors] at sample inputs: a column that the table does
    not have, and a column of an unsupported type. *)
Lemma apply_df_types_errors_witness :
  apply_df_types sample_pdtypes raw_bench ["x"; "z"] bench_types =
    Err (Raise KeyError [AStr "Could not find columns"; AList ["z"]])
  /\ exists e,
       apply_df_types sample_pdtypes raw_bench ["x"; "y"] [("x", "int"); ("y", "complex")] =
         Err e.
Proof.
  split.
  - refine (proj1 (@apply_df_types_errors sample_pdtypes bench_types raw_bench
                     ["x"; "z"] "z" _) eq_refl).
    simpl; auto.
  - refine (proj2 (@apply_df_types_errors sample_pdtypes [("x", "int"); ("y", "complex")]
                     raw_bench ["x"; "y"] "y" _) eq_refl).
    simpl; auto.
Defined.

(** [row_filter_error_precedence] at sample inputs. *)
Lemma row_filter_error_precedence_witness :
  row_filter no_numerals ("z", "=~", VInt 1) grid4 =
    Err (Raise KeyError [AStr "Unknown comparison operator"; AStr "=~"])
  /\ row_filter no_numerals ("z", "<=", VInt 1) grid4 = Err (Raise KeyError [AStr "z"]).
Proof.
  split.
  - exact (proj1 (@row_filter_error_precedence no_numerals grid4 "z" "=~" (VInt 1)) eq_refl).
  - refine (proj2 (@row_filter_error_precedence no_numerals grid4 "z" "<=" (VInt 1))
              _ eq_refl).
    discriminate.
Defined.

(** [row_filter_None_other_operators] at a sample input. *)
Lemma row_filter_None_other_operators_witness :
  row_filter no_numerals ("y", "<", VNone) with_missing =
    row_filter no_numerals ("y", "!=", VNone) with_missing
  /\ exists m, row_filter no_numerals ("y", "<", VNone) with_missing = Ok m
               /\ select m (df_rows with_missing) =
                  filter (fun r => notnull (r "y")) (df_rows with_missing).
Proof.
  refine (@row_filter_None_other_operators no_numerals with_missing "y" "<" op_lt Dfloat64
            eq_refl _ eq_refl).
  discriminate.
Defined.

(** [row_filter_reads_one_column] at a sample input. *)
Lemma row_filter_reads_one_column_witness :
  row_filter no_numerals (series_is "A") grid4 =
  row_filter no_numerals (series_is "A") grid4_tenth.
Proof.
  exact (@row_filter_reads_one_column no_numerals grid4 grid4_tenth "series" "=="
           (VStr "A") eq_refl eq_refl).
Defined.

(** [filter_df_first_error] at a sample input. *)
Lemma filter_df_first_error_witness :
  filter_df no_numerals grid4 [series_is "A"] [("z", "==", VInt 1)] [("x", "=~", VInt 1)] =
    Err (Raise KeyError [AStr "z"]).
Proof.
  refine (@filter_df_first_error no_numerals grid4
            [series_is "A"] [("z", "==", VInt 1)] [("x", "=~", VInt 1)]
            [series_is "A"] [("x", "=~", VInt 1)] ("z", "==", VInt 1)
            (Raise KeyError [AStr "z"]) eq_refl _ eq_refl).
  constructor; [|constructor]. eexists. reflexivity.
Defined.

(** [filter_df_returns_nonempty_selection] at a sample input. *)
Lemma filter_df_returns_nonempty_selection_witness :
  List.length [Some true; Some false; Some true; Some false] = List.length (df_rows grid4)
  /\ select [Some true; Some false; Some true; Some false] (df_rows grid4) <> []
  /\ df_dtypes grid4 <> [].
Proof.
  exact (@filter_df_returns_nonempty_selection no_numerals grid4 [series_is "A"] [] []
           [Some true; Some false; Some true; Some false] eq_refl).
Defined.

(** [filter_df_order_insensitive] at a sample input. *)
Lemma filter_df_order_insensitive_witness :
  filter_df no_numerals grid4 [("x", "==", VInt 1); series_is "A"] [] [series_is "B"; series_is "A"] =
  filter_df no_numerals grid4 [series_is "A"; ("x", "==", VInt 1)] [] two_series.
Proof.
  exact (@filter_df_order_insensitive no_numerals grid4
           [series_is "A"; ("x", "==", VInt 1)] [("x", "==", VInt 1); series_is "A"]
           [] [] two_series [series_is "B"; series_is "A"]
           [[Some true; Some false; Some true; Some false];
            [Some true; Some true; Some false; Some false]]
           []
           [[Some true; Some false; Some true; Some false];
            [Some false; Some true; Some false; Some true]]
           (perm_swap _ _ _) (perm_nil _) (perm_swap _ _ _) eq_refl eq_refl eq_refl).
Defined.

(** [row_count_without_series] at a sample input. *)
Lemma row_count_without_series_witness :
  check_filtered_row_count three_rows (all_true 3) x_axis0 [] bench_columns = Ok tt
  <-> NoDup (map (fun r => r "x") (select (all_true 3) (df_rows three_rows))).
Proof.
  refine (@row_count_without_series three_rows (all_true 3) x_axis0 bench_columns DInt64
            eq_refl _).
  repeat constructor.
Defined.

(** [row_count_error_precedence] at sample inputs: a table without the x-axis
    column, and a plot column that the table does not have. *)
Lemma row_count_error_precedence_witness :
  check_filtered_row_count series_only (all_true 2) x_axis0 [] ["series"] =
    Err (Raise KeyError [AStr "x"])
  /\ check_filtered_row_count three_rows (all_true 3) x_axis0 [] ["x"; "z"] = Ok tt
  /\ check_filtered_row_count pair_AB (all_true 2) x_axis0 [] ["x"; "z"] =
       Err (Raise KeyError [AList ["z"]]).
Proof.
  split; [|split].
  - exact (proj1 (@row_count_error_precedence series_only (all_true 2) x_axis0 []
                    ["series"]) eq_refl).
  - refine (proj1 (proj2 (@row_count_error_precedence three_rows (all_true 3) x_axis0 []
                            ["x"; "z"]) "z" _ _ eq_refl) _).
    + discriminate.
    + simpl; auto.
    + vm_compute. lia.
  - refine (proj2 (proj2 (@row_count_error_precedence pair_AB (all_true 2) x_axis0 []
                            ["x"; "z"]) "z" _ _ eq_refl) _).
    + discriminate.
    + simpl; auto.
    + vm_compute. lia.
Defined.

(** [sort_df_idempotent_with_series] at a sample input. *)
Lemma sort_df_idempotent_with_series_witness :
  sort_df (@reversing_sort row) sorted4 x_axis0 ["series"] = Ok sorted4.
Proof.
  exact (@sort_df_idempotent_with_series (@reversing_sort row) shuffled4 sorted4 x_axis0
           "series" [] eq_refl).
Defined.

(** [invalid_constant_rejected_first] at a sample input. *)
Lemma invalid_constant_rejected_first_witness :
  transform_df_data no_numerals grid4 x_axis0
    (mkAxis "y" (Some (mkScaling None (Some (VInt 0))))) two_series (all_true 4) =
    Err (Raise RuntimeError
           [AMsg [Lit "Invalid custom scaling value (cannot divide by ";
                  Obj (VInt 0); Lit ")."]]).
Proof.
  exact (@invalid_constant_rejected_first no_numerals grid4 x_axis0 "y" (Some (VInt 0))
           two_series (all_true 4) eq_refl).
Defined.

(** [falsy_x_value_is_ignored] at a sample input. *)
Lemma falsy_x_value_is_ignored_witness :
  transform_df_data no_numerals grid4 x_axis0
    (mkAxis "y" (Some (mkScaling (Some (mkScalingColumn "y" (Some 0%Z) (Some (VInt 0)))) None)))
    two_series (all_true 4) =
  transform_df_data no_numerals grid4 x_axis0 y_axis_by_first_series two_series (all_true 4).
Proof.
  exact (@falsy_x_value_is_ignored no_numerals grid4 x_axis0 "y" "y" (Some 0%Z) (VInt 0)
           None two_series (all_true 4) eq_refl).
Defined.

(** [series_index_out_of_range] at a sample input. *)
Lemma series_index_out_of_range_witness :
  transform_df_data no_numerals grid4 x_axis0
    (mkAxis "y" (Some (mkScaling (Some (mkScalingColumn "y" (Some 2%Z) None)) None)))
    two_series (all_true 4) =
    Err (Raise IndexError [AMsg [Lit "list index out of range"]]).
Proof.
  refine (@series_index_out_of_range no_numerals grid4 x_axis0 "y" "y" 2%Z None None
            two_series (all_true 4) Dfloat64 eq_refl _).
  right. simpl. lia.
Defined.

(** [baseline_vector_divides_elementwise] at a sample input. *)
Lemma baseline_vector_divides_elementwise_witness :
  exists df' ssm',
    transform_axis no_numerals grid4 (all_true 4) y_axis_by_first_series
      (Some (mkSeries Dfloat64 [VFloat 10; VFloat 20; VFloat 30; VFloat 40])) None None =
      Ok (df', ssm')
    /\ map (fun r => r "y") (select (all_true 4) (df_rows df')) =
       map (fun p => quotient (fst p) (snd p))
           (combine (map (fun r => r "y") (select (all_true 4) (df_rows grid4)))
                    [VFloat 10; VFloat 20; VFloat 30; VFloat 40]).
Proof.
  refine (@baseline_vector_divides_elementwise no_numerals grid4 (all_true 4)
            y_axis_by_first_series
            (mkSeries Dfloat64 [VFloat 10; VFloat 20; VFloat 30; VFloat 40])
            None None eq_refl eq_refl _ _ eq_refl _).
  - repeat constructor.
  - repeat constructor.
  - vm_compute. lia.
Defined.

(** [constant_scaling_by_series] at a sample input. *)
Lemma constant_scaling_by_series_witness :
  transform_df_data no_numerals grid4 x_axis0 y_axis_custom10 two_series (all_true 4) =
    Ok (mkDF (df_dtypes grid4)
          (fold_left (fun rs m => scale_where (mask_and (all_true 4) m) "y" (VFloat 10) rs)
             [[Some true; Some false; Some true; Some false];
              [Some false; Some true; Some false; Some true]]
             (df_rows grid4))).
Proof.
  refine (@constant_scaling_by_series no_numerals grid4 x_axis0 "y" (VInt 10) (VFloat 10)
            (series_is "A") [series_is "B"]
            [[Some true; Some false; Some true; Some false];
             [Some false; Some true; Some false; Some true]]
            (all_true 4) eq_refl eq_refl _ eq_refl _ eq_refl).
  - repeat constructor.
  - repeat constructor; discriminate.
Defined.

(** [run_post_processing_returns_selected_records] at a sample input. *)
Lemma run_post_processing_returns_selected_records_witness :
  exists (df sorted scaled : DataFrame) (mask : Mask),
    Ok shuffled4 = Ok df
    /\ sort_df (@reversing_sort row) df x_axis0 ["series"; "series"] = Ok sorted
    /\ filter_df no_numerals sorted [] [] two_series = Ok mask
    /\ writes_only mask "y" sorted scaled
    /\ [[VInt 1; VStr "A"; VFloat 1]; [VInt 1; VStr "B"; VFloat 2];
        [VInt 2; VStr "A"; VFloat 3]; [VInt 2; VStr "B"; VFloat 4]] =
       map (fun r => map r bench_columns) (select mask (df_rows scaled))
    /\ plot_nothing "Sample"
         [[VInt 1; VStr "A"; VFloat 1]; [VInt 1; VStr "B"; VFloat 2];
          [VInt 2; VStr "A"; VFloat 3]; [VInt 2; VStr "B"; VFloat 4]]
         x_axis0 y_axis_custom10 two_series = Ok tt
    /\ 1 <= 4
    /\ 4 <= multiplicity_product ["series"; "series"] * distinct_x sorted mask x_axis0.
Proof.
  exact (@run_post_processing_returns_selected_records no_numerals (@reversing_sort row)
           plot_nothing (Ok shuffled4) config0
           [[VInt 1; VStr "A"; VFloat 1]; [VInt 1; VStr "B"; VFloat 2];
            [VInt 2; VStr "A"; VFloat 3]; [VInt 2; VStr "B"; VFloat 4]]
           eq_refl).
Defined.


(** [baseline_series_mask_replaces_group_mask] at a sample input: the first
    series at x = 1 is the baseline, and the mask excludes its record. *)
Lemma baseline_series_mask_replaces_group_mask_witness :
  transform_df_data no_numerals grid4 x_axis0
    (mkAxis "y" (Some (mkScaling (Some (mkScalingColumn "y" (Some 0%Z) (Some (VInt 1))))
                         None)))
    two_series [Some false; Some true; Some true; Some true] =
  Ok (mkDF (df_dtypes grid4)
        (fold_left (fun rs m => scale_group
                                  (mask_and [Some false; Some true; Some true; Some true] m)
                                  "y" [VFloat 10] rs)
           [[Some true; Some false; Some true; Some false];
            [Some false; Some true; Some false; Some true]]
           (df_rows grid4))).
Proof.
  refine (proj1 (baseline_series_mask_replaces_group_mask no_numerals) grid4 x_axis0
            "y" "y" 0%Z (Some (VInt 1)) None two_series
            [Some false; Some true; Some true; Some true] Dfloat64 (series_is "A")
            [Some true; Some false; Some true; Some false]
            [Some true; Some false; Some false; Some false]
            [[Some true; Some false; Some true; Some false];
             [Some false; Some true; Some false; Some true]]
            eq_refl _ eq_refl eq_refl eq_refl eq_refl _ _ _ eq_refl _).
  - repeat constructor.
  - cbn. do 2 eexists. repeat split; reflexivity.
  - repeat constructor.
  - repeat constructor; discriminate.
  - repeat constructor; left; reflexivity.
Defined.
